(** * MegaPose orchestration pipeline ([megapose/nvmegapose.py])

    A shallow embedding of the [Megapose] facade: the catalog builders, the
    render-cache loader, the observation builder, pose persistence, the
    inference entry point and the visualization compositor, together with
    the properties the specification states about them.

    Conventions of the embedding.
    - Python exceptions are values of [exn]; a computation that may raise
      returns a [result].  Code that writes files runs in the monad [io],
      which threads the file system through failures as well, so that a
      partial write stays visible after an exception.
    - The file system is a tree of named nodes.  A file is modelled by what
      its bytes decode to (an image for PIL, a JSON document for [json]);
      the decoders themselves are library code.
    - numpy and torch arrays are a shape together with a flat row-major
      buffer.  [np.float32] values are idealised as rationals ([Q]): the
      rounding of single precision arithmetic is not modelled.
    - Collaborators that the facade only calls (the estimator, the renderer,
      the plotting backend, [CameraData.from_json], the YCB name table) are
      interfaces: type classes whose methods the definitions call. *)

Set Warnings "-register-all".

From Stdlib Require Import ZArith QArith Ascii String List Sorted Permutation.
From Stdlib Require Import Qabs Qround Lqa DecimalString DecimalNat Lia.
From stdpp Require Import base option list gmap strings.

Close Scope Q_scope.
Local Open Scope string_scope.
Local Open Scope list_scope.

(** ** Exceptions and results *)

Definition path := list string.

Inductive exn : Type :=
| AssertionError (msg : string)
| AttributeError (msg : string)
| FileNotFoundError (p : path)
| FileExistsError (p : path)
| IsADirectoryError (p : path)
| NotADirectoryError (p : path)
| UnidentifiedImageError (p : path)
| ValueError (msg : string)
| RuntimeError (msg : string)
| TypeError (msg : string)
| IndexError (msg : string)
| PersistenceError (msg : string)
| LibraryError (msg : string).

Inductive result (A : Type) : Type :=
| Ok (a : A)
| Raise (e : exn).
Arguments Ok {A} a.
Arguments Raise {A} e.

Definition rbind {A B} (m : result A) (k : A -> result B) : result B :=
  match m with
  | Ok a => k a
  | Raise e => Raise e
  end.

#[export] Instance result_bind : MBind result := fun A B k m => rbind m k.
#[export] Instance result_ret : MRet result := @Ok.

Definition is_ok {A} (r : result A) : bool :=
  match r with Ok _ => true | Raise _ => false end.

(** [assert cond, msg], as the interpreter runs it without [-O]. *)
Definition py_assert (cond : bool) (msg : string) : result unit :=
  if cond then Ok tt else Raise (AssertionError msg).

(** A list comprehension whose body may raise: the first exception wins. *)
Fixpoint mapM {A B} (f : A -> result B) (l : list A) : result (list B) :=
  match l with
  | [] => Ok []
  | a :: l' => b ← f a; bs ← mapM f l'; Ok (b :: bs)
  end.

(** ** JSON documents *)

Inductive json : Type :=
| JNull
| JBool (b : bool)
| JNum (q : Q)
| JStr (s : string)
| JArr (l : list json)
| JObj (fields : list (string * json)).

(** ** Images and arrays *)

(** The PIL modes a PNG decodes to that this pipeline meets: 8-bit grey,
    grey+alpha, RGB, RGBA, and 16-bit grey (depth maps). *)
Inductive pil_mode := mode_L | mode_LA | mode_RGB | mode_RGBA | mode_I16.

Definition bands (m : pil_mode) : nat :=
  match m with
  | mode_L => 1 | mode_LA => 2 | mode_RGB => 3 | mode_RGBA => 4 | mode_I16 => 1
  end.

(** A decoded image: [samples] holds height * width * bands values in
    row-major (H, W, C) order. *)
Record pil_image := {
  im_mode : pil_mode;
  im_height : nat;
  im_width : nat;
  samples : list Z
}.

Record ndarray (A : Type) := {
  shape : list nat;
  data : list A
}.
Arguments shape {A} _.
Arguments data {A} _.

(** The shape of [np.array(image)]: a single band gives a 2-D array. *)
Definition array_shape (im : pil_image) : list nat :=
  im_height im :: im_width im ::
  (if Nat.eqb (bands (im_mode im)) 1 then [] else [bands (im_mode im)]).

(** [np.array(image, dtype=np.uint8)]: wider samples wrap modulo 256. *)
Definition np_array_uint8 (im : pil_image) : ndarray Z :=
  {| shape := array_shape im;
     data := map (fun v => (v mod 256)%Z) (samples im) |}.

(** [np.array(image, dtype=np.float32)] *)
Definition np_array_float32 (im : pil_image) : ndarray Q :=
  {| shape := array_shape im; data := map inject_Z (samples im) |}.

(** [array / c], elementwise *)
Definition np_div (a : ndarray Q) (c : Q) : ndarray Q :=
  {| shape := shape a; data := map (fun v => Qdiv v c) (data a) |}.

(** ** The file system *)

Inductive content : Type :=
| PngData (im : pil_image)
| JsonText (v : json)
| RawBytes (s : string).

Inductive node : Type :=
| File (c : content)
| Dir (entries : list (string * node)).

Fixpoint assoc {A} (k : string) (l : list (string * A)) : option A :=
  match l with
  | [] => None
  | (k', v) :: l' => if String.eqb k k' then Some v else assoc k l'
  end.

(** Replace the binding of [k], or append one when [k] is new. *)
Fixpoint assoc_set {A} (k : string) (v : A) (l : list (string * A))
  : list (string * A) :=
  match l with
  | [] => [(k, v)]
  | (k', v') :: l' =>
      if String.eqb k k' then (k, v) :: l' else (k', v') :: assoc_set k v l'
  end.

(** Path resolution from the node [n]; [full] is the path reported in the
    exception. *)
Fixpoint resolve_from (full : path) (n : node) (p : path) : result node :=
  match p with
  | [] => Ok n
  | c :: p' =>
      match n with
      | File _ => Raise (NotADirectoryError full)
      | Dir es =>
          match assoc c es with
          | Some n' => resolve_from full n' p'
          | None => Raise (FileNotFoundError full)
          end
      end
  end.

Definition resolve (fs : node) (p : path) : result node := resolve_from p fs p.

(** [Path.read_text()], up to decoding *)
Definition read_text (fs : node) (p : path) : result content :=
  n ← resolve fs p;
  match n with
  | File c => Ok c
  | Dir _ => Raise (IsADirectoryError p)
  end.

(** [json.loads(text)] on the text of a file *)
Definition json_loads (c : content) : result json :=
  match c with
  | JsonText v => Ok v
  | _ => Raise (ValueError "not a JSON document")
  end.

(** [Image.open(path)] followed by decoding *)
Definition Image_open (fs : node) (p : path) : result pil_image :=
  n ← resolve fs p;
  match n with
  | File (PngData im) => Ok im
  | File _ => Raise (UnidentifiedImageError p)
  | Dir _ => Raise (IsADirectoryError p)
  end.

(** [os.path.isdir] *)
Definition isdir (fs : node) (p : path) : bool :=
  match resolve fs p with
  | Ok (Dir _) => true
  | _ => false
  end.

(** [Path.iterdir()]: the children of a directory, in listing order. *)
Definition iterdir (fs : node) (p : path) : result (list path) :=
  n ← resolve fs p;
  match n with
  | Dir es => Ok (map (fun e => p ++ [fst e]) es)
  | File _ => Raise (NotADirectoryError p)
  end.

(** [os.listdir] *)
Definition listdir (fs : node) (p : path) : result (list string) :=
  n ← resolve fs p;
  match n with
  | Dir es => Ok (map fst es)
  | File _ => Raise (NotADirectoryError p)
  end.

(** [Path.glob("*")]: the children of a directory; nothing for a path that
    is not a directory. *)
Definition glob_star (fs : node) (p : path) : list path :=
  match resolve fs p with
  | Ok (Dir es) => map (fun e => p ++ [fst e]) es
  | _ => []
  end.

(** The relative paths of all descendants of a node, parents first. *)
Fixpoint descendants (n : node) : list path :=
  match n with
  | File _ => []
  | Dir es =>
      (fix go (es : list (string * node)) : list path :=
         match es with
         | [] => []
         | (name, child) :: rest =>
             ([name] :: map (cons name) (descendants child)) ++ go rest
         end) es
  end.

Definition ends_with (s suf : string) : bool :=
  (String.length suf <=? String.length s)%nat &&
  String.eqb
    (substring (String.length s - String.length suf) (String.length suf) s) suf.

(** The final component of a path ([PurePath.name]). *)
Definition name (p : path) : string := List.last p "".

(** [Path.rglob("*" + ext)]: every descendant whose name ends with [ext]. *)
Definition rglob (fs : node) (p : path) (ext : string) : list path :=
  match resolve fs p with
  | Ok (Dir es) =>
      map (app p) (List.filter (fun q => ends_with (name q) ext) (descendants (Dir es)))
  | _ => []
  end.

(** Index of the last "." of [s], counting from [i]. *)
Fixpoint rfind_dot (s : string) (i : nat) : option nat :=
  match s with
  | EmptyString => None
  | String c s' =>
      match rfind_dot s' (S i) with
      | Some j => Some j
      | None => if Ascii.eqb c "." then Some i else None
      end
  end.

(** [PurePath.suffix]: the last dot-separated part of the name, dot
    included; empty when the only dot leads or ends the name. *)
Definition suffix (p : path) : string :=
  let nm := name p in
  match rfind_dot nm 0 with
  | Some i =>
      if (0 <? i)%nat && (i <? String.length nm - 1)%nat
      then substring i (String.length nm - i) nm
      else ""
  | None => ""
  end.

(** Paths compare as their lists of components, strings by code point. *)
Fixpoint path_compare (p q : path) : comparison :=
  match p, q with
  | [], [] => Eq
  | [], _ :: _ => Lt
  | _ :: _, [] => Gt
  | a :: p', b :: q' =>
      match String.compare a b with
      | Eq => path_compare p' q'
      | c => c
      end
  end.

Definition path_ltb (p q : path) : bool :=
  match path_compare p q with Lt => true | _ => false end.

Definition path_leb (p q : path) : bool := negb (path_ltb q p).

Fixpoint insert_sorted (x : path) (l : list path) : list path :=
  match l with
  | [] => [x]
  | y :: l' => if path_leb x y then x :: y :: l' else y :: insert_sorted x l'
  end.

(** [sorted(paths)]: a stable sort by [<]. *)
Fixpoint sorted (l : list path) : list path :=
  match l with
  | [] => []
  | x :: l' => insert_sorted x (sorted l')
  end.

(** The [io] monad: file-system state threaded through exceptions. *)
Definition io (A : Type) : Type := node -> node * result A.

#[export] Instance io_ret : MRet io := fun A a fs => (fs, Ok a).
#[export] Instance io_bind : MBind io := fun A B k m fs =>
  match m fs with
  | (fs', Ok a) => k a fs'
  | (fs', Raise e) => (fs', Raise e)
  end.

(** A computation that only reads the file system. *)
Definition reading {A} (f : node -> result A) : io A := fun fs => (fs, f fs).

(** A computation that does not touch the file system. *)
Definition pure {A} (r : result A) : io A := fun fs => (fs, r).

(** Bind [new] at the path [p] below [n]; the parent of [p] must exist and
    be a directory. *)
Fixpoint put_from (full : path) (n : node) (p : path) (new : node) : result node :=
  match p with
  | [] => Ok new
  | c :: p' =>
      match n with
      | File _ => Raise (NotADirectoryError full)
      | Dir es =>
          match p' with
          | [] => Ok (Dir (assoc_set c new es))
          | _ :: _ =>
              match assoc c es with
              | Some n' =>
                  n'' ← put_from full n' p' new;
                  Ok (Dir (assoc_set c n'' es))
              | None => Raise (FileNotFoundError full)
              end
          end
      end
  end.

Definition put (fs : node) (p : path) (new : node) : result node :=
  put_from p fs p new.

(** [Path.mkdir(exist_ok=True)] (without [parents=True]) *)
Definition mkdir_exist_ok (p : path) : io unit := fun fs =>
  match resolve fs p with
  | Ok (Dir _) => (fs, Ok tt)
  | Ok (File _) => (fs, Raise (FileExistsError p))
  | Raise _ =>
      match put fs p (Dir []) with
      | Ok fs' => (fs', Ok tt)
      | Raise e => (fs, Raise e)
      end
  end.

(** Create or replace the regular file [p] with content [c]. *)
Definition write_file (p : path) (c : content) : io unit := fun fs =>
  match resolve fs p with
  | Ok (Dir _) => (fs, Raise (IsADirectoryError p))
  | _ =>
      match put fs p (File c) with
      | Ok fs' => (fs', Ok tt)
      | Raise e => (fs, Raise e)
      end
  end.

(** [PurePath.parent] *)
Definition parent (p : path) : path := removelast p.

(** ** Scene records (megapose.datasets) *)

Definition matrix := list (list Q).

Record Transform := { T_matrix : matrix }.

Record CameraData := {
  K : matrix;
  resolution : option (list nat);
  TWC : option Transform
}.

Record ObjectData := {
  label : string;
  bbox_modal : option (list Q);
  TWO : option Transform
}.

Record RigidObject := {
  ro_label : string;
  mesh_path : path;
  mesh_units : string
}.

Record RigidObjectDataset := { list_objects : list RigidObject }.

(** Modelled from the spec: the constructor of [RigidObjectDataset]
    (megapose.datasets.object_dataset) is not among the sources.  The data
    model calls the dataset a collection "keyed by unique label"; the
    constructor therefore refuses a list in which a label repeats. *)
Definition make_RigidObjectDataset (objects : list RigidObject)
  : result RigidObjectDataset :=
  if bool_decide (NoDup (map ro_label objects))
  then Ok {| list_objects := objects |}
  else Raise (RuntimeError "There are objects with duplicate labels").

(** ** Observation builder *)

(** [CameraData.from_json], applied to the parsed camera file. *)
Class CameraJson := {
  CameraData_from_json : json -> result CameraData
}.

Definition load_camera_data `{CameraJson} (fs : node) (p : path)
  : result CameraData :=
  text ← read_text fs p;
  v ← json_loads text;
  CameraData_from_json v.

(** [a.shape[:2] == camera_data.resolution] *)
Definition resolution_matches {A} (a : ndarray A) (cam : CameraData) : bool :=
  bool_decide (Some (take 2 (shape a)) = resolution cam).

Definition load_observation `{CameraJson}
    (fs : node) (example_dir : path) (load_depth : bool)
  : result (ndarray Z * option (ndarray Q) * CameraData) :=
  camera_data ← load_camera_data fs (example_dir ++ ["ycbv_camera_data.json"]);
  im ← Image_open fs (example_dir ++ ["image_rgb.png"]);
  let rgb := np_array_uint8 im in
  _ ← py_assert (resolution_matches rgb camera_data) "";
  if load_depth then
    dim ← Image_open fs (example_dir ++ ["image_depth.png"]);
    let depth := np_div (np_array_float32 dim) (10000 # 1) in
    _ ← py_assert (resolution_matches depth camera_data) "";
    Ok (rgb, Some depth, camera_data)
  else
    Ok (rgb, None, camera_data).

(** ** Catalog builder *)

(** [fn.suffix in {".obj", ".ply"}] *)
Definition is_mesh (fn : path) : bool :=
  String.eqb (suffix fn) ".obj" || String.eqb (suffix fn) ".ply".

(** The inner loop of [make_object_dataset] over [object_dir.glob("*")],
    with the running value of [mesh_path]. *)
Fixpoint scan_meshes (lbl : string) (fns : list path) (mesh_path : option path)
  : result (option path) :=
  match fns with
  | [] => Ok mesh_path
  | fn :: rest =>
      if is_mesh fn then
        _ ← py_assert (negb (bool_decide (is_Some mesh_path)))
              ("there multiple meshes in the " +:+ lbl +:+ " directory");
        scan_meshes lbl rest (Some fn)
      else scan_meshes lbl rest mesh_path
  end.

(** One iteration of the outer loop: the catalog entry of [object_dir]. *)
Definition object_of_dir (fs : node) (mesh_units : string) (object_dir : path)
  : result RigidObject :=
  let lbl := name object_dir in
  found ← scan_meshes lbl (glob_star fs object_dir) None;
  match found with
  | Some mesh => Ok {| ro_label := lbl; mesh_path := mesh; mesh_units := mesh_units |}
  | None => Raise (AssertionError ("couldnt find a obj or ply mesh for " +:+ lbl))
  end.

Definition make_object_dataset (fs : node) (cad_model_dir : path)
  : result RigidObjectDataset :=
  let mesh_units := "m" in
  object_dirs ← iterdir fs cad_model_dir;
  rigid_objects ← mapM (object_of_dir fs mesh_units) object_dirs;
  make_RigidObjectDataset rigid_objects.

(** [self.Convert_YCB], the table from a 1-based position to a YCB name. *)
Class YcbNames := {
  convert_number : nat -> string
}.

(** [enumerate(l)], counting from [start] *)
Fixpoint enumerate {A} (start : nat) (l : list A) : list (nat * A) :=
  match l with
  | [] => []
  | a :: l' => (start, a) :: enumerate (S start) l'
  end.

Definition ycb_rigid_objects `{YcbNames} (object_plys : list path)
  : list RigidObject :=
  map (fun e => {| ro_label := convert_number (fst e + 1);
                   mesh_path := snd e;
                   mesh_units := "mm" |})
      (enumerate 0 object_plys).

Definition make_ycb_object_dataset `{YcbNames} (fs : node) (cad_model_dir : path)
  : result RigidObjectDataset :=
  let object_plys := sorted (rglob fs cad_model_dir ".ply") in
  make_RigidObjectDataset (ycb_rigid_objects object_plys).

(** ** Render cache loader *)

(** Reorder a flat (H, W, C) buffer as (C, H, W). *)
Definition hwc_to_chw {A} (d : A) (h w c : nat) (l : list A) : list A :=
  flat_map (fun ci => map (fun i => nth (i * c + ci) l d) (seq 0 (h * w)))
           (seq 0 c).

Definition is_8bit (m : pil_mode) : bool :=
  match m with mode_I16 => false | _ => true end.

(** A 16-bit sample read as [np.int16]: two's complement, so 65535 is -1. *)
Definition as_int16 (v : Z) : Z := ((v + 32768) mod 65536 - 32768)%Z.

(** [transforms.ToTensor()]: a [C, H, W] tensor; 8-bit samples are divided
    by 255.  torchvision reads a 16-bit image as int16 and does not rescale
    it; the render cache statements below concern 8-bit images only. *)
Definition ToTensor (im : pil_image) : ndarray Q :=
  let c := bands (im_mode im) in
  let chw := hwc_to_chw 0%Z (im_height im) (im_width im) c (samples im) in
  {| shape := [c; im_height im; im_width im];
     data := map (fun v => if is_8bit (im_mode im)
                           then Qdiv (inject_Z v) (255 # 1)
                           else inject_Z (as_int16 v)) chw |}.

(** [torch.cat((a, b), dim=0)] *)
Definition torch_cat (a b : ndarray Q) : result (ndarray Q) :=
  match shape a, shape b with
  | n :: s, m :: s' =>
      if bool_decide (s = s')
      then Ok {| shape := (n + m) :: s; data := data a ++ data b |}
      else Raise (RuntimeError "Sizes of tensors must match except in dimension 0")
  | _, _ => Raise (RuntimeError "zero-dimensional tensor cannot be concatenated")
  end.

(** [torch.stack(tensors)] *)
Definition torch_stack (l : list (ndarray Q)) : result (ndarray Q) :=
  match l with
  | [] => Raise (RuntimeError "stack expects a non-empty TensorList")
  | t :: rest =>
      if forallb (fun t' => bool_decide (shape t' = shape t)) rest
      then Ok {| shape := length l :: shape t; data := flat_map data l |}
      else Raise (RuntimeError "stack expects each tensor to be equal size")
  end.

(** ["{:03d}".format(i)] *)
Definition padded_num (i : nat) : string :=
  let s := NilZero.string_of_uint (Nat.to_uint i) in
  String.concat "" (repeat "0" (3 - String.length s)) +:+ s.

(** The body of the loop over [range(num_files)]. *)
Definition load_pair (fs : node) (sub_folder_path : path) (i : nat)
  : result (ndarray Q) :=
  let rgb_path := sub_folder_path ++ ["rgb_" +:+ padded_num i +:+ ".png"] in
  rgb_image ← Image_open fs rgb_path;
  let rgb_tensor := ToTensor rgb_image in
  let normal_path := sub_folder_path ++ ["normal_" +:+ padded_num i +:+ ".png"] in
  normal_image ← Image_open fs normal_path;
  let normal_tensor := ToTensor normal_image in
  torch_cat rgb_tensor normal_tensor.

(** [int(len(png_files) / 2)] *)
Definition num_files (fs : node) (sub_folder_path : path) : nat :=
  length (sorted (rglob fs sub_folder_path ".png")) / 2.

(** The work done for one sub-folder that is a directory. *)
Definition load_folder (fs : node) (sub_folder_path : path) : result (ndarray Q) :=
  images_list ← mapM (load_pair fs sub_folder_path)
                     (seq 0 (num_files fs sub_folder_path));
  torch_stack images_list.

Fixpoint load_renders_loop (fs : node) (renders_path : path)
    (sub_folders : list string) (folder_tensors : gmap string (ndarray Q))
  : result (gmap string (ndarray Q)) :=
  match sub_folders with
  | [] => Ok folder_tensors
  | sub_folder :: rest =>
      let sub_folder_path := renders_path ++ [sub_folder] in
      if isdir fs sub_folder_path then
        folder_tensor ← load_folder fs sub_folder_path;
        load_renders_loop fs renders_path rest
          (<[sub_folder := folder_tensor]> folder_tensors)
      else load_renders_loop fs renders_path rest folder_tensors
  end.

Definition load_renders (fs : node) (renders_path : path)
  : result (gmap string (ndarray Q)) :=
  sub_folders ← listdir fs renders_path;
  load_renders_loop fs renders_path sub_folders ∅.

(** ** Pose persistence *)

(** How a float crosses the JSON text: [float_to_json x] is the decimal
    value printed for the float [x], [float_of_json d] the float read back
    from the decimal value [d]. *)
Class FloatJson := {
  float_to_json : Q -> Q;
  float_of_json : Q -> Q
}.

Definition numbers_to_json `{FloatJson} (l : list Q) : json :=
  JArr (map (fun x => JNum (float_to_json x)) l).

Definition number_from_json `{FloatJson} (v : json) : result Q :=
  match v with
  | JNum d => Ok (float_of_json d)
  | _ => Raise (PersistenceError "number expected")
  end.

Definition numbers_from_json `{FloatJson} (v : json) : result (list Q) :=
  match v with
  | JArr l => mapM number_from_json l
  | _ => Raise (PersistenceError "array expected")
  end.

Definition is_4x4 (m : matrix) : bool :=
  Nat.eqb (length m) 4 && forallb (fun row => Nat.eqb (length row) 4) m.

(** Modelled from the spec: [Transform.to_json] and [Transform.from_json]
    (megapose.lib3d.transform) are not among the sources.  The ObjectData
    JSON schema gives ["TWO"] as a "4x4-matrix": an array of four rows of
    four numbers. *)
Definition Transform_to_json `{FloatJson} (t : Transform) : json :=
  JArr (map numbers_to_json (T_matrix t)).

Definition Transform_from_json `{FloatJson} (v : json) : result Transform :=
  match v with
  | JArr rows =>
      m ← mapM numbers_from_json rows;
      if is_4x4 m then Ok {| T_matrix := m |}
      else Raise (PersistenceError "4x4 matrix expected")
  | _ => Raise (PersistenceError "array expected")
  end.

(** Modelled from the spec: [ObjectData.to_json] and [ObjectData.from_json]
    (megapose.datasets.scene_dataset) are not among the sources.  The schema
    is that of the external interfaces: an object with a string "label", a
    "bbox_modal" that is four numbers or null, and a "TWO" that is a 4x4
    matrix or null. *)
Definition ObjectData_to_json `{FloatJson} (od : ObjectData) : json :=
  JObj [("label", JStr (label od));
        ("bbox_modal", match bbox_modal od with
                       | Some b => numbers_to_json b
                       | None => JNull
                       end);
        ("TWO", match TWO od with
                | Some t => Transform_to_json t
                | None => JNull
                end)].

Definition ObjectData_from_json `{FloatJson} (v : json) : result ObjectData :=
  match v with
  | JObj fields =>
      lbl ← match assoc "label" fields with
            | Some (JStr s) => Ok s
            | _ => Raise (PersistenceError "label expected")
            end;
      bbox ← match assoc "bbox_modal" fields with
             | None | Some JNull => Ok None
             | Some b => l ← numbers_from_json b; Ok (Some l)
             end;
      two ← match assoc "TWO" fields with
            | None | Some JNull => Ok None
            | Some t => tr ← Transform_from_json t; Ok (Some tr)
            end;
      Ok {| label := lbl; bbox_modal := bbox; TWO := two |}
  | _ => Raise (PersistenceError "object expected")
  end.

(** What a [for] loop over a parsed JSON value visits: the items of an
    array, the keys of an object, the characters of a string. *)
Definition py_iter (v : json) : result (list json) :=
  match v with
  | JArr l => Ok l
  | JObj fields => Ok (map (fun f => JStr (fst f)) fields)
  | JStr s => Ok (map (fun c => JStr (String c EmptyString)) (list_ascii_of_string s))
  | _ => Raise (TypeError "object is not iterable")
  end.

Definition load_object_data `{FloatJson} (fs : node) (data_path : path)
  : result (list ObjectData) :=
  text ← read_text fs data_path;
  object_data ← json_loads text;
  items ← py_iter object_data;
  mapM ObjectData_from_json items.

(** [PoseEstimatesType]: the label column of [infos] and the pose tensor,
    one 4x4 matrix per row. *)
Record PoseEstimatesType := {
  infos_label : list string;
  poses : list matrix
}.

Definition save_predictions `{FloatJson}
    (example_dir : path) (pose_estimates : PoseEstimatesType) : io unit :=
  let labels := infos_label pose_estimates in
  let poses := poses pose_estimates in
  let object_data :=
    map (fun lp => {| label := fst lp; bbox_modal := None;
                      TWO := Some {| T_matrix := snd lp |} |})
        (zip labels poses) in
  let object_data_json := JsonText (JArr (map ObjectData_to_json object_data)) in
  let output_fn := example_dir ++ ["object_data.json"] in
  _ ← mkdir_exist_ok (parent output_fn);
  write_file output_fn object_data_json.

(** ** Pose estimator facade *)

(** The estimator side of the facade (megapose.inference): building the
    observation and the detections, and the inference pipeline itself, run
    with [run_detector=False] and the preset's inference parameters. *)
Class PoseEstimator := {
  observation_tensor : Type;
  detections_type : Type;
  ObservationTensor_from_numpy :
    ndarray Z -> option (ndarray Q) -> matrix -> result observation_tensor;
  make_detections_from_object_data :
    list ObjectData -> result detections_type;
  run_inference_pipeline :
    observation_tensor -> detections_type -> result PoseEstimatesType
}.

(** The calls a run of [inference] makes to the estimator, in order. *)
Inductive call : Type :=
| CallFromNumpy (rgb : ndarray Z) (depth : option (ndarray Q)) (K : matrix)
| CallMakeDetections (object_data : list ObjectData)
| CallRunInferencePipeline.

Definition traced (A : Type) : Type := (list call * result A)%type.

#[export] Instance traced_bind : MBind traced := fun A B k m =>
  match m with
  | (t, Ok a) => (t ++ fst (k a), snd (k a))
  | (t, Raise e) => (t, Raise e)
  end.

Definition quiet {A} (r : result A) : traced A := ([], r).
Definition calling {A} (c : call) (r : result A) : traced A := ([c], r).

(** [depth.shape] *)
Definition shape_attr {A} (depth : option (ndarray A)) : result (ndarray A) :=
  match depth with
  | Some d => Ok d
  | None => Raise (AttributeError "'NoneType' object has no attribute 'shape'")
  end.

Definition inference `{PoseEstimator} (camera_data : CameraData)
    (rgb : ndarray Z) (depth : option (ndarray Q))
    (lbl : string) (bbox : list Q) : traced PoseEstimatesType :=
  _ ← quiet (py_assert (resolution_matches rgb camera_data) "");
  d ← quiet (shape_attr depth);
  _ ← quiet (py_assert (resolution_matches d camera_data) "");
  observation ← calling (CallFromNumpy rgb depth (K camera_data))
                  (ObservationTensor_from_numpy rgb depth (K camera_data));
  let object_data := [{| label := lbl; bbox_modal := Some bbox; TWO := None |}] in
  detections ← calling (CallMakeDetections object_data)
                 (make_detections_from_object_data object_data);
  output ← calling CallRunInferencePipeline
             (run_inference_pipeline observation detections);
  quiet (Ok output).

(** ** Visualization compositor *)

Record Panda3dLightData := {
  light_type : string;
  color : Q * Q * Q * Q
}.

Record render_flags := {
  render_depth : bool;
  render_binary_mask : bool;
  render_normals : bool;
  copy_arrays : bool
}.

(** The renderer (megapose.panda3d_renderer), the scene conversion, and the
    plotting backend (BokehPlotter, bokeh).  A rendering is represented by
    its [rgb] array; [export_png_image] is the image [export_png] writes
    for a figure. *)
Class Visualizer := {
  scene_renderer : Type;
  panda_camera : Type;
  panda_object : Type;
  figure : Type;
  Panda3dSceneRenderer : RigidObjectDataset -> result scene_renderer;
  convert_scene_observation_to_panda3d :
    CameraData -> list ObjectData -> result (panda_camera * list panda_object);
  render_scene :
    scene_renderer -> list panda_object -> list panda_camera ->
    list Panda3dLightData -> render_flags -> result (list (ndarray Z));
  plot_image : ndarray Z -> result figure;
  plot_overlay : ndarray Z -> ndarray Z -> result figure;
  make_contour_overlay :
    ndarray Z -> ndarray Z -> nat -> Z * Z * Z -> result (ndarray Z);
  gridplot : list (list figure) -> result figure;
  export_png_image : figure -> result pil_image
}.

(** [np.eye(4)] *)
Definition eye4 : matrix :=
  [[1; 0; 0; 0]; [0; 1; 0; 0]; [0; 0; 1; 0]; [0; 0; 0; 1]]%Q.

(** [l[0]] *)
Definition first_item {A} (l : list A) : result A :=
  match l with
  | a :: _ => Ok a
  | [] => Raise (IndexError "list index out of range")
  end.

(** Lines 81-98 of [output_visualization]: the scene is rendered. *)
Definition render_stage `{Visualizer} (camera_data : CameraData)
    (object_datas : list ObjectData) (object_dataset : RigidObjectDataset)
  : result (ndarray Z) :=
  renderer ← Panda3dSceneRenderer object_dataset;
  converted ← convert_scene_observation_to_panda3d camera_data object_datas;
  let camera_data := fst converted in
  let object_datas := snd converted in
  let light_datas :=
    [{| light_type := "ambient"; color := (1, 1, 1, 1)%Q |}] in
  renderings ← render_scene renderer object_datas [camera_data] light_datas
                 {| render_depth := false; render_binary_mask := false;
                    render_normals := false; copy_arrays := true |};
  first_item renderings.

(** [export_png(fig, filename=...)] *)
Definition export_png `{Visualizer} (fig : figure) (filename : path) : io unit :=
  im ← pure (export_png_image fig);
  write_file filename (PngData im).

(** Lines 100-115 of [output_visualization]: the figures are built and
    written. *)
Definition export_stage `{Visualizer} (example_dir : path)
    (rgb renderings_rgb : ndarray Z) : io unit :=
  fig_rgb ← pure (plot_image rgb);
  fig_mesh_overlay ← pure (plot_overlay rgb renderings_rgb);
  contour_overlay ← pure (make_contour_overlay rgb renderings_rgb 1
                            (0, 255, 0)%Z);
  fig_contour_overlay ← pure (plot_image contour_overlay);
  fig_all ← pure (gridplot [[fig_rgb; fig_contour_overlay; fig_mesh_overlay]]);
  let vis_dir := example_dir ++ ["visualizations"] in
  _ ← mkdir_exist_ok vis_dir;
  _ ← export_png fig_mesh_overlay (vis_dir ++ ["mesh_overlay.png"]);
  _ ← export_png fig_contour_overlay (vis_dir ++ ["contour_overlay.png"]);
  export_png fig_all (vis_dir ++ ["all_results.png"]).

(** Lines 81-115: everything after the inputs have been loaded. *)
Definition render_and_export `{Visualizer} (example_dir : path)
    (rgb : ndarray Z) (camera_data : CameraData)
    (object_datas : list ObjectData) (object_dataset : RigidObjectDataset)
  : io unit :=
  renderings_rgb ← pure (render_stage camera_data object_datas object_dataset);
  export_stage example_dir rgb renderings_rgb.

Definition output_visualization `{CameraJson} `{FloatJson} `{Visualizer}
    (example_dir : path) : io unit :=
  obs ← reading (fun fs => load_observation fs example_dir false);
  let rgb := fst (fst obs) in
  let camera_data :=
    {| K := K (snd obs); resolution := resolution (snd obs);
       TWC := Some {| T_matrix := eye4 |} |} in
  object_datas ← reading (fun fs =>
    load_object_data fs (example_dir ++ ["outputs"; "object_data.json"]));
  object_dataset ← reading (fun fs => make_object_dataset fs example_dir);
  render_and_export example_dir rgb camera_data object_datas object_dataset.

(** [load_observation_tensor]: the observation is packaged only after
    [load_observation] has returned. *)
Definition load_observation_tensor `{CameraJson} `{PoseEstimator}
    (fs : node) (example_dir : path) (load_depth : bool)
  : traced observation_tensor :=
  obs ← quiet (load_observation fs example_dir load_depth);
  let rgb := fst (fst obs) in
  let depth := snd (fst obs) in
  let camera_data := snd obs in
  calling (CallFromNumpy rgb depth (K camera_data))
    (ObservationTensor_from_numpy rgb depth (K camera_data)).

(** ** The remaining entry points of the facade *)

(** [load_detections]: the annotations of [inputs/object_data.json],
    handed to the detection adapter. *)
Definition load_detections `{FloatJson} `{PoseEstimator}
    (fs : node) (example_dir : path) : traced detections_type :=
  input_object_data ← quiet (load_object_data fs
                               (example_dir ++ ["inputs"; "object_data.json"]));
  calling (CallMakeDetections input_object_data)
    (make_detections_from_object_data input_object_data).

(** The model zoo (megapose.utils.load_model) and the estimator object the
    constructor configures. *)
Class ModelLoader := {
  model_info_type : Type;
  pose_estimator_type : Type;
  NAMED_MODELS : string -> result model_info_type;
  load_named_model :
    string -> path -> RigidObjectDataset -> result pose_estimator_type;
  to_device : pose_estimator_type -> string -> result pose_estimator_type;
  attach_renders :
    pose_estimator_type -> gmap string (ndarray Q) -> result pose_estimator_type
}.

(** The attributes of a [Megapose] object; [Convert_YCB] is the [YcbNames]
    instance in scope. *)
Record Megapose `{ModelLoader} := {
  device : string;
  model_name : string;
  model_info : model_info_type;
  camera_data : CameraData;
  models_path : path;
  cad_path : path;
  object_dataset : RigidObjectDataset;
  pose_estimator : pose_estimator_type;
  renders_path : path
}.

(** [Megapose.__init__], run in the working directory [fs]. *)
Definition Megapose_init `{CameraJson} `{YcbNames} `{ModelLoader}
    (fs : node) (dev : string) : result Megapose :=
  let name := "megapose-1.0-RGB-multi-hypothesis-icp" in
  info ← NAMED_MODELS name;
  cam ← load_camera_data fs ["data"; "ycbv_camera_data.json"];
  let models := ["models"; "megapose-models"] in
  let cad := ["bop_datasets"; "ycbv"; "models"] in
  dataset ← make_ycb_object_dataset fs cad;
  loaded ← load_named_model name models dataset;
  estimator ← to_device loaded dev;
  let rpath := ["data"; "ycbv_generated"] in
  renders ← load_renders fs rpath;
  attached ← attach_renders estimator renders;
  Ok {| device := dev; model_name := name; model_info := info;
        camera_data := cam; models_path := models; cad_path := cad;
        object_dataset := dataset; pose_estimator := attached;
        renders_path := rpath |}.

(** ** A concrete scene

    Simple implementations of the interfaces and a small example
    directory, on which the statements below are evaluated. *)

(** Floats that cross JSON unchanged. *)
Definition exact_float_json : FloatJson :=
  {| float_to_json := fun x => x; float_of_json := fun x => x |}.

Definition nat_from_json (v : json) : result nat :=
  match v with
  | JNum q =>
      if (Qden q =? 1)%positive && (0 <=? Qnum q)%Z
      then Ok (Z.to_nat (Qnum q))
      else Raise (ValueError "natural number expected")
  | _ => Raise (ValueError "number expected")
  end.

(** A camera file reader: an object with "K" (rows of numbers) and an
    optional "resolution" (height, width). *)
Definition simple_camera_json : CameraJson :=
  {| CameraData_from_json := fun v =>
       match v with
       | JObj fields =>
           k ← match assoc "K" fields with
               | Some (JArr rows) =>
                   mapM (@numbers_from_json exact_float_json) rows
               | _ => Raise (ValueError "K expected")
               end;
           res ← match assoc "resolution" fields with
                 | Some (JArr l) => r ← mapM nat_from_json l; Ok (Some r)
                 | None => Ok None
                 | Some _ => Raise (ValueError "resolution expected")
                 end;
           Ok {| K := k; resolution := res; TWC := None |}
       | _ => Raise (AssertionError "")
       end |}.

(** An estimator that answers one identity pose per detection. *)
Definition simple_estimator : PoseEstimator :=
  {| observation_tensor := (ndarray Z * option (ndarray Q) * matrix)%type;
     detections_type := list (string * list Q);
     ObservationTensor_from_numpy := fun rgb depth k => Ok (rgb, depth, k);
     make_detections_from_object_data := fun ods =>
       mapM (fun od => match bbox_modal od with
                       | Some b => Ok (label od, b)
                       | None => Raise (ValueError "bbox_modal is None")
                       end) ods;
     run_inference_pipeline := fun _ dets =>
       Ok {| infos_label := map fst dets; poses := map (fun _ => eye4) dets |} |}.

(** A renderer that needs a mesh for every posed object and draws an empty
    image of the camera's resolution; figures are the lists of the arrays
    they show. *)
Definition blank_array (res : option (list nat)) : ndarray Z :=
  {| shape := default [] res ++ [3]; data := [] |}.

Definition simple_visualizer : Visualizer :=
  {| scene_renderer := RigidObjectDataset;
     panda_camera := CameraData;
     panda_object := ObjectData;
     figure := list (ndarray Z);
     Panda3dSceneRenderer := fun ds => Ok ds;
     convert_scene_observation_to_panda3d := fun cam ods => Ok (cam, ods);
     render_scene := fun ds ods cams _ _ =>
       if forallb (fun od => bool_decide (label od ∈ map ro_label (list_objects ds))) ods
       then Ok (map (fun cam => blank_array (resolution cam)) cams)
       else Raise (LibraryError "no mesh for a posed object");
     plot_image := fun a => Ok [a];
     plot_overlay := fun a b => Ok [a; b];
     make_contour_overlay := fun a b _ _ => Ok b;
     gridplot := fun rows => Ok (concat (concat rows));
     export_png_image := fun fig =>
       Ok {| im_mode := mode_RGB; im_height := 0; im_width := 0;
             samples := [Z.of_nat (length fig)] |} |}.

Definition grey2x2 (m : pil_mode) (a b c d : Z) : pil_image :=
  {| im_mode := m; im_height := 2; im_width := 2; samples := [a; b; c; d] |}.

Definition example_camera_file (h w : Q) : node :=
  File (JsonText (JObj
    [("K", JArr [JArr [JNum 1; JNum 0; JNum 1];
                 JArr [JNum 0; JNum 1; JNum 1];
                 JArr [JNum 0; JNum 0; JNum 1]]);
     ("resolution", JArr [JNum h; JNum w])])).

Definition example_pose_file : node :=
  File (JsonText (JArr
    [@ObjectData_to_json exact_float_json
       {| label := "obj_000002"; bbox_modal := None;
          TWO := Some {| T_matrix := eye4 |} |}])).

(** An example directory: camera file, 2x2 images, one persisted pose, and
    the mesh of the posed object. *)
Definition example_entries (h w : Q) : list (string * node) :=
  [("ycbv_camera_data.json", example_camera_file h w);
   ("image_rgb.png", File (PngData (grey2x2 mode_L 0 64 128 255)));
   ("image_depth.png", File (PngData (grey2x2 mode_I16 0 5000 10000 20000)));
   ("outputs", Dir [("object_data.json", example_pose_file)]);
   ("obj_000002", Dir [("mesh.ply", File (RawBytes "ply"))])].

Definition example_fs (h w : Q) : node :=
  Dir [("example", Dir (example_entries h w))].

Definition example_camera : CameraData :=
  {| K := [[1; 0; 1]; [0; 1; 1]; [0; 0; 1]]%Q;
     resolution := Some [2; 2]; TWC := None |}.

Definition example_rgb : ndarray Z :=
  {| shape := [2; 2; 3]; data := repeat 7%Z 12 |}.

Definition example_depth : ndarray Q :=
  {| shape := [2; 2]; data := repeat (1 # 2)%Q 4 |}.

Definition example_bbox : list Q := [100; 120; 300; 340]%Q.

(** Floats printed with seven decimals, the rest cut off. *)
Definition seven_decimals_json : FloatJson :=
  {| float_to_json := fun x => (Qfloor (x * 10000000) # 10000000)%Q;
     float_of_json := fun d => d |}.

Definition example_estimates : PoseEstimatesType :=
  {| infos_label := ["obj_000002"];
     poses := [[[1; 0; 0; 1 # 3]; [0; 1; 0; 2 # 7];
                [0; 0; 1; 5 # 9]; [0; 0; 0; 1]]%Q] |}.

(** The first YCB-Video names, by 1-based position. *)
Definition ycb_names : YcbNames :=
  {| convert_number := fun n =>
       nth (n - 1)
           ["002_master_chef_can"; "003_cracker_box"; "004_sugar_box";
            "005_tomato_soup_can"; "006_mustard_bottle"]
           ("unknown_" +:+ NilZero.string_of_uint (Nat.to_uint n)) |}.

(** A model directory in the YCB layout, listed out of order, and one in
    the generic layout. *)
Definition example_models : node :=
  Dir [("models",
        Dir [("obj_000002.ply", File (RawBytes "ply"));
             ("models_info.json", File (JsonText (JObj [])));
             ("obj_000003.ply", File (RawBytes "ply"));
             ("obj_000001.ply", File (RawBytes "ply"))]);
       ("meshes",
        Dir [("drill", Dir [("drill.obj", File (RawBytes "obj"));
                            ("texture.png", File (RawBytes "png"))]);
             ("mug", Dir [("mug.ply", File (RawBytes "ply"))])])].

(** ** Notions used in the statements *)

(** The file names [load_renders] opens for the pair of index [i]. *)
Definition rgb_name (i : nat) : string := "rgb_" +:+ padded_num i +:+ ".png".
Definition normal_name (i : nat) : string := "normal_" +:+ padded_num i +:+ ".png".

(** An 8-bit render image of [c] bands and size [h] x [w]: its buffer
    holds one byte per band of every pixel. *)
Definition render_image_ok (c h w : nat) (im : pil_image) : Prop :=
  is_8bit (im_mode im) = true /\ bands (im_mode im) = c /\
  im_height im = h /\ im_width im = w /\
  Forall (fun v => (0 <= v <= 255)%Z) (samples im) /\
  length (samples im) = h * w * c.

(** A render sub-folder holding [pairCount] PNG files that form the
    appearance/normal pairs of the indices below [pairCount / 2], all of
    the same band count and size. *)
Definition well_formed_folder (fs : node) (sub_folder_path : path)
    (pairCount c h w : nat) (rgbs normals : nat -> pil_image) : Prop :=
  length (rglob fs sub_folder_path ".png") = pairCount /\
  Nat.Even pairCount /\ 2 <= pairCount /\
  forall i, i < pairCount / 2 ->
    Image_open fs (sub_folder_path ++ [rgb_name i]) = Ok (rgbs i) /\
    Image_open fs (sub_folder_path ++ [normal_name i]) = Ok (normals i) /\
    render_image_ok c h w (rgbs i) /\ render_image_ok c h w (normals i).

(** The tensor of one pair: appearance channels, then normal channels. *)
Definition pair_tensor (rgb normal : pil_image) : ndarray Q :=
  {| shape := [bands (im_mode rgb) + bands (im_mode normal);
               im_height rgb; im_width rgb];
     data := data (ToTensor rgb) ++ data (ToTensor normal) |}.

Definition unit_interval (v : Q) : Prop := (0 <= v /\ v <= 1)%Q.

(** The byte of band [k] of the pixel in row [y], column [x] of a decoded
    image, and that byte as a fraction of 255. *)
Definition sample_at (im : pil_image) (y x k : nat) : Z :=
  nth ((y * im_width im + x) * bands (im_mode im) + k) (samples im) 0%Z.

Definition scaled_sample (im : pil_image) (y x k : nat) : Q :=
  Qdiv (inject_Z (sample_at im y x k)) (255 # 1).

(** The element [t[i, k, y, x]] of a contiguous four-dimensional tensor. *)
Definition tensor_at (t : ndarray Q) (i k y x : nat) : Q :=
  match shape t with
  | [_; c; h; w] => nth (((i * c + k) * h + y) * w + x) (data t) 0%Q
  | _ => 0%Q
  end.

Definition pixel (m : pil_mode) (vals : list Z) : pil_image :=
  {| im_mode := m; im_height := 1; im_width := 1; samples := vals |}.

(** A 2 x 2 image; [vals] lists the pixels row by row, band by band. *)
Definition tile (m : pil_mode) (vals : list Z) : pil_image :=
  {| im_mode := m; im_height := 2; im_width := 2; samples := vals |}.

Definition example_tile_rgbs (i : nat) : pil_image :=
  if Nat.eqb i 0
  then tile mode_RGB [10; 20; 30; 40; 50; 60; 70; 80; 90; 100; 110; 120]%Z
  else tile mode_RGB [255; 0; 51; 254; 1; 52; 253; 2; 53; 252; 3; 54]%Z.

Definition example_tile_normals (i : nat) : pil_image :=
  if Nat.eqb i 0
  then tile mode_RGB [128; 129; 255; 130; 131; 250; 132; 133; 245; 134; 135; 240]%Z
  else tile mode_RGB [0; 127; 200; 5; 126; 201; 15; 125; 202; 25; 124; 203]%Z.

(** A render cache with one object of two views and a stray file ... *)
Definition example_renders : node :=
  Dir [("renders",
        Dir [("readme.txt", File (RawBytes "renders"));
             ("obj_000001",
              Dir [("normal_000.png", File (PngData (example_tile_normals 0)));
                   ("normal_001.png", File (PngData (example_tile_normals 1)));
                   ("rgb_000.png", File (PngData (example_tile_rgbs 0)));
                   ("rgb_001.png", File (PngData (example_tile_rgbs 1)))])])].

(** ... and one whose second appearance image has no normal image. *)
Definition unpaired_renders : node :=
  Dir [("renders",
        Dir [("obj_000001",
              Dir [("normal_000.png", File (PngData (pixel mode_RGB [128; 128; 255]%Z)));
                   ("rgb_000.png", File (PngData (pixel mode_RGB [10; 20; 30]%Z)));
                   ("rgb_001.png", File (PngData (pixel mode_RGB [255; 0; 51]%Z)))])])].

(** ... and one of four PNG files in which the pair of index 1 lacks its
    normal image. *)
Definition gapped_renders : node :=
  Dir [("renders",
        Dir [("readme.txt", File (RawBytes "renders"));
             ("obj_000001",
              Dir [("normal_000.png", File (PngData (pixel mode_RGB [128; 128; 255]%Z)));
                   ("rgb_000.png", File (PngData (pixel mode_RGB [10; 20; 30]%Z)));
                   ("rgb_001.png", File (PngData (pixel mode_RGB [255; 0; 51]%Z)));
                   ("thumbs.png", File (RawBytes "png"))])])].

(** Nothing fails before the pair [i] of the sub-folder [sub]: the
    sub-folders listed before it load when they are directories, and so do
    the pairs of a lower index. *)
Definition loads_before (fs : node) (renders_path : path)
    (es : list (string * node)) (sub : string) (i : nat) : Prop :=
  (exists before after,
     map fst es = before ++ sub :: after /\
     forall s, In s before -> isdir fs (renders_path ++ [s]) = true ->
               is_ok (load_folder fs (renders_path ++ [s])) = true) /\
  forall j, j < i -> is_ok (load_pair fs (renders_path ++ [sub]) j) = true.

(** The children of an object directory that count as meshes. *)
Definition mesh_candidates (fs : node) (object_dir : path) : list path :=
  List.filter is_mesh (glob_star fs object_dir).

(** The only detection list [inference] ever builds. *)
Definition single_detection (lbl : string) (bbox : list Q) : list ObjectData :=
  [{| label := lbl; bbox_modal := Some bbox; TWO := None |}].

(** Closeness of floats and of matrices, entry by entry. *)
Definition close (tol x y : Q) : Prop := (Qabs (x - y) <= tol)%Q.

Definition matrix_close (tol : Q) (a b : matrix) : Prop :=
  Forall2 (Forall2 (close tol)) a b.

(** A pose-estimate set is well formed when labels and poses are parallel
    and every pose is a 4x4 matrix. *)
Definition well_formed_estimates (pe : PoseEstimatesType) : Prop :=
  length (infos_label pe) = length (poses pe) /\
  Forall (fun m => is_4x4 m = true) (poses pe).

(** What a float becomes after one trip through JSON. *)
Definition float_round_trip `{FloatJson} (x : Q) : Q :=
  float_of_json (float_to_json x).

(** The resolution of a decoded image, (height, width). *)
Definition image_resolution (im : pil_image) : list nat :=
  [im_height im; im_width im].

(** What [save_predictions] stores for one (label, pose) pair ... *)
Definition pose_record (lp : string * matrix) : ObjectData :=
  {| label := fst lp; bbox_modal := None;
     TWO := Some {| T_matrix := snd lp |} |}.

(** ... and what [load_object_data] reads back for it. *)
Definition reloaded_record `{FloatJson} (lp : string * matrix) : ObjectData :=
  {| label := fst lp; bbox_modal := None;
     TWO := Some {| T_matrix := map (map float_round_trip) (snd lp) |} |}.

Definition example_rgbs (i : nat) : pil_image :=
  if Nat.eqb i 0 then pixel mode_RGB [10; 20; 30]%Z
  else pixel mode_RGB [255; 0; 51]%Z.

Definition example_normals (i : nat) : pil_image :=
  if Nat.eqb i 0 then pixel mode_RGB [128; 128; 255]%Z
  else pixel mode_RGB [0; 128; 255]%Z.

(** The [visualizations] directory before the export: it exists with the
    listing [ves], or it is absent from an existing example directory
    ([ves] is then empty). *)
Definition visualizations_before (fs : node) (example_dir : path)
    (ves : list (string * node)) : Prop :=
  resolve fs (example_dir ++ ["visualizations"]) = Ok (Dir ves) \/
  (ves = [] /\
   exists es, resolve fs example_dir = Ok (Dir es) /\
              assoc "visualizations" es = None).

(** No entry of the listing [ves] named [nm] is a directory. *)
Definition not_a_directory (nm : string) (ves : list (string * node)) : Prop :=
  forall d, assoc nm ves <> Some (Dir d).

(** The catalog holding the mesh of the example's posed object. *)
Definition example_catalog : RigidObjectDataset :=
  {| list_objects :=
       [{| ro_label := "obj_000002";
           mesh_path := ["example"; "obj_000002"; "mesh.ply"];
           mesh_units := "m" |}] |}.

Definition example_pose : list ObjectData :=
  [{| label := "obj_000002"; bbox_modal := None;
      TWO := Some {| T_matrix := eye4 |} |}].

Definition example_image : ndarray Z :=
  np_array_uint8 (grey2x2 mode_L 0 64 128 255).

Definition example_view : CameraData :=
  {| K := K example_camera; resolution := resolution example_camera;
     TWC := Some {| T_matrix := eye4 |} |}.

(** Two paths that part ways at some component: neither lies on the way
    to the other. *)
Definition parted (p q : path) : Prop :=
  exists common a b p' q',
    p = common ++ a :: p' /\ q = common ++ b :: q' /\ a <> b.

(** The JSON array [save_predictions] writes for a pose-estimate set. *)
Definition saved_items `{FloatJson} (pe : PoseEstimatesType) : list json :=
  map (fun lp => ObjectData_to_json (pose_record lp))
      (zip (infos_label pe) (poses pe)).

(** Reading a zero-padded decimal index back. *)
Definition index_of_padded (s : string) : option nat :=
  match NilZero.uint_of_string s with
  | Some d => Some (Nat.of_uint d)
  | None => None
  end.

(** The YCB model directory of [example_models], listed in another
    order. *)
Definition example_models_relisted : node :=
  Dir [("models",
        Dir [("obj_000001.ply", File (RawBytes "ply"));
             ("obj_000003.ply", File (RawBytes "ply"));
             ("models_info.json", File (JsonText (JObj [])));
             ("obj_000002.ply", File (RawBytes "ply"))])].

(** A model zoo with the one preset; its estimator records the labels
    it was built for and the labels of the renders attached. *)
Definition simple_model_loader : ModelLoader :=
  {| model_info_type := string;
     pose_estimator_type := (list string * list string)%type;
     NAMED_MODELS := fun name =>
       if String.eqb name "megapose-1.0-RGB-multi-hypothesis-icp"
       then Ok "inference_parameters"
       else Raise (LibraryError "KeyError");
     load_named_model := fun _ _ ds => Ok (map ro_label (list_objects ds), []);
     to_device := fun est _ => Ok est;
     attach_renders := fun est renders =>
       Ok (fst est, map fst (map_to_list renders)) |}.

(** A working directory laid out as the constructor expects. *)
Definition startup_fs : node :=
  Dir [("data",
        Dir [("ycbv_camera_data.json", example_camera_file 2 2);
             ("ycbv_generated",
              Dir [("obj_000001",
                    Dir [("normal_000.png", File (PngData (example_normals 0)));
                         ("rgb_000.png", File (PngData (example_rgbs 0)))])])]);
       ("bop_datasets",
        Dir [("ycbv",
              Dir [("models",
                    Dir [("obj_000001.ply", File (RawBytes "ply"));
                         ("obj_000002.ply", File (RawBytes "ply"))])])]);
       ("models", Dir [("megapose-models", Dir [])])].

(** Lines 102-108 of [output_visualization]: the figures that are
    exported, in the order of export. *)
Definition build_figures `{Visualizer} (rgb renderings_rgb : ndarray Z)
  : result (figure * figure * figure) :=
  fig_rgb ← plot_image rgb;
  fig_mesh_overlay ← plot_overlay rgb renderings_rgb;
  contour_overlay ← make_contour_overlay rgb renderings_rgb 1 (0, 255, 0)%Z;
  fig_contour_overlay ← plot_image contour_overlay;
  fig_all ← gridplot [[fig_rgb; fig_contour_overlay; fig_mesh_overlay]];
  Ok (fig_mesh_overlay, fig_contour_overlay, fig_all).

(** A plotting backend that fails to rasterise figures of more than one
    array: the second export fails. *)
Definition fragile_visualizer : Visualizer :=
  {| scene_renderer := RigidObjectDataset;
     panda_camera := CameraData;
     panda_object := ObjectData;
     figure := list (ndarray Z);
     Panda3dSceneRenderer := fun ds => Ok ds;
     convert_scene_observation_to_panda3d := fun cam ods => Ok (cam, ods);
     render_scene := fun ds ods cams _ _ =>
       Ok (map (fun cam => blank_array (resolution cam)) cams);
     plot_image := fun a => Ok [a; a];
     plot_overlay := fun a b => Ok [a];
     make_contour_overlay := fun a b _ _ => Ok b;
     gridplot := fun rows => Ok (concat (concat rows));
     export_png_image := fun fig =>
       if Nat.leb (length fig) 1
       then Ok {| im_mode := mode_RGB; im_height := 0; im_width := 0;
                  samples := [] |}
       else Raise (LibraryError "webdriver") |}.

(** * Properties *)

(** ** Results and list comprehensions *)

Lemma mapM_Ok_length {A B} (f : A -> result B) l bs :
  mapM f l = Ok bs -> length bs = length l.
Proof.
  revert bs. induction l as [|a l IH]; intros bs; simpl.
  - intros [= <-]. reflexivity.
  - destruct (f a) as [b|e]; simpl; [|discriminate].
    destruct (mapM f l) as [bs'|e]; simpl; [|discriminate].
    intros [= <-]. simpl. f_equal. apply IH. reflexivity.
Qed.

Lemma mapM_all_Ok {A B} (f : A -> result B) (g : A -> B) l :
  (forall a, In a l -> f a = Ok (g a)) -> mapM f l = Ok (map g l).
Proof.
  induction l as [|a l IH]; intros Hf; simpl; [reflexivity|].
  rewrite (Hf a (or_introl eq_refl)). simpl.
  rewrite IH; [reflexivity|]. intros a' Ha'. apply Hf. right. exact Ha'.
Qed.

Lemma mapM_fails {A B} (f : A -> result B) l a :
  In a l -> is_ok (f a) = false -> is_ok (mapM f l) = false.
Proof.
  induction l as [|a' l IH]; simpl; [intros []|].
  intros [->|Hin] Hfa.
  - destruct (f a); [discriminate|reflexivity].
  - destruct (f a'); simpl; [|reflexivity].
    specialize (IH Hin Hfa). destruct (mapM f l); [discriminate|reflexivity].
Qed.

Lemma io_bind_unfold {A B} (m : io A) (k : A -> io B) (fs : node) :
  (m ≫= k) fs =
  match m fs with
  | (fs', Ok a) => k a fs'
  | (fs', Raise e) => (fs', Raise e)
  end.
Proof. reflexivity. Qed.

Lemma not_ok_raise {A} (r : result A) : is_ok r = false -> exists e, r = Raise e.
Proof. destruct r as [a|e]; [discriminate|]. intros _. exists e. reflexivity. Qed.

(** ** Observation builder *)

Lemma resolution_matches_uint8 im cam :
  resolution_matches (np_array_uint8 im) cam
  = bool_decide (Some (image_resolution im) = resolution cam).
Proof. reflexivity. Qed.

Lemma resolution_matches_depth im c cam :
  resolution_matches (np_div (np_array_float32 im) c) cam
  = bool_decide (Some (image_resolution im) = resolution cam).
Proof. reflexivity. Qed.

Lemma load_observation_unfold `{CameraJson} fs example_dir load_depth cam im :
  load_camera_data fs (example_dir ++ ["ycbv_camera_data.json"]) = Ok cam ->
  Image_open fs (example_dir ++ ["image_rgb.png"]) = Ok im ->
  load_observation fs example_dir load_depth =
  if bool_decide (Some (image_resolution im) = resolution cam) then
    if load_depth then
      dim ← Image_open fs (example_dir ++ ["image_depth.png"]);
      if bool_decide (Some (image_resolution dim) = resolution cam)
      then Ok (np_array_uint8 im,
               Some (np_div (np_array_float32 dim) (10000 # 1)), cam)
      else Raise (AssertionError "")
    else Ok (np_array_uint8 im, None, cam)
  else Raise (AssertionError "").
Proof.
  intros Hcam Him. unfold load_observation. rewrite Hcam. cbn.
  rewrite Him. cbn. rewrite resolution_matches_uint8.
  destruct (bool_decide (Some (image_resolution im) = resolution cam)); cbn;
    [|reflexivity].
  destruct load_depth; [|reflexivity].
  destruct (Image_open fs (example_dir ++ ["image_depth.png"])) as [dim|e]; cbn;
    [|reflexivity].
  rewrite resolution_matches_depth.
  destruct (bool_decide (Some (image_resolution dim) = resolution cam));
    reflexivity.
Qed.

(** C2.  When the camera file and the RGB image load but the image
    resolution differs from the camera's, or depth is requested and the
    depth image's resolution differs, [load_observation] raises the
    assertion failure of its resolution check (the specification's
    ResolutionMismatchError) and returns nothing; [load_observation_tensor]
    then raises the same failure without building an ObservationTensor. *)
Theorem load_observation_resolution_mismatch `{CameraJson}
    (fs : node) (example_dir : path) (load_depth : bool)
    (cam : CameraData) (im : pil_image) :
  load_camera_data fs (example_dir ++ ["ycbv_camera_data.json"]) = Ok cam ->
  Image_open fs (example_dir ++ ["image_rgb.png"]) = Ok im ->
  (Some (image_resolution im) <> resolution cam \/
   (load_depth = true /\
    exists dim, Image_open fs (example_dir ++ ["image_depth.png"]) = Ok dim /\
                Some (image_resolution dim) <> resolution cam)) ->
  load_observation fs example_dir load_depth = Raise (AssertionError "") /\
  forall E : PoseEstimator,
    load_observation_tensor fs example_dir load_depth
    = ([], Raise (AssertionError "")).
Proof.
  intros Hcam Him Hbad.
  assert (Hraise : load_observation fs example_dir load_depth
                   = Raise (AssertionError "")).
  { rewrite (load_observation_unfold _ _ _ _ _ Hcam Him).
    case_bool_decide as Hrgb; [|reflexivity].
    destruct Hbad as [Hne | (-> & dim & Hdim & Hne)]; [contradiction|].
    rewrite Hdim. cbn. case_bool_decide; [contradiction|reflexivity]. }
  split; [exact Hraise|].
  intros E. unfold load_observation_tensor. rewrite Hraise. reflexivity.
Qed.

(** C7.  With the camera file and a matching RGB image in place:
    without a depth request the depth channel is [None]; with one, the
    depth channel holds every stored sample divided by 10000. *)
Theorem load_observation_depth_scale `{CameraJson}
    (fs : node) (example_dir : path) (cam : CameraData) (im : pil_image) :
  load_camera_data fs (example_dir ++ ["ycbv_camera_data.json"]) = Ok cam ->
  Image_open fs (example_dir ++ ["image_rgb.png"]) = Ok im ->
  Some (image_resolution im) = resolution cam ->
  load_observation fs example_dir false = Ok (np_array_uint8 im, None, cam) /\
  forall dim,
    Image_open fs (example_dir ++ ["image_depth.png"]) = Ok dim ->
    Some (image_resolution dim) = resolution cam ->
    load_observation fs example_dir true =
    Ok (np_array_uint8 im,
        Some {| shape := array_shape dim;
                data := map (fun v => Qdiv (inject_Z v) (10000 # 1))
                            (samples dim) |},
        cam).
Proof.
  intros Hcam Him Hres. split.
  - rewrite (load_observation_unfold _ _ _ _ _ Hcam Him).
    rewrite bool_decide_true by exact Hres. reflexivity.
  - intros dim Hdim Hdres.
    rewrite (load_observation_unfold _ _ _ _ _ Hcam Him).
    rewrite bool_decide_true by exact Hres. rewrite Hdim. cbn.
    rewrite bool_decide_true by exact Hdres.
    unfold np_div, np_array_float32. cbn. rewrite map_map. reflexivity.
Qed.

(** The example directory with a camera file that announces 3x3 while the
    images are 2x2: the observation builder refuses it. *)
Lemma load_observation_resolution_mismatch_witness :
  @load_observation simple_camera_json (example_fs 3 3) ["example"] false
  = Raise (AssertionError "") /\
  forall E : PoseEstimator,
    @load_observation_tensor simple_camera_json E (example_fs 3 3) ["example"] false
    = ([], Raise (AssertionError "")).
Proof.
  eapply (@load_observation_resolution_mismatch simple_camera_json
            (example_fs 3 3) ["example"] false).
  - vm_compute. reflexivity.
  - vm_compute. reflexivity.
  - left. vm_compute. discriminate.
Defined.

(** The example directory with a 2x2 camera: stored depths 0, 5000, 10000
    and 20000 are read as 0, 0.5, 1 and 2. *)
Lemma load_observation_depth_scale_witness :
  exists rgb cam,
    @load_observation simple_camera_json (example_fs 2 2) ["example"] false
    = Ok (rgb, None, cam) /\
    @load_observation simple_camera_json (example_fs 2 2) ["example"] true
    = Ok (rgb,
          Some {| shape := [2; 2];
                  data := [0 # 10000; 5000 # 10000; 10000 # 10000;
                           20000 # 10000]%Q |},
          cam).
Proof.
  destruct (@load_observation_depth_scale simple_camera_json
              (example_fs 2 2) ["example"]
              {| K := [[1; 0; 1]; [0; 1; 1]; [0; 0; 1]]%Q;
                 resolution := Some [2; 2]; TWC := None |}
              (grey2x2 mode_L 0 64 128 255)
              eq_refl eq_refl eq_refl) as [Hplain Hdepth].
  eexists. eexists. split; [exact Hplain|].
  exact (Hdepth (grey2x2 mode_I16 0 5000 10000 20000) eq_refl eq_refl).
Defined.

(** ** Pose estimator facade *)

Lemma inference_unfold `{PoseEstimator} cam rgb (d : ndarray Q) lbl bbox :
  resolution_matches rgb cam = true ->
  resolution_matches d cam = true ->
  inference cam rgb (Some d) lbl bbox =
  let object_data := [{| label := lbl; bbox_modal := Some bbox; TWO := None |}] in
  match ObservationTensor_from_numpy rgb (Some d) (K cam) with
  | Ok observation =>
      match make_detections_from_object_data object_data with
      | Ok detections =>
          ([CallFromNumpy rgb (Some d) (K cam);
            CallMakeDetections object_data;
            CallRunInferencePipeline],
           run_inference_pipeline observation detections)
      | Raise e =>
          ([CallFromNumpy rgb (Some d) (K cam); CallMakeDetections object_data],
           Raise e)
      end
  | Raise e => ([CallFromNumpy rgb (Some d) (K cam)], Raise e)
  end.
Proof.
  intros Hrgb Hd. unfold inference. rewrite Hrgb. cbn. rewrite Hd. cbn.
  destruct (ObservationTensor_from_numpy rgb (Some d) (K cam)); cbn;
    [|reflexivity].
  destruct (make_detections_from_object_data _); cbn; [|reflexivity].
  destruct (run_inference_pipeline _ _); reflexivity.
Qed.

(** Without a depth array the call stops at line 62 or at line 63. *)
Lemma inference_depth_None_raises `{PoseEstimator}
    (cam : CameraData) (rgb : ndarray Z) (lbl : string) (bbox : list Q) :
  inference cam rgb None lbl bbox =
  ([], Raise (if resolution_matches rgb cam
              then AttributeError "'NoneType' object has no attribute 'shape'"
              else AssertionError "")).
Proof.
  unfold inference. destruct (resolution_matches rgb cam); reflexivity.
Qed.

(** A call that returns passed both resolution checks. *)
Lemma inference_Ok_has_depth `{PoseEstimator}
    (cam : CameraData) (rgb : ndarray Z) (depth : option (ndarray Q))
    (lbl : string) (bbox : list Q) (out : PoseEstimatesType) :
  snd (inference cam rgb depth lbl bbox) = Ok out ->
  exists d, depth = Some d /\
            resolution cam = Some (take 2 (shape d)) /\
            resolution cam = Some (take 2 (shape rgb)).
Proof.
  destruct depth as [d|].
  - intros Hout. exists d. split; [reflexivity|].
    unfold inference in Hout. unfold resolution_matches in Hout.
    case_bool_decide as Hrgb; [|discriminate Hout]. cbn in Hout.
    case_bool_decide as Hd; [|discriminate Hout].
    split; symmetry; assumption.
  - rewrite inference_depth_None_raises. cbn.
    destruct (resolution_matches rgb cam); discriminate.
Qed.

(** C10.  Every call of [inference] with [depth = None] raises before the
    observation is built and before any call to the estimator: either the
    assertion on the RGB resolution fails, or [depth.shape] raises
    AttributeError.  Hence every call that returns was given a depth array
    whose resolution is the camera's. *)
Theorem inference_requires_depth `{PoseEstimator}
    (cam : CameraData) (rgb : ndarray Z) (lbl : string) (bbox : list Q) :
  inference cam rgb None lbl bbox =
  ([], Raise (if resolution_matches rgb cam
              then AttributeError "'NoneType' object has no attribute 'shape'"
              else AssertionError "")) /\
  forall depth out,
    snd (inference cam rgb depth lbl bbox) = Ok out ->
    exists d, depth = Some d /\ resolution cam = Some (take 2 (shape d)).
Proof.
  split; [apply inference_depth_None_raises|].
  intros depth out Hout.
  destruct (inference_Ok_has_depth _ _ _ _ _ _ Hout) as (d & -> & Hd & _).
  exists d. split; [reflexivity|exact Hd].
Qed.

(** With the example camera, a call without depth raises AttributeError;
    with the 2x2 depth array it returns. *)
Lemma inference_requires_depth_witness :
  @inference simple_estimator example_camera example_rgb None
     "obj_000001" example_bbox
  = ([], Raise (AttributeError "'NoneType' object has no attribute 'shape'")) /\
  is_ok (snd (@inference simple_estimator example_camera example_rgb
                (Some example_depth) "obj_000001" example_bbox)) = true /\
  exists d, Some example_depth = Some d /\
            resolution example_camera = Some (take 2 (shape d)).
Proof.
  destruct (@inference_requires_depth simple_estimator example_camera
              example_rgb "obj_000001" example_bbox) as [Hnone Hsome].
  split; [exact Hnone|]. split; [reflexivity|].
  exact (Hsome (Some example_depth) _ eq_refl).
Defined.

(** Whatever the arguments, a detection list handed to the estimator is
    the single detection built from [label] and [bbox]. *)
Lemma inference_detections_single `{PoseEstimator}
    (cam : CameraData) (rgb : ndarray Z) (depth : option (ndarray Q))
    (lbl : string) (bbox : list Q) (l : list ObjectData) :
  In (CallMakeDetections l) (fst (inference cam rgb depth lbl bbox)) ->
  l = single_detection lbl bbox.
Proof.
  intros Hin. destruct depth as [d|].
  - destruct (resolution_matches rgb cam) eqn:Hrgb;
      [|unfold inference in Hin; rewrite Hrgb in Hin; destruct Hin].
    destruct (resolution_matches d cam) eqn:Hd;
      [|unfold inference in Hin; rewrite Hrgb in Hin; cbn in Hin;
        rewrite Hd in Hin; destruct Hin].
    rewrite (inference_unfold _ _ _ _ _ Hrgb Hd) in Hin. cbn zeta in Hin.
    destruct (ObservationTensor_from_numpy rgb (Some d) (K cam));
      [destruct (make_detections_from_object_data _)|]; cbn in Hin;
      unfold single_detection; intuition congruence.
  - rewrite inference_depth_None_raises in Hin. destruct Hin.
Qed.

(** X23.  [inference] has no zero-detection input: whatever its
    arguments, the only detection list it hands to the estimator is the
    single detection built from [label] and [bbox]; and once both
    resolution checks pass and the observation and the detections are
    built, it runs the estimator's pipeline and returns that result
    unchanged. *)
Theorem inference_single_detection `{PoseEstimator}
    (cam : CameraData) (rgb : ndarray Z) (depth : option (ndarray Q))
    (lbl : string) (bbox : list Q) :
  (forall l, In (CallMakeDetections l) (fst (inference cam rgb depth lbl bbox)) ->
             l = single_detection lbl bbox) /\
  (forall d observation detections,
      depth = Some d ->
      resolution_matches rgb cam = true ->
      resolution_matches d cam = true ->
      ObservationTensor_from_numpy rgb depth (K cam) = Ok observation ->
      make_detections_from_object_data (single_detection lbl bbox) = Ok detections ->
      inference cam rgb depth lbl bbox =
      ([CallFromNumpy rgb depth (K cam);
        CallMakeDetections (single_detection lbl bbox);
        CallRunInferencePipeline],
       run_inference_pipeline observation detections)).
Proof.
  split.
  - intros l. apply inference_detections_single.
  - intros d observation detections -> Hrgb Hd Hobs Hdet.
    rewrite (inference_unfold _ _ _ _ _ Hrgb Hd). cbn zeta.
    fold (single_detection lbl bbox). rewrite Hobs, Hdet. reflexivity.
Qed.

(** On the example call the estimator is handed one detection and is run. *)
Lemma inference_single_detection_witness :
  @inference simple_estimator example_camera example_rgb (Some example_depth)
     "obj_000001" example_bbox
  = ([CallFromNumpy example_rgb (Some example_depth) (K example_camera);
      CallMakeDetections (single_detection "obj_000001" example_bbox);
      CallRunInferencePipeline],
     Ok {| infos_label := ["obj_000001"]; poses := [eye4] |}).
Proof.
  exact (proj2 (@inference_single_detection simple_estimator example_camera
                  example_rgb (Some example_depth) "obj_000001" example_bbox)
           example_depth _ _ eq_refl eq_refl eq_refl eq_refl eq_refl).
Defined.

(** ** The file system *)

Lemma assoc_set_eq {A} (k : string) (v : A) l : assoc k (assoc_set k v l) = Some v.
Proof.
  induction l as [|[k' v'] l IH]; simpl.
  - rewrite String.eqb_refl. reflexivity.
  - destruct (String.eqb k k') eqn:E; simpl.
    + rewrite String.eqb_refl. reflexivity.
    + rewrite E. exact IH.
Qed.

Lemma assoc_set_ne {A} (k k' : string) (v : A) l :
  k <> k' -> assoc k' (assoc_set k v l) = assoc k' l.
Proof.
  intros Hne. induction l as [|[k0 v0] l IH]; simpl.
  - destruct (String.eqb k' k) eqn:E; [|reflexivity].
    apply String.eqb_eq in E. congruence.
  - destruct (String.eqb k k0) eqn:E; simpl.
    + apply String.eqb_eq in E. subst k0.
      destruct (String.eqb k' k) eqn:E'; [|reflexivity].
      apply String.eqb_eq in E'. congruence.
    + destruct (String.eqb k' k0); [reflexivity|exact IH].
Qed.

Lemma assoc_In {A} (k : string) (l : list (string * A)) :
  In k (map fst l) -> exists v, assoc k l = Some v.
Proof.
  induction l as [|[k' v'] l IH]; simpl; [intros []|].
  intros Hin. destruct (String.eqb k k') eqn:E; [eauto|].
  destruct Hin as [->|Hin]; [|auto].
  rewrite String.eqb_refl in E. discriminate.
Qed.

(** The path reported in exceptions does not matter to a resolution that
    succeeds. *)
Lemma resolve_from_full f1 f2 n p x :
  resolve_from f1 n p = Ok x -> resolve_from f2 n p = Ok x.
Proof.
  revert n. induction p as [|c p IH]; intros n; simpl; [auto|].
  destruct n as [?|es]; [discriminate|].
  destruct (assoc c es); [apply IH|discriminate].
Qed.

Lemma resolve_from_app full n p q :
  resolve_from full n (p ++ q) =
  match resolve_from full n p with
  | Ok n' => resolve_from full n' q
  | Raise e => Raise e
  end.
Proof.
  revert n. induction p as [|c p IH]; intros n; simpl; [reflexivity|].
  destruct n as [?|es]; [reflexivity|].
  destruct (assoc c es); [apply IH|reflexivity].
Qed.

(** Reading back what [put] has bound. *)
Lemma resolve_put_from f1 f2 n p new n' :
  put_from f1 n p new = Ok n' -> resolve_from f2 n' p = Ok new.
Proof.
  revert n n'. induction p as [|c p IH]; intros n n'; simpl.
  - intros [= ->]. reflexivity.
  - destruct n as [?|es]; [discriminate|].
    destruct p as [|c' p'].
    + intros [= <-]. simpl. rewrite assoc_set_eq. reflexivity.
    + destruct (assoc c es) as [n1|]; [|discriminate].
      destruct (put_from f1 n1 (c' :: p') new) as [n1'|e] eqn:Hput;
        cbn; [|discriminate].
      intros [= <-]. cbn -[resolve_from]. 
      change (resolve_from f2 (Dir (assoc_set c n1' es)) (c :: c' :: p'))
        with (match assoc c (assoc_set c n1' es) with
              | Some n2 => resolve_from f2 n2 (c' :: p')
              | None => Raise (FileNotFoundError f2)
              end).
      rewrite assoc_set_eq. apply (IH _ _ Hput).
Qed.

Lemma resolve_put fs p new fs' :
  put fs p new = Ok fs' -> resolve fs' p = Ok new.
Proof. apply resolve_put_from. Qed.

(** A new entry can be bound in any directory that exists. *)
Lemma put_from_child f1 f2 n p es c new :
  resolve_from f1 n p = Ok (Dir es) ->
  exists n', put_from f2 n (p ++ [c]) new = Ok n'.
Proof.
  revert n. induction p as [|c0 p IH]; intros n; simpl.
  - intros [= ->]. eauto.
  - destruct n as [?|es0]; [discriminate|].
    destruct (assoc c0 es0) as [n1|] eqn:Hc0; [|discriminate].
    intros Hres. destruct (IH _ Hres) as [n1' Hput].
    destruct (p ++ [c]) as [|c' p'] eqn:Hp; [destruct p; discriminate|].
    rewrite Hput. cbn. eauto.
Qed.

Lemma parent_child (p : path) (c : string) : parent (p ++ [c]) = p.
Proof. apply removelast_last. Qed.

Lemma mkdir_exist_ok_existing fs p es :
  resolve fs p = Ok (Dir es) -> mkdir_exist_ok p fs = (fs, Ok tt).
Proof. intros Hres. unfold mkdir_exist_ok. rewrite Hres. reflexivity. Qed.

(** A write that succeeds leaves the content readable at the same path. *)
Lemma write_file_Ok p c fs fs' :
  write_file p c fs = (fs', Ok tt) -> read_text fs' p = Ok c.
Proof.
  unfold write_file, read_text. intros Hw.
  assert (Hput : put fs p (File c) = Ok fs').
  { destruct (resolve fs p) as [[?|?]|?]; try discriminate;
      destruct (put fs p (File c)); congruence. }
  rewrite (resolve_put _ _ _ _ Hput). reflexivity.
Qed.

Lemma write_file_in_dir fs p es name c :
  resolve fs p = Ok (Dir es) ->
  (forall es', assoc name es <> Some (Dir es')) ->
  exists fs', write_file (p ++ [name]) c fs = (fs', Ok tt).
Proof.
  intros Hres Hfree. unfold write_file.
  destruct (put_from_child p (p ++ [name]) fs p es name (File c) Hres)
    as [fs' Hput].
  unfold put. rewrite Hput.
  assert (Hnot : forall es', resolve fs (p ++ [name]) <> Ok (Dir es')).
  { intros es'. unfold resolve. rewrite resolve_from_app.
    rewrite (resolve_from_full _ (p ++ [name]) _ _ _ Hres). simpl.
    destruct (assoc name es) as [n|] eqn:Hn; [|discriminate].
    intros [= ->]. apply (Hfree es'). reflexivity. }
  destruct (resolve fs (p ++ [name])) as [[?|es']|?]; eauto.
  destruct (Hnot es'). reflexivity.
Qed.

(** ** Pose persistence *)

Lemma mapM_map {A B C} (f : B -> result C) (g : A -> B) l :
  mapM f (map g l) = mapM (fun a => f (g a)) l.
Proof.
  induction l as [|a l IH]; simpl; [reflexivity|]. rewrite IH. reflexivity.
Qed.

Lemma numbers_round_trip `{FloatJson} (l : list Q) :
  numbers_from_json (numbers_to_json l) = Ok (map float_round_trip l).
Proof.
  unfold numbers_from_json, numbers_to_json. rewrite mapM_map.
  apply mapM_all_Ok. reflexivity.
Qed.

Lemma is_4x4_map (f : Q -> Q) (m : matrix) :
  is_4x4 (map (map f) m) = is_4x4 m.
Proof.
  unfold is_4x4. rewrite length_map. f_equal.
  induction m as [|row m IH]; simpl; [reflexivity|].
  rewrite length_map, IH. reflexivity.
Qed.

Lemma Transform_round_trip `{FloatJson} (m : matrix) :
  is_4x4 m = true ->
  Transform_from_json (Transform_to_json {| T_matrix := m |})
  = Ok {| T_matrix := map (map float_round_trip) m |}.
Proof.
  intros H4. unfold Transform_from_json, Transform_to_json. cbn [T_matrix].
  rewrite mapM_map.
  rewrite (mapM_all_Ok _ (map float_round_trip))
    by (intros; apply numbers_round_trip).
  cbn. rewrite is_4x4_map, H4. reflexivity.
Qed.

Lemma pose_record_round_trip `{FloatJson} (lp : string * matrix) :
  is_4x4 (snd lp) = true ->
  ObjectData_from_json (ObjectData_to_json (pose_record lp))
  = Ok (reloaded_record lp).
Proof.
  intros H4. unfold ObjectData_from_json, ObjectData_to_json, pose_record.
  cbn -[Transform_from_json Transform_to_json].
  destruct (Transform_to_json {| T_matrix := snd lp |}) eqn:Ht;
    try (unfold Transform_to_json in Ht; discriminate Ht).
  rewrite <- Ht, (Transform_round_trip _ H4). reflexivity.
Qed.

Lemma In_zip_snd {A B} (la : list A) (lb : list B) (x : A * B) :
  In x (zip la lb) -> In (snd x) lb.
Proof.
  revert lb. induction la as [|a la IH]; intros [|b lb]; simpl; try tauto.
  intros [<-|Hin]; [left; reflexivity|right; auto].
Qed.

(** Loading the file that a successful [save_predictions] has left. *)
Lemma load_after_save `{FloatJson} fs fs' example_dir pe :
  Forall (fun m => is_4x4 m = true) (poses pe) ->
  save_predictions example_dir pe fs = (fs', Ok tt) ->
  load_object_data fs' (example_dir ++ ["object_data.json"])
  = Ok (map reloaded_record (zip (infos_label pe) (poses pe))).
Proof.
  intros H4 Hsave. unfold save_predictions in Hsave. cbn zeta in Hsave.
  rewrite io_bind_unfold in Hsave.
  destruct (mkdir_exist_ok _ fs) as [fs1 [[]|e]]; [|discriminate Hsave].
  apply write_file_Ok in Hsave.
  unfold load_object_data. rewrite Hsave. cbn.
  rewrite !mapM_map. apply mapM_all_Ok.
  intros lp Hin. apply pose_record_round_trip.
  rewrite Forall_forall in H4. apply H4, list_elem_of_In.
  eapply In_zip_snd, Hin.
Qed.

Lemma save_succeeds `{FloatJson} fs example_dir pe es :
  resolve fs example_dir = Ok (Dir es) ->
  (forall es', assoc "object_data.json" es <> Some (Dir es')) ->
  exists fs', save_predictions example_dir pe fs = (fs', Ok tt).
Proof.
  intros Hres Hfree. unfold save_predictions. cbn zeta.
  rewrite io_bind_unfold.
  rewrite parent_child, (mkdir_exist_ok_existing _ _ _ Hres).
  destruct (write_file_in_dir fs example_dir es "object_data.json"
              (JsonText (JArr (map ObjectData_to_json
                                   (map (fun lp => pose_record lp)
                                        (zip (infos_label pe) (poses pe))))))
              Hres Hfree) as [fs' Hw].
  exists fs'. exact Hw.
Qed.

Lemma matrix_close_round_trip `{FloatJson} (tol : Q) (m : matrix) :
  (forall x, close tol (float_round_trip x) x) ->
  matrix_close tol (map (map float_round_trip) m) m.
Proof.
  intros Hclose. unfold matrix_close.
  induction m as [|row m IH]; simpl; constructor; [|exact IH].
  induction row as [|x row IHrow]; simpl; constructor; auto.
Qed.

(** C1.  Let floats cross the JSON text with an error of at most [tol],
    and let the pose-estimate set be well formed.  Then
    [save_predictions] succeeds whenever the example directory exists and
    [object_data.json] is not a directory there; and after any successful
    save, [load_object_data] on the written file returns one record per
    (label, pose) pair, in order, with the same label and a transform whose
    entries are within [tol] of the saved ones. *)
Theorem save_load_round_trip `{FloatJson} (tol : Q)
    (fs : node) (example_dir : path) (pe : PoseEstimatesType) :
  (forall x, close tol (float_round_trip x) x) ->
  well_formed_estimates pe ->
  (forall es,
      resolve fs example_dir = Ok (Dir es) ->
      (forall es', assoc "object_data.json" es <> Some (Dir es')) ->
      exists fs', save_predictions example_dir pe fs = (fs', Ok tt)) /\
  (forall fs',
      save_predictions example_dir pe fs = (fs', Ok tt) ->
      exists l,
        load_object_data fs' (example_dir ++ ["object_data.json"]) = Ok l /\
        length l = length (infos_label pe) /\
        Forall2 (fun od lp =>
                   label od = fst lp /\
                   exists t, TWO od = Some t /\
                             matrix_close tol (T_matrix t) (snd lp))
                l (zip (infos_label pe) (poses pe))).
Proof.
  intros Hclose [Hlen H4]. split.
  - intros es Hres Hfree. eapply save_succeeds; eassumption.
  - intros fs' Hsave. eexists. split; [apply (load_after_save _ _ _ _ H4 Hsave)|].
    split.
    + rewrite length_map, length_zip. lia.
    + generalize (zip (infos_label pe) (poses pe)). intros l.
      induction l as [|lp l IH]; simpl; constructor; [|exact IH].
      split; [reflexivity|]. eexists. split; [reflexivity|].
      apply matrix_close_round_trip, Hclose.
Qed.

Lemma seven_decimals_close (x : Q) :
  close (1 # 1000000) (@float_round_trip seven_decimals_json x) x.
Proof.
  change (Qabs ((Qfloor (x * 10000000) # 10000000) - x) <= 1 # 1000000)%Q.
  pose proof (Qfloor_le (x * 10000000)) as Hlo.
  pose proof (Qlt_floor (x * 10000000)) as Hhi.
  rewrite inject_Z_plus in Hhi.
  set (n := Qfloor (x * 10000000)) in *.
  apply (proj2 (Qabs_Qle_condition _ _)).
  pose proof (Qmake_Qdiv n 10000000) as Hq.
  change (inject_Z (Z.pos 10000000)) with (10000000 # 1)%Q in Hq.
  change (inject_Z 1) with 1%Q in Hhi.
  set (q := (n # 10000000)%Q) in *. set (m := inject_Z n) in *.
  assert (Hq' : (q * 10000000 == m)%Q) by (rewrite Hq; field).
  clear Hq. clearbody q m. clear n.
  split; lra.
Qed.

Lemma example_estimates_well_formed : well_formed_estimates example_estimates.
Proof. split; [reflexivity|]. repeat constructor. Qed.

(** One pose with entries 1/3, 2/7 and 5/9, written with seven decimals
    into the example directory and read back: one record, same label,
    entries within 1e-6. *)
Lemma save_load_round_trip_witness :
  exists fs' l,
    @save_predictions seven_decimals_json ["example"] example_estimates
       (example_fs 2 2) = (fs', Ok tt) /\
    @load_object_data seven_decimals_json fs' ["example"; "object_data.json"]
    = Ok l /\
    length l = 1 /\
    Forall2 (fun od lp =>
               label od = fst lp /\
               exists t, TWO od = Some t /\
                         matrix_close (1 # 1000000) (T_matrix t) (snd lp))
            l (zip (infos_label example_estimates) (poses example_estimates)).
Proof.
  destruct (@save_load_round_trip seven_decimals_json (1 # 1000000)
              (example_fs 2 2) ["example"] example_estimates
              seven_decimals_close example_estimates_well_formed)
    as [Hsave Hload].
  destruct (Hsave (example_entries 2 2) eq_refl) as [fs' Hfs'].
  { intros es'. vm_compute. discriminate. }
  destruct (Hload fs' Hfs') as (l & Hl & Hlen & Hall).
  exists fs', l. auto.
Defined.

(** ** Sorting paths *)

Lemma path_compare_antisym (p q : path) :
  path_compare q p = CompOpp (path_compare p q).
Proof.
  revert q. induction p as [|a p IH]; intros [|b q]; simpl; try reflexivity.
  rewrite (String.compare_antisym b a).
  destruct (String.compare a b); simpl; [apply IH|reflexivity|reflexivity].
Qed.

Lemma path_leb_total (p q : path) : path_leb p q = false -> path_leb q p = true.
Proof.
  unfold path_leb, path_ltb. rewrite (path_compare_antisym p q).
  destruct (path_compare p q); simpl; congruence.
Qed.

Lemma insert_sorted_perm (x : path) (l : list path) :
  Permutation (insert_sorted x l) (x :: l).
Proof.
  induction l as [|y l IH]; simpl; [reflexivity|].
  destruct (path_leb x y); [reflexivity|].
  rewrite IH. apply perm_swap.
Qed.

Lemma sorted_perm (l : list path) : Permutation (sorted l) l.
Proof.
  induction l as [|x l IH]; simpl; [reflexivity|].
  rewrite insert_sorted_perm, IH. reflexivity.
Qed.

Lemma sorted_length (l : list path) : length (sorted l) = length l.
Proof. apply Permutation_length, sorted_perm. Qed.




(** ** Catalog builder *)



Lemma enumerate_fst {A} (l : list A) (start : nat) :
  map fst (enumerate start l) = seq start (length l).
Proof.
  revert start. induction l as [|b l IH]; intros start; simpl; [reflexivity|].
  rewrite IH. reflexivity.
Qed.

Lemma ycb_rigid_objects_labels `{YcbNames} (plys : list path) :
  map ro_label (ycb_rigid_objects plys)
  = map (fun i => convert_number (i + 1)) (seq 0 (length plys)).
Proof.
  unfold ycb_rigid_objects. rewrite map_map. cbn [ro_label].
  rewrite <- (enumerate_fst plys 0), map_map. reflexivity.
Qed.


Lemma make_RigidObjectDataset_NoDup (objects : list RigidObject) :
  NoDup (map ro_label objects) ->
  make_RigidObjectDataset objects = Ok {| list_objects := objects |}.
Proof.
  intros Hnd. unfold make_RigidObjectDataset.
  rewrite bool_decide_true by exact Hnd. reflexivity.
Qed.

Lemma make_RigidObjectDataset_Ok (objects : list RigidObject) ds :
  make_RigidObjectDataset objects = Ok ds ->
  list_objects ds = objects /\ NoDup (map ro_label objects).
Proof.
  unfold make_RigidObjectDataset. case_bool_decide; [|discriminate].
  intros [= <-]. split; [reflexivity|assumption].
Qed.


(** When [f] only ever raises exceptions satisfying [P], so does the
    comprehension. *)
Lemma mapM_raises {A B} (P : exn -> Prop) (f : A -> result B) l :
  (forall a e, f a = Raise e -> P e) ->
  is_ok (mapM f l) = false ->
  exists e, mapM f l = Raise e /\ P e.
Proof.
  intros HP. induction l as [|a l IH]; simpl; [discriminate|].
  destruct (f a) as [b|e] eqn:Hfa; cbn.
  - destruct (mapM f l) as [bs|e]; cbn; [discriminate|].
    intros _. destruct (IH eq_refl) as (e' & [= <-] & He'). eauto.
  - intros _. eauto.
Qed.

Lemma scan_meshes_found lbl fns (m : path) :
  scan_meshes lbl fns (Some m) =
  match List.filter is_mesh fns with
  | [] => Ok (Some m)
  | _ :: _ =>
      Raise (AssertionError ("there multiple meshes in the " +:+ lbl +:+ " directory"))
  end.
Proof.
  induction fns as [|fn fns IH]; simpl; [reflexivity|].
  destruct (is_mesh fn) eqn:Hfn; [reflexivity|exact IH].
Qed.

Lemma scan_meshes_fresh lbl fns :
  scan_meshes lbl fns None =
  match List.filter is_mesh fns with
  | [] => Ok None
  | [m] => Ok (Some m)
  | _ :: _ :: _ =>
      Raise (AssertionError ("there multiple meshes in the " +:+ lbl +:+ " directory"))
  end.
Proof.
  induction fns as [|fn fns IH]; simpl; [reflexivity|].
  destruct (is_mesh fn) eqn:Hfn; [|exact IH].
  cbn. rewrite scan_meshes_found.
  destruct (List.filter is_mesh fns); reflexivity.
Qed.

(** The catalog entry of one directory, by the number of mesh candidates. *)
Lemma object_of_dir_cases fs units object_dir :
  object_of_dir fs units object_dir =
  match mesh_candidates fs object_dir with
  | [] =>
      Raise (AssertionError
               ("couldnt find a obj or ply mesh for " +:+ name object_dir))
  | [m] =>
      Ok {| ro_label := name object_dir; mesh_path := m; mesh_units := units |}
  | _ :: _ :: _ =>
      Raise (AssertionError
               ("there multiple meshes in the " +:+ name object_dir +:+ " directory"))
  end.
Proof.
  unfold object_of_dir, mesh_candidates. rewrite scan_meshes_fresh.
  destruct (List.filter is_mesh (glob_star fs object_dir)) as [|m [|m' ms]];
    reflexivity.
Qed.


Lemma object_of_dir_raises fs units object_dir e :
  object_of_dir fs units object_dir = Raise e -> exists msg, e = AssertionError msg.
Proof.
  rewrite object_of_dir_cases.
  destruct (mesh_candidates fs object_dir) as [|m [|m' ms]]; try discriminate;
    intros [= <-]; eauto.
Qed.

Lemma name_child (p : path) (c : string) : name (p ++ [c]) = c.
Proof. unfold name. apply last_last. Qed.

Lemma resolve_child fs p es c :
  resolve fs p = Ok (Dir es) -> In c (map fst es) ->
  is_ok (resolve fs (p ++ [c])) = true.
Proof.
  intros Hres Hin. unfold resolve. rewrite resolve_from_app.
  rewrite (resolve_from_full _ (p ++ [c]) _ _ _ Hres). simpl.
  destruct (assoc_In c es Hin) as [v ->]. reflexivity.
Qed.

Lemma glob_star_exists fs object_dir m :
  In m (glob_star fs object_dir) -> is_ok (resolve fs m) = true.
Proof.
  unfold glob_star.
  destruct (resolve fs object_dir) as [[?|es]|?] eqn:Hres; try (intros []).
  rewrite in_map_iff. intros ([c n] & <- & Hin).
  apply (resolve_child _ _ _ _ Hres). apply in_map_iff. exists (c, n). auto.
Qed.

Lemma mesh_candidate_exists fs object_dir m :
  mesh_candidates fs object_dir = [m] -> is_ok (resolve fs m) = true.
Proof.
  intros Hm. apply (glob_star_exists fs object_dir).
  assert (Hin : In m (mesh_candidates fs object_dir)) by (rewrite Hm; left; reflexivity).
  unfold mesh_candidates in Hin. apply filter_In in Hin. tauto.
Qed.

Lemma iterdir_Dir fs p es :
  resolve fs p = Ok (Dir es) ->
  iterdir fs p = Ok (map (fun e => p ++ [fst e]) es).
Proof. intros Hres. unfold iterdir. rewrite Hres. reflexivity. Qed.




(** C6.  In generic mode, with the model directory listing [es]: if some
    entry has no mesh candidate or more than one, the build fails with the
    assertion failure of its check (the specification's CatalogError); if
    the entry names are distinct and every entry has exactly one
    candidate, the build succeeds with one object per entry, the labels
    being the distinct entry names, and each mesh path is the candidate of
    its directory and exists in the file system. *)
Theorem make_object_dataset_one_mesh_each
    (fs : node) (cad_model_dir : path) (es : list (string * node)) :
  resolve fs cad_model_dir = Ok (Dir es) ->
  ((exists nm, In nm (map fst es) /\
               length (mesh_candidates fs (cad_model_dir ++ [nm])) <> 1) ->
   exists msg, make_object_dataset fs cad_model_dir = Raise (AssertionError msg)) /\
  (NoDup (map fst es) ->
   (forall nm, In nm (map fst es) ->
               length (mesh_candidates fs (cad_model_dir ++ [nm])) = 1) ->
   exists ds,
     make_object_dataset fs cad_model_dir = Ok ds /\
     map ro_label (list_objects ds) = map fst es /\
     NoDup (map ro_label (list_objects ds)) /\
     length (list_objects ds) = length es /\
     Forall (fun o =>
               mesh_candidates fs (cad_model_dir ++ [ro_label o]) = [mesh_path o] /\
               is_ok (resolve fs (mesh_path o)) = true)
            (list_objects ds)).
Proof.
  intros Hres. split.
  - intros (nm & Hnm & Hbad). unfold make_object_dataset.
    rewrite (iterdir_Dir _ _ _ Hres). cbn.
    destruct (mapM_raises (fun e => exists msg, e = AssertionError msg)
                (object_of_dir fs "m") (map (fun e => cad_model_dir ++ [fst e]) es))
      as (e & -> & msg & ->).
    + intros a e. apply object_of_dir_raises.
    + apply (mapM_fails _ _ (cad_model_dir ++ [nm])).
      * apply in_map_iff in Hnm as (e & <- & He).
        apply in_map_iff. exists e. auto.
      * rewrite object_of_dir_cases.
        destruct (mesh_candidates fs (cad_model_dir ++ [nm])) as [|m [|m' ms]];
          cbn in *; congruence.
    + exists msg. reflexivity.
  - intros Hnd Hone.
    set (entry := fun d : path =>
           {| ro_label := name d;
              mesh_path := List.hd [] (mesh_candidates fs d);
              mesh_units := "m" |}).
    assert (Hobjs : mapM (object_of_dir fs "m")
                      (map (fun e => cad_model_dir ++ [fst e]) es)
                    = Ok (map entry (map (fun e => cad_model_dir ++ [fst e]) es))).
    { apply mapM_all_Ok. intros d Hd.
      apply in_map_iff in Hd as (e & <- & He).
      assert (Hin : In (fst e) (map fst es)) by (apply in_map; exact He).
      specialize (Hone _ Hin). rewrite object_of_dir_cases. unfold entry.
      destruct (mesh_candidates fs (cad_model_dir ++ [e.1])) as [|m [|m' ms]];
        cbn in *; congruence. }
    assert (Hlabels : map ro_label (map entry
                        (map (fun e => cad_model_dir ++ [fst e]) es)) = map fst es).
    { rewrite !map_map. apply map_ext. intros e. cbn. apply name_child. }
    eexists. split; [|split; [|split; [|split]]].
    + unfold make_object_dataset. rewrite (iterdir_Dir _ _ _ Hres). cbn.
      rewrite Hobjs. cbn. apply make_RigidObjectDataset_NoDup.
      rewrite Hlabels. exact Hnd.
    + exact Hlabels.
    + cbn [list_objects]. rewrite Hlabels. exact Hnd.
    + cbn [list_objects]. rewrite !length_map. reflexivity.
    + cbn [list_objects]. rewrite map_map. apply Forall_map.
      apply Forall_forall. intros e He. apply list_elem_of_In in He.
      assert (Hin : In (fst e) (map fst es)) by (apply in_map; exact He).
      specialize (Hone _ Hin). cbn. rewrite name_child.
      destruct (mesh_candidates fs (cad_model_dir ++ [e.1])) as [|m [|m' ms]] eqn:Hm;
        cbn in Hone; try discriminate.
      split; [reflexivity|]. cbn. apply (mesh_candidate_exists _ _ _ Hm).
Qed.

(** ** Render cache loader *)

Lemma load_renders_loop_fails fs renders_path sub_folders acc sub :
  In sub sub_folders ->
  isdir fs (renders_path ++ [sub]) = true ->
  is_ok (load_folder fs (renders_path ++ [sub])) = false ->
  is_ok (load_renders_loop fs renders_path sub_folders acc) = false.
Proof.
  intros Hin Hdir Hfail. revert acc.
  induction sub_folders as [|s0 rest IH]; intros acc; [destruct Hin|].
  simpl. destruct (string_dec s0 sub) as [->|Hne].
  - rewrite Hdir. destruct (load_folder fs (renders_path ++ [sub]));
      [discriminate|reflexivity].
  - destruct Hin as [?|Hin]; [contradiction|].
    destruct (isdir fs (renders_path ++ [s0])); [|apply IH, Hin].
    destruct (load_folder fs (renders_path ++ [s0])); cbn;
      [apply IH, Hin|reflexivity].
Qed.

Lemma load_renders_loop_Ok fs renders_path sub_folders acc :
  (forall sub, In sub sub_folders ->
               isdir fs (renders_path ++ [sub]) = true ->
               is_ok (load_folder fs (renders_path ++ [sub])) = true) ->
  exists m,
    load_renders_loop fs renders_path sub_folders acc = Ok m /\
    forall sub,
      (In sub sub_folders -> isdir fs (renders_path ++ [sub]) = true ->
       exists t, load_folder fs (renders_path ++ [sub]) = Ok t /\
                 m !! sub = Some t) /\
      ((In sub sub_folders -> isdir fs (renders_path ++ [sub]) = false) ->
       m !! sub = acc !! sub).
Proof.
  revert acc. induction sub_folders as [|s0 rest IH]; intros acc Hall.
  - exists acc. split; [reflexivity|]. intros sub. split; [intros []|reflexivity].
  - simpl load_renders_loop.
    destruct (isdir fs (renders_path ++ [s0])) eqn:Hdir0.
    + pose proof (Hall s0 (or_introl eq_refl) Hdir0) as Hok0.
      destruct (load_folder fs (renders_path ++ [s0])) as [t0|] eqn:Ht0;
        [|discriminate]. cbn.
      destruct (IH (<[s0:=t0]> acc)) as (m & Hm & Hspec).
      { intros sub Hin. apply Hall. right. exact Hin. }
      exists m. split; [exact Hm|]. intros sub. split.
      * intros Hin Hdir. destruct (in_dec string_dec sub rest) as [Hrest|Hrest].
        -- apply (proj1 (Hspec sub)); assumption.
        -- destruct Hin as [<-|Hin]; [|contradiction].
           exists t0. split; [exact Ht0|].
           rewrite (proj2 (Hspec s0)) by (intros; contradiction).
           apply lookup_insert_eq.
      * intros Hnot. rewrite (proj2 (Hspec sub)).
        -- apply lookup_insert_ne. intros <-.
           specialize (Hnot (or_introl eq_refl)). congruence.
        -- intros Hin. apply Hnot. right. exact Hin.
    + destruct (IH acc) as (m & Hm & Hspec).
      { intros sub Hin. apply Hall. right. exact Hin. }
      exists m. split; [exact Hm|]. intros sub. split.
      * intros [<-|Hin] Hdir; [congruence|]. apply (proj1 (Hspec sub)); assumption.
      * intros Hnot. apply (proj2 (Hspec sub)). intros Hin. apply Hnot.
        right. exact Hin.
Qed.

Lemma torch_stack_uniform (l : list (ndarray Q)) (s : list nat) :
  l <> [] ->
  (forall t, In t l -> shape t = s) ->
  torch_stack l = Ok {| shape := length l :: s; data := flat_map data l |}.
Proof.
  destruct l as [|t rest]; [congruence|]. intros _ Hs. unfold torch_stack.
  assert (Hall : forallb (fun t' => bool_decide (shape t' = shape t)) rest = true).
  { apply forallb_forall. intros t' Ht'. apply bool_decide_eq_true.
    rewrite (Hs t') by (right; exact Ht'). symmetry. apply Hs. left. reflexivity. }
  rewrite Hall, (Hs t (or_introl eq_refl)). reflexivity.
Qed.

Lemma ToTensor_shape im :
  shape (ToTensor im) = [bands (im_mode im); im_height im; im_width im].
Proof. reflexivity. Qed.

Lemma torch_cat_pair c h w rgb normal :
  render_image_ok c h w rgb -> render_image_ok c h w normal ->
  torch_cat (ToTensor rgb) (ToTensor normal) = Ok (pair_tensor rgb normal) /\
  shape (pair_tensor rgb normal) = [2 * c; h; w].
Proof.
  intros (_ & Hc & Hh & Hw & _) (_ & Hc' & Hh' & Hw' & _).
  unfold torch_cat, pair_tensor. rewrite !ToTensor_shape.
  rewrite bool_decide_true by congruence.
  split; [reflexivity|]. cbn [shape]. rewrite Hc, Hc', Hh, Hw.
  f_equal. lia.
Qed.

Lemma scaled_sample_unit (v : Z) :
  (0 <= v <= 255)%Z -> unit_interval (Qdiv (inject_Z v) (255 # 1)).
Proof.
  intros Hv. unfold unit_interval, Qle, Qdiv, Qmult, Qinv, inject_Z. cbn. lia.
Qed.

Lemma nth_Forall {A} (P : A -> Prop) (l : list A) (d : A) (i : nat) :
  Forall P l -> P d -> P (nth i l d).
Proof.
  intros Hl Hd. revert i. induction Hl as [|a l Ha Hl IH]; intros [|i]; simpl; auto.
Qed.

Lemma ToTensor_unit_interval c h w im :
  render_image_ok c h w im -> Forall unit_interval (data (ToTensor im)).
Proof.
  intros (H8 & _ & _ & _ & Hs & _). unfold ToTensor. cbn [data]. rewrite H8.
  apply Forall_map. unfold hwc_to_chw.
  apply Forall_forall. intros v Hv. apply list_elem_of_In in Hv.
  apply in_flat_map in Hv as (ci & _ & Hv).
  apply in_map_iff in Hv as (i & <- & _).
  apply scaled_sample_unit, nth_Forall; [exact Hs|lia].
Qed.

Lemma flat_map_map {A B C} (f : B -> list C) (g : A -> B) (l : list A) :
  flat_map f (map g l) = flat_map (fun a => f (g a)) l.
Proof.
  induction l as [|a l IH]; simpl; [reflexivity|]. rewrite IH. reflexivity.
Qed.

(** Flat indices: blocks of equal length laid one after the other. *)
Lemma flat_index_bound (a b n m : nat) : a < n -> b < m -> a * m + b < n * m.
Proof. intros Ha Hb. nia. Qed.

Lemma length_flat_map_seq {A} (f : nat -> list A) (m s n : nat) :
  (forall j, s <= j < s + n -> length (f j) = m) ->
  length (flat_map f (seq s n)) = n * m.
Proof.
  revert s. induction n as [|n IH]; intros s Hlen; [reflexivity|].
  cbn [seq flat_map]. rewrite length_app, (Hlen s) by lia.
  rewrite (IH (S s)) by (intros j Hj; apply Hlen; lia). lia.
Qed.

Lemma nth_flat_map_seq {A} (f : nat -> list A) (d : A) (m s n i r : nat) :
  (forall j, s <= j < s + n -> length (f j) = m) ->
  i < n -> r < m ->
  nth (i * m + r) (flat_map f (seq s n)) d = nth r (f (s + i)) d.
Proof.
  revert s i. induction n as [|n IH]; intros s i Hlen Hi Hr; [lia|].
  cbn [seq flat_map]. destruct i as [|i].
  - rewrite Nat.add_0_r. cbn [Nat.mul Nat.add].
    apply app_nth1. rewrite (Hlen s) by lia. exact Hr.
  - rewrite app_nth2 by (rewrite (Hlen s) by lia; lia).
    rewrite (Hlen s) by lia.
    replace (S i * m + r - m) with (i * m + r) by lia.
    rewrite (IH (S s) i) by (try (intros j Hj; apply Hlen); lia).
    f_equal. f_equal. lia.
Qed.

Lemma nth_map_seq {A} (g : nat -> A) (d : A) (m r : nat) :
  r < m -> nth r (map g (seq 0 m)) d = g r.
Proof.
  intros Hr. rewrite (nth_indep _ d (g 0)) by (rewrite length_map, length_seq; exact Hr).
  rewrite map_nth, seq_nth by exact Hr. reflexivity.
Qed.

(** The (C, H, W) buffer holds at [k, y, x] what the (H, W, C) buffer
    holds at [y, x, k]. *)
Lemma hwc_to_chw_length {A} (d : A) (h w c : nat) (l : list A) :
  length (hwc_to_chw d h w c l) = c * (h * w).
Proof.
  unfold hwc_to_chw. apply length_flat_map_seq.
  intros j _. rewrite length_map, length_seq. reflexivity.
Qed.

Lemma hwc_to_chw_nth {A} (d : A) (h w c : nat) (l : list A) (k y x : nat) :
  k < c -> y < h -> x < w ->
  nth ((k * h + y) * w + x) (hwc_to_chw d h w c l) d
  = nth ((y * w + x) * c + k) l d.
Proof.
  intros Hk Hy Hx. unfold hwc_to_chw.
  assert (Hp : y * w + x < h * w) by (apply flat_index_bound; assumption).
  replace ((k * h + y) * w + x) with (k * (h * w) + (y * w + x)) by nia.
  rewrite (nth_flat_map_seq _ d (h * w)); [|intros j _|exact Hk|exact Hp].
  - cbn [Nat.add]. apply (nth_map_seq (fun i => nth (i * c + k) l d)). exact Hp.
  - rewrite length_map, length_seq. reflexivity.
Qed.

Lemma ToTensor_length im :
  length (data (ToTensor im))
  = bands (im_mode im) * (im_height im * im_width im).
Proof. unfold ToTensor. cbn [data]. rewrite length_map. apply hwc_to_chw_length. Qed.

(** What [ToTensor] puts at [k, y, x] for an 8-bit image. *)
Lemma ToTensor_nth c h w im (k y x : nat) :
  render_image_ok c h w im -> k < c -> y < h -> x < w ->
  nth ((k * h + y) * w + x) (data (ToTensor im)) 0%Q = scaled_sample im y x k.
Proof.
  intros (H8 & Hc & Hh & Hw & _) Hk Hy Hx.
  assert (Hidx : (k * h + y) * w + x < c * (h * w)).
  { rewrite Nat.mul_assoc. apply flat_index_bound; [|exact Hx].
    apply flat_index_bound; assumption. }
  unfold ToTensor, scaled_sample, sample_at. cbn [data]. rewrite H8, Hc, Hh, Hw.
  set (scale := fun v : Z => Qdiv (inject_Z v) (255 # 1)).
  rewrite (nth_indep _ 0%Q (scale 0%Z))
    by (rewrite length_map, hwc_to_chw_length; exact Hidx).
  rewrite (map_nth scale). unfold scale. f_equal. f_equal.
  apply hwc_to_chw_nth; assumption.
Qed.

(** The tensor of a pair at [k, y, x]: an appearance channel for [k] below
    the band count, a normal channel from there on. *)
Lemma pair_tensor_nth c h w rgb normal (k y x : nat) :
  render_image_ok c h w rgb -> render_image_ok c h w normal ->
  k < 2 * c -> y < h -> x < w ->
  nth ((k * h + y) * w + x) (data (pair_tensor rgb normal)) 0%Q
  = if Nat.ltb k c then scaled_sample rgb y x k
    else scaled_sample normal y x (k - c).
Proof.
  intros Hr Hn Hk Hy Hx. cbn [pair_tensor data].
  assert (Hlen : length (data (ToTensor rgb)) = c * (h * w)).
  { rewrite ToTensor_length. destruct Hr as (_ & -> & -> & -> & _). reflexivity. }
  destruct (Nat.ltb_spec k c) as [Hlt|Hge].
  - rewrite app_nth1.
    + apply (ToTensor_nth c h w); assumption.
    + rewrite Hlen, Nat.mul_assoc. apply flat_index_bound; [|exact Hx].
      apply flat_index_bound; assumption.
  - rewrite app_nth2 by (rewrite Hlen; nia). rewrite Hlen.
    replace ((k * h + y) * w + x - c * (h * w))
      with (((k - c) * h + y) * w + x) by nia.
    apply (ToTensor_nth c h w); [exact Hn|lia|exact Hy|exact Hx].
Qed.

Lemma pair_tensor_length c h w rgb normal :
  render_image_ok c h w rgb -> render_image_ok c h w normal ->
  length (data (pair_tensor rgb normal)) = 2 * c * (h * w).
Proof.
  intros (_ & Hc & Hh & Hw & _) (_ & Hc' & Hh' & Hw' & _).
  cbn [pair_tensor data]. rewrite length_app, !ToTensor_length.
  rewrite Hc, Hh, Hw, Hc', Hh', Hw'. lia.
Qed.

Lemma load_pair_Ok fs sub_folder_path i rgb normal c h w :
  Image_open fs (sub_folder_path ++ [rgb_name i]) = Ok rgb ->
  Image_open fs (sub_folder_path ++ [normal_name i]) = Ok normal ->
  render_image_ok c h w rgb -> render_image_ok c h w normal ->
  load_pair fs sub_folder_path i = Ok (pair_tensor rgb normal).
Proof.
  intros Hrgb Hnormal Hr Hn. unfold load_pair.
  fold (rgb_name i). fold (normal_name i). cbn zeta.
  rewrite Hrgb. cbn. rewrite Hnormal. cbn.
  apply (torch_cat_pair c h w); assumption.
Qed.

(** A well-formed sub-folder loads as the stack of its pair tensors. *)
Lemma load_folder_Ok fs sub_folder_path pairCount c h w rgbs normals :
  well_formed_folder fs sub_folder_path pairCount c h w rgbs normals ->
  load_folder fs sub_folder_path =
  Ok {| shape := [pairCount / 2; 2 * c; h; w];
        data := flat_map (fun i => data (pair_tensor (rgbs i) (normals i)))
                         (seq 0 (pairCount / 2)) |}.
Proof.
  intros (Hcount & _ & Hge & Hpairs). unfold load_folder, num_files.
  rewrite sorted_length, Hcount.
  set (n := pairCount / 2) in *.
  assert (Hn : 1 <= n).
  { unfold n. change 1 with (2 / 2). apply Nat.Div0.div_le_mono. exact Hge. }
  rewrite (mapM_all_Ok _ (fun i => pair_tensor (rgbs i) (normals i))).
  - cbn [mbind result_bind rbind].
    rewrite (torch_stack_uniform _ [2 * c; h; w]).
    + rewrite length_map, length_seq, flat_map_map. reflexivity.
    + destruct n; [lia|]. cbn [seq map]. discriminate.
    + intros t Ht. apply in_map_iff in Ht as (i & <- & Hi).
      apply in_seq in Hi. destruct (Hpairs i) as (_ & _ & Hr & Hnm); [lia|].
      apply (torch_cat_pair c h w _ _ Hr Hnm).
  - intros i Hi. apply in_seq in Hi.
    destruct (Hpairs i) as (Hrgb & Hnormal & Hr & Hnm); [lia|].
    apply (load_pair_Ok _ _ _ _ _ c h w); assumption.
Qed.

Lemma load_folder_unit_interval fs sub_folder_path pairCount c h w rgbs normals :
  well_formed_folder fs sub_folder_path pairCount c h w rgbs normals ->
  Forall unit_interval
    (flat_map (fun i => data (pair_tensor (rgbs i) (normals i)))
              (seq 0 (pairCount / 2))).
Proof.
  intros (_ & _ & _ & Hpairs). apply Forall_forall. intros v Hv.
  apply list_elem_of_In in Hv. apply in_flat_map in Hv as (i & Hi & Hv).
  apply in_seq in Hi. destruct (Hpairs i) as (_ & _ & Hr & Hnm); [lia|].
  cbn [pair_tensor data] in Hv. apply in_app_or in Hv.
  pose proof (ToTensor_unit_interval _ _ _ _ Hr) as Hur.
  pose proof (ToTensor_unit_interval _ _ _ _ Hnm) as Hun.
  rewrite Forall_forall in Hur, Hun.
  destruct Hv as [Hv|Hv]; [apply Hur|apply Hun]; apply list_elem_of_In, Hv.
Qed.

(** The stack of the pair tensors, element by element. *)
Lemma load_folder_elements fs sub_folder_path pairCount c h w rgbs normals :
  well_formed_folder fs sub_folder_path pairCount c h w rgbs normals ->
  let stacked := flat_map (fun i => data (pair_tensor (rgbs i) (normals i)))
                          (seq 0 (pairCount / 2)) in
  length stacked = pairCount / 2 * (2 * c) * h * w /\
  forall i k y x,
    i < pairCount / 2 -> k < 2 * c -> y < h -> x < w ->
    nth (((i * (2 * c) + k) * h + y) * w + x) stacked 0%Q
    = if Nat.ltb k c then scaled_sample (rgbs i) y x k
      else scaled_sample (normals i) y x (k - c).
Proof.
  intros (_ & _ & _ & Hpairs) stacked.
  assert (Hlen : forall j, 0 <= j < 0 + pairCount / 2 ->
            length (data (pair_tensor (rgbs j) (normals j))) = 2 * c * (h * w)).
  { intros j Hj. destruct (Hpairs j) as (_ & _ & Hr & Hnm); [lia|].
    apply (pair_tensor_length c h w); assumption. }
  split.
  - unfold stacked. rewrite (length_flat_map_seq _ (2 * c * (h * w))) by exact Hlen.
    nia.
  - intros i k y x Hi Hk Hy Hx.
    destruct (Hpairs i) as (_ & _ & Hr & Hnm); [exact Hi|].
    assert (Hrem : (k * h + y) * w + x < 2 * c * (h * w)).
    { rewrite Nat.mul_assoc. apply flat_index_bound; [|exact Hx].
      apply flat_index_bound; assumption. }
    replace (((i * (2 * c) + k) * h + y) * w + x)
      with (i * (2 * c * (h * w)) + ((k * h + y) * w + x)) by nia.
    unfold stacked.
    rewrite (nth_flat_map_seq _ 0%Q (2 * c * (h * w)) 0 _ i _ Hlen Hi Hrem).
    cbn [Nat.add]. apply (pair_tensor_nth c h w); assumption.
Qed.

Lemma listdir_Dir fs p es :
  resolve fs p = Ok (Dir es) -> listdir fs p = Ok (map fst es).
Proof. intros Hres. unfold listdir. rewrite Hres. reflexivity. Qed.

(** C4.  Let the render-cache root list [es], and let every entry that is
    a directory be a well-formed sub-folder.  Then [load_renders] returns
    a map whose keys are exactly the entries that are directories (other
    entries are skipped), and the tensor of a sub-folder with [pairCount]
    PNG files of [c] bands and size [h] x [w] has shape
    [pairCount / 2; 2 * c; h; w] and as many values as that shape says.
    In view [i], the channel [k] at row [y] and column [x] is the byte of
    band [k] of that pixel of [rgb_i] divided by 255 when [k] is below [c],
    and the byte of band [k - c] of that pixel of [normal_i] divided by
    255 from there on; every value lies in [0, 1]. *)
Theorem load_renders_shapes (fs : node) (renders_path : path)
    (es : list (string * node)) :
  resolve fs renders_path = Ok (Dir es) ->
  (forall sub, In sub (map fst es) ->
     isdir fs (renders_path ++ [sub]) = true ->
     exists pairCount c h w rgbs normals,
       well_formed_folder fs (renders_path ++ [sub]) pairCount c h w rgbs normals) ->
  exists m,
    load_renders fs renders_path = Ok m /\
    (forall sub, is_Some (m !! sub) <->
                 In sub (map fst es) /\ isdir fs (renders_path ++ [sub]) = true) /\
    (forall sub pairCount c h w rgbs normals,
       In sub (map fst es) ->
       isdir fs (renders_path ++ [sub]) = true ->
       well_formed_folder fs (renders_path ++ [sub]) pairCount c h w rgbs normals ->
       exists t,
         m !! sub = Some t /\
         shape t = [pairCount / 2; 2 * c; h; w] /\
         length (data t) = pairCount / 2 * (2 * c) * h * w /\
         (forall i k y x,
            i < pairCount / 2 -> k < 2 * c -> y < h -> x < w ->
            tensor_at t i k y x
            = if Nat.ltb k c then scaled_sample (rgbs i) y x k
              else scaled_sample (normals i) y x (k - c)) /\
         Forall unit_interval (data t)).
Proof.
  intros Hres Hwf. unfold load_renders. rewrite (listdir_Dir _ _ _ Hres). cbn.
  destruct (load_renders_loop_Ok fs renders_path (map fst es) ∅) as (m & Hm & Hspec).
  { intros sub Hin Hdir.
    destruct (Hwf sub Hin Hdir) as (pc & c & h & w & rgbs & normals & Hf).
    rewrite (load_folder_Ok _ _ _ _ _ _ _ _ Hf). reflexivity. }
  exists m. split; [exact Hm|]. split.
  - intros sub. split.
    + intros Hsome.
      destruct (in_dec string_dec sub (map fst es)) as [Hin|Hin].
      * destruct (isdir fs (renders_path ++ [sub])) eqn:Hdir; [auto|].
        rewrite (proj2 (Hspec sub)), lookup_empty in Hsome by auto.
        destruct Hsome; discriminate.
      * rewrite (proj2 (Hspec sub)), lookup_empty in Hsome
          by (intros; contradiction).
        destruct Hsome; discriminate.
    + intros [Hin Hdir]. destruct (proj1 (Hspec sub) Hin Hdir) as (t & _ & ->).
      eexists. reflexivity.
  - intros sub pc c h w rgbs normals Hin Hdir Hf.
    destruct (proj1 (Hspec sub) Hin Hdir) as (t & Ht & Hlook).
    rewrite (load_folder_Ok _ _ _ _ _ _ _ _ Hf) in Ht. injection Ht as <-.
    destruct (load_folder_elements _ _ _ _ _ _ _ _ Hf) as [Hlen Hnth].
    eexists. split; [exact Hlook|]. unfold tensor_at. cbn [shape data].
    split; [reflexivity|]. split; [exact Hlen|]. split; [exact Hnth|].
    apply (load_folder_unit_interval _ _ _ _ _ _ _ _ Hf).
Qed.

Lemma example_renders_well_formed :
  well_formed_folder example_renders ["renders"; "obj_000001"] 4 3 2 2
    example_tile_rgbs example_tile_normals.
Proof.
  split; [vm_compute; reflexivity|]. split; [exists 2; reflexivity|].
  split; [lia|]. change (4 / 2) with 2. intros i Hi.
  assert (Hcases : i = 0 \/ i = 1) by lia.
  destruct Hcases as [-> | ->];
    (split; [vm_compute; reflexivity|]; split; [vm_compute; reflexivity|];
     split; (split; [reflexivity|]; split; [reflexivity|];
             split; [reflexivity|]; split; [reflexivity|];
             split; [repeat constructor; lia|reflexivity])).
Qed.

(** The example cache: the stray file is skipped, and the object's four
    PNG files of 2 x 2 pixels give a tensor of two views with six
    channels.  In view 0 the green channel holds 50/255 at row 0, column 1,
    and the first normal channel 132/255 at row 1, column 0; in view 1 the
    blue channel holds 54/255 at row 1, column 1, and the last normal
    channel 201/255 at row 0, column 1. *)
Lemma load_renders_shapes_witness :
  exists m t,
    load_renders example_renders ["renders"] = Ok m /\
    m !! "readme.txt" = None /\
    m !! "obj_000001" = Some t /\
    shape t = [2; 6; 2; 2] /\
    length (data t) = 48 /\
    tensor_at t 0 1 0 1 = (50 # 255)%Q /\
    tensor_at t 0 3 1 0 = (132 # 255)%Q /\
    tensor_at t 1 2 1 1 = (54 # 255)%Q /\
    tensor_at t 1 5 0 1 = (201 # 255)%Q /\
    Forall unit_interval (data t).
Proof.
  destruct (load_renders_shapes example_renders ["renders"] _ eq_refl)
    as (m & Hm & Hkeys & Hshape).
  { intros sub [<-|[<-|[]]] Hdir; [discriminate Hdir|].
    exists 4, 3, 2, 2, example_tile_rgbs, example_tile_normals.
    exact example_renders_well_formed. }
  destruct (Hshape "obj_000001" 4 3 2 2 example_tile_rgbs example_tile_normals)
    as (t & Ht & Hs & Hlen & Hat & Hu).
  { right. left. reflexivity. }
  { reflexivity. }
  { exact example_renders_well_formed. }
  exists m, t. split; [exact Hm|]. split.
  { apply eq_None_not_Some. intros Hsome.
    apply Hkeys in Hsome as [_ Hdir]. discriminate Hdir. }
  split; [exact Ht|]. split; [exact Hs|]. split; [exact Hlen|].
  change (4 / 2) with 2 in Hat.
  rewrite (Hat 0 1 0 1), (Hat 0 3 1 0), (Hat 1 2 1 1), (Hat 1 5 0 1) by lia.
  repeat (split; [reflexivity|]). exact Hu.
Defined.

Lemma Image_open_missing fs p ses nm :
  resolve fs p = Ok (Dir ses) -> assoc nm ses = None ->
  Image_open fs (p ++ [nm]) = Raise (FileNotFoundError (p ++ [nm])).
Proof.
  intros Hres Hnone. unfold Image_open, resolve. rewrite resolve_from_app.
  rewrite (resolve_from_full _ (p ++ [nm]) _ _ _ Hres). simpl.
  rewrite Hnone. reflexivity.
Qed.

Lemma load_folder_fails fs sub_folder_path i :
  i < num_files fs sub_folder_path ->
  is_ok (load_pair fs sub_folder_path i) = false ->
  is_ok (load_folder fs sub_folder_path) = false.
Proof.
  intros Hi Hfail. unfold load_folder.
  assert (Hm : is_ok (mapM (load_pair fs sub_folder_path)
                        (seq 0 (num_files fs sub_folder_path))) = false).
  { apply (mapM_fails _ _ i); [apply in_seq; lia|exact Hfail]. }
  destruct (mapM _ _); [discriminate|reflexivity].
Qed.

(** The first failure decides the exception. *)
Lemma mapM_first_failure {A B} (f : A -> result B) (l1 l2 : list A) a e :
  (forall x, In x l1 -> is_ok (f x) = true) ->
  f a = Raise e ->
  mapM f (l1 ++ a :: l2) = Raise e.
Proof.
  intros Hok Hfa. induction l1 as [|x l1 IH]; simpl.
  - rewrite Hfa. reflexivity.
  - pose proof (Hok x (or_introl eq_refl)) as Hx.
    destruct (f x); [|discriminate Hx]. simpl.
    rewrite IH by (intros x' Hx'; apply Hok; right; exact Hx'). reflexivity.
Qed.

Lemma load_folder_first_failure fs sub_folder_path i e :
  i < num_files fs sub_folder_path ->
  (forall j, j < i -> is_ok (load_pair fs sub_folder_path j) = true) ->
  load_pair fs sub_folder_path i = Raise e ->
  load_folder fs sub_folder_path = Raise e.
Proof.
  intros Hi Hbelow Hfail. unfold load_folder.
  replace (num_files fs sub_folder_path)
    with (i + S (num_files fs sub_folder_path - S i)) by lia.
  rewrite seq_app. cbn [Nat.add seq].
  rewrite (mapM_first_failure _ _ _ _ e); [reflexivity| |exact Hfail].
  intros j Hj. apply in_seq in Hj. apply Hbelow. lia.
Qed.

Lemma load_renders_loop_first_failure fs renders_path before sub after acc e :
  (forall s, In s before -> isdir fs (renders_path ++ [s]) = true ->
             is_ok (load_folder fs (renders_path ++ [s])) = true) ->
  isdir fs (renders_path ++ [sub]) = true ->
  load_folder fs (renders_path ++ [sub]) = Raise e ->
  load_renders_loop fs renders_path (before ++ sub :: after) acc = Raise e.
Proof.
  intros Hbefore Hdir Hfail. revert acc.
  induction before as [|s0 before IH]; intros acc; simpl.
  - rewrite Hdir, Hfail. reflexivity.
  - destruct (isdir fs (renders_path ++ [s0])) eqn:Hdir0.
    + pose proof (Hbefore s0 (or_introl eq_refl) Hdir0) as Hok.
      destruct (load_folder fs (renders_path ++ [s0])); [|discriminate Hok].
      cbn. apply IH. intros s Hs. apply Hbefore. right. exact Hs.
    + apply IH. intros s Hs. apply Hbefore. right. exact Hs.
Qed.

(** When nothing fails before it, the exception of a pair is the
    exception of [load_renders]. *)
Lemma load_renders_first_failure fs renders_path es ses sub i e :
  resolve fs renders_path = Ok (Dir es) ->
  resolve fs (renders_path ++ [sub]) = Ok (Dir ses) ->
  i < num_files fs (renders_path ++ [sub]) ->
  loads_before fs renders_path es sub i ->
  load_pair fs (renders_path ++ [sub]) i = Raise e ->
  load_renders fs renders_path = Raise e.
Proof.
  intros Hres Hsub Hi [(before & after & Hes & Hbefore) Hbelow] Hfail.
  unfold load_renders. rewrite (listdir_Dir _ _ _ Hres), Hes.
  cbn [mbind result_bind rbind].
  apply load_renders_loop_first_failure; [exact Hbefore| |].
  - unfold isdir. rewrite Hsub. reflexivity.
  - apply (load_folder_first_failure _ _ i); assumption.
Qed.

(** C3 (as amended).  If, in a sub-folder of the render cache, the index
    [i] is below half the number of PNG files and the sub-folder has no
    entry [rgb_i] or no entry [normal_i], then the pair cannot be loaded
    and [load_renders] raises.  Opening the missing file raises
    FileNotFoundError (the specification's RenderCacheError): the pair
    raises it for [rgb_i] when that file is missing, and for [normal_i]
    when [rgb_i] opens and [normal_i] is missing; and when nothing fails
    before this pair, that FileNotFoundError is the exception of
    [load_renders]. *)
Theorem load_renders_missing_counterpart (fs : node) (renders_path : path)
    (es ses : list (string * node)) (sub : string) (i : nat) :
  resolve fs renders_path = Ok (Dir es) ->
  In sub (map fst es) ->
  resolve fs (renders_path ++ [sub]) = Ok (Dir ses) ->
  i < num_files fs (renders_path ++ [sub]) ->
  assoc (rgb_name i) ses = None \/ assoc (normal_name i) ses = None ->
  is_ok (load_pair fs (renders_path ++ [sub]) i) = false /\
  (exists e, load_renders fs renders_path = Raise e) /\
  (assoc (rgb_name i) ses = None ->
   let missing := (renders_path ++ [sub]) ++ [rgb_name i] in
   load_pair fs (renders_path ++ [sub]) i = Raise (FileNotFoundError missing) /\
   (loads_before fs renders_path es sub i ->
    load_renders fs renders_path = Raise (FileNotFoundError missing))) /\
  (assoc (normal_name i) ses = None ->
   is_ok (Image_open fs ((renders_path ++ [sub]) ++ [rgb_name i])) = true ->
   let missing := (renders_path ++ [sub]) ++ [normal_name i] in
   load_pair fs (renders_path ++ [sub]) i = Raise (FileNotFoundError missing) /\
   (loads_before fs renders_path es sub i ->
    load_renders fs renders_path = Raise (FileNotFoundError missing))).
Proof.
  intros Hres Hin Hsub Hi Hmiss.
  assert (Hrgb : assoc (rgb_name i) ses = None ->
                 load_pair fs (renders_path ++ [sub]) i
                 = Raise (FileNotFoundError ((renders_path ++ [sub]) ++ [rgb_name i]))).
  { intros Hnone. unfold load_pair. fold (rgb_name i). cbn zeta.
    rewrite (Image_open_missing _ _ _ _ Hsub Hnone). reflexivity. }
  assert (Hnormal : assoc (normal_name i) ses = None ->
            is_ok (Image_open fs ((renders_path ++ [sub]) ++ [rgb_name i])) = true ->
            load_pair fs (renders_path ++ [sub]) i
            = Raise (FileNotFoundError ((renders_path ++ [sub]) ++ [normal_name i]))).
  { intros Hnone Hopen. unfold load_pair. fold (rgb_name i). fold (normal_name i).
    cbn zeta.
    destruct (Image_open fs ((renders_path ++ [sub]) ++ [rgb_name i]));
      [|discriminate Hopen].
    cbn. rewrite (Image_open_missing _ _ _ _ Hsub Hnone). reflexivity. }
  assert (Hpair : is_ok (load_pair fs (renders_path ++ [sub]) i) = false).
  { destruct Hmiss as [Hnone|Hnone]; [rewrite (Hrgb Hnone); reflexivity|].
    destruct (Image_open fs ((renders_path ++ [sub]) ++ [rgb_name i])) eqn:Hopen.
    - rewrite (Hnormal Hnone eq_refl). reflexivity.
    - unfold load_pair. fold (rgb_name i). cbn zeta. rewrite Hopen. reflexivity. }
  split; [exact Hpair|]. split; [|split].
  - apply not_ok_raise. unfold load_renders. rewrite (listdir_Dir _ _ _ Hres). cbn.
    apply (load_renders_loop_fails _ _ _ _ sub Hin).
    + unfold isdir. rewrite Hsub. reflexivity.
    + apply (load_folder_fails _ _ i Hi Hpair).
  - intros Hnone missing. split; [exact (Hrgb Hnone)|]. intros Hbefore.
    exact (load_renders_first_failure _ _ _ _ _ _ _ Hres Hsub Hi Hbefore
             (Hrgb Hnone)).
  - intros Hnone Hopen missing. split; [exact (Hnormal Hnone Hopen)|].
    intros Hbefore.
    exact (load_renders_first_failure _ _ _ _ _ _ _ Hres Hsub Hi Hbefore
             (Hnormal Hnone Hopen)).
Qed.

(** A sub-folder of four PNG files holding rgb_000, normal_000 and
    rgb_001: the stray file at the root is skipped, the pair 0 loads, and
    opening normal_001 raises FileNotFoundError, which is what
    [load_renders] raises. *)
Lemma load_renders_missing_counterpart_witness :
  num_files gapped_renders ["renders"; "obj_000001"] = 2 /\
  load_renders gapped_renders ["renders"]
  = Raise (FileNotFoundError ["renders"; "obj_000001"; "normal_001.png"]).
Proof.
  split; [vm_compute; reflexivity|].
  refine (proj2 (proj2 (proj2 (proj2
            (load_renders_missing_counterpart gapped_renders ["renders"]
               _ _ "obj_000001" 1 eq_refl _ eq_refl _ _))) eq_refl eq_refl) _).
  - right. left. reflexivity.
  - vm_compute. lia.
  - right. reflexivity.
  - split.
    + exists ["readme.txt"], []. split; [reflexivity|].
      intros s [<-|[]] Hdir. discriminate Hdir.
    + intros j Hj. replace j with 0 by lia. vm_compute. reflexivity.
Defined.

(** C3 as stated does not hold: the sub-folder below holds three PNG
    files, [rgb_001.png] has no normal counterpart, and yet [load_renders]
    returns a tensor of one view for it. *)
Lemma load_renders_unpaired_counterexample :
  length (rglob unpaired_renders ["renders"; "obj_000001"] ".png") = 3 /\
  is_ok (resolve unpaired_renders ["renders"; "obj_000001"; "rgb_001.png"]) = true /\
  is_ok (resolve unpaired_renders ["renders"; "obj_000001"; "normal_001.png"]) = false /\
  exists m t,
    load_renders unpaired_renders ["renders"] = Ok m /\
    m !! "obj_000001" = Some t /\
    shape t = [1; 6; 1; 1].
Proof.
  split; [vm_compute; reflexivity|]. split; [reflexivity|]. split; [reflexivity|].
  eexists. eexists. split; [vm_compute; reflexivity|].
  split; [vm_compute; reflexivity|]. reflexivity.
Qed.

(** ** Visualization compositor *)

Lemma pure_Ok_bind {A B} (a : A) (k : A -> io B) (fs : node) :
  (pure (Ok a) ≫= k) fs = k a fs.
Proof. reflexivity. Qed.

Lemma pure_Raise_bind {A B} (e : exn) (k : A -> io B) (fs : node) :
  (pure (Raise e) ≫= k) fs = (fs, Raise e).
Proof. reflexivity. Qed.

Lemma put_from_child_listing f1 f2 f3 n p es c new :
  resolve_from f1 n p = Ok (Dir es) ->
  exists n', put_from f2 n (p ++ [c]) new = Ok n' /\
             resolve_from f3 n' p = Ok (Dir (assoc_set c new es)).
Proof.
  revert n. induction p as [|c0 p IH]; intros n; simpl.
  - intros [= ->]. eauto.
  - destruct n as [?|es0]; [discriminate|].
    destruct (assoc c0 es0) as [n1|] eqn:Hc0; [|discriminate].
    intros Hres. destruct (IH _ Hres) as (n1' & Hput & Hres').
    destruct (p ++ [c]) as [|c' p'] eqn:Hp; [destruct p; discriminate|].
    rewrite Hput. cbn. eexists. split; [reflexivity|].
    simpl. rewrite assoc_set_eq. exact Hres'.
Qed.

Lemma resolve_missing fs p es nm :
  resolve fs p = Ok (Dir es) -> assoc nm es = None ->
  resolve fs (p ++ [nm]) = Raise (FileNotFoundError (p ++ [nm])).
Proof.
  intros Hres Hnone. unfold resolve. rewrite resolve_from_app.
  rewrite (resolve_from_full _ (p ++ [nm]) _ _ _ Hres). simpl.
  rewrite Hnone. reflexivity.
Qed.

(** Writing a file into a directory adds or replaces its entry. *)
Lemma write_file_listing fs p es nm c :
  resolve fs p = Ok (Dir es) ->
  not_a_directory nm es ->
  exists fs', write_file (p ++ [nm]) c fs = (fs', Ok tt) /\
              resolve fs' p = Ok (Dir (assoc_set nm (File c) es)).
Proof.
  intros Hres Hfree. unfold write_file.
  destruct (put_from_child_listing p (p ++ [nm]) p fs p es nm (File c) Hres)
    as (fs' & Hput & Hres').
  unfold put. rewrite Hput.
  assert (Hnot : forall es', resolve fs (p ++ [nm]) <> Ok (Dir es')).
  { intros es'. unfold resolve. rewrite resolve_from_app.
    rewrite (resolve_from_full _ (p ++ [nm]) _ _ _ Hres). simpl.
    destruct (assoc nm es) as [n|] eqn:Hn; [|discriminate].
    intros [= ->]. apply (Hfree es'). exact Hn. }
  destruct (resolve fs (p ++ [nm])) as [[?|es']|?]; eauto.
  destruct (Hnot es'). reflexivity.
Qed.

Lemma mkdir_visualizations fs example_dir ves :
  visualizations_before fs example_dir ves ->
  exists fs', mkdir_exist_ok (example_dir ++ ["visualizations"]) fs = (fs', Ok tt) /\
              resolve fs' (example_dir ++ ["visualizations"]) = Ok (Dir ves).
Proof.
  intros [Hthere | (-> & es & Hres & Hnone)].
  - exists fs. split; [|exact Hthere].
    apply (mkdir_exist_ok_existing _ _ _ Hthere).
  - unfold mkdir_exist_ok. rewrite (resolve_missing _ _ _ _ Hres Hnone).
    destruct (put_from_child example_dir (example_dir ++ ["visualizations"])
                fs example_dir es "visualizations" (Dir []) Hres) as [fs' Hput].
    unfold put. rewrite Hput. exists fs'. split; [reflexivity|].
    apply (resolve_put _ _ _ _ Hput).
Qed.

Lemma export_png_listing `{Visualizer} fs p es nm fig im :
  export_png_image fig = Ok im ->
  resolve fs p = Ok (Dir es) ->
  not_a_directory nm es ->
  exists fs', export_png fig (p ++ [nm]) fs = (fs', Ok tt) /\
              resolve fs' p = Ok (Dir (assoc_set nm (File (PngData im)) es)).
Proof.
  intros Him Hres Hfree. unfold export_png. rewrite Him, pure_Ok_bind.
  apply write_file_listing; assumption.
Qed.

Lemma not_a_directory_set nm nm' c ves :
  nm <> nm' -> not_a_directory nm' ves ->
  not_a_directory nm' (assoc_set nm (File c) ves).
Proof.
  intros Hne Hfree d. rewrite (assoc_set_ne _ _ _ _ Hne). apply Hfree.
Qed.

(** A renderer failure stops the compositor before anything is written. *)
Lemma render_failure_writes_nothing `{Visualizer} example_dir rgb camera_data
    object_datas object_dataset fs e :
  render_stage camera_data object_datas object_dataset = Raise e ->
  render_and_export example_dir rgb camera_data object_datas object_dataset fs
  = (fs, Raise e).
Proof.
  intros Hfail. unfold render_and_export. rewrite Hfail. apply pure_Raise_bind.
Qed.

(** C8 (as amended).  In the part of [output_visualization] that follows
    the loading of its inputs: if the scene cannot be rendered, the
    failure is raised and the file system is left as it was; if the scene
    is rendered and the figures are built and rasterised, the
    [visualizations] directory, created if absent, receives exactly three
    PNG files: [mesh_overlay.png], [contour_overlay.png] and the
    side-by-side grid [all_results.png], whose first cell is the input
    image.  The input image gets no file of its own. *)
Theorem render_and_export_files `{Visualizer}
    (example_dir : path) (rgb : ndarray Z) (camera_data : CameraData)
    (object_datas : list ObjectData) (object_dataset : RigidObjectDataset)
    (fs : node) :
  (forall e,
     render_stage camera_data object_datas object_dataset = Raise e ->
     render_and_export example_dir rgb camera_data object_datas object_dataset fs
     = (fs, Raise e)) /\
  (forall renderings_rgb fig_rgb fig_mesh_overlay contour_overlay
          fig_contour_overlay fig_all im_mesh im_contour im_all ves,
     render_stage camera_data object_datas object_dataset = Ok renderings_rgb ->
     plot_image rgb = Ok fig_rgb ->
     plot_overlay rgb renderings_rgb = Ok fig_mesh_overlay ->
     make_contour_overlay rgb renderings_rgb 1 (0, 255, 0)%Z = Ok contour_overlay ->
     plot_image contour_overlay = Ok fig_contour_overlay ->
     gridplot [[fig_rgb; fig_contour_overlay; fig_mesh_overlay]] = Ok fig_all ->
     export_png_image fig_mesh_overlay = Ok im_mesh ->
     export_png_image fig_contour_overlay = Ok im_contour ->
     export_png_image fig_all = Ok im_all ->
     visualizations_before fs example_dir ves ->
     not_a_directory "mesh_overlay.png" ves ->
     not_a_directory "contour_overlay.png" ves ->
     not_a_directory "all_results.png" ves ->
     exists fs',
       render_and_export example_dir rgb camera_data object_datas object_dataset fs
       = (fs', Ok tt) /\
       resolve fs' (example_dir ++ ["visualizations"])
       = Ok (Dir (assoc_set "all_results.png" (File (PngData im_all))
                 (assoc_set "contour_overlay.png" (File (PngData im_contour))
                 (assoc_set "mesh_overlay.png" (File (PngData im_mesh)) ves))))).
Proof.
  split; [intros e; apply render_failure_writes_nothing|].
  intros renderings_rgb fig_rgb fig_mesh_overlay contour_overlay
         fig_contour_overlay fig_all im_mesh im_contour im_all ves
         Hrender Hrgb Hmesh Hcontour Hfigc Hall Him Hic Hia Hbefore Hf1 Hf2 Hf3.
  unfold render_and_export. rewrite Hrender, pure_Ok_bind.
  unfold export_stage.
  rewrite Hrgb, pure_Ok_bind, Hmesh, pure_Ok_bind, Hcontour, pure_Ok_bind.
  rewrite Hfigc, pure_Ok_bind, Hall, pure_Ok_bind. cbn zeta.
  destruct (mkdir_visualizations _ _ _ Hbefore) as (fs0 & Hmk & Hres0).
  rewrite io_bind_unfold, Hmk.
  destruct (export_png_listing fs0 _ _ "mesh_overlay.png" _ _ Him Hres0 Hf1)
    as (fs1 & Hw1 & Hres1).
  rewrite io_bind_unfold, Hw1.
  destruct (export_png_listing fs1 _ _ "contour_overlay.png" _ _ Hic Hres1)
    as (fs2 & Hw2 & Hres2).
  { apply not_a_directory_set; [discriminate|exact Hf2]. }
  rewrite io_bind_unfold, Hw2.
  destruct (export_png_listing fs2 _ _ "all_results.png" _ _ Hia Hres2)
    as (fs3 & Hw3 & Hres3).
  { apply not_a_directory_set; [discriminate|].
    apply not_a_directory_set; [discriminate|exact Hf3]. }
  exists fs3. split; [exact Hw3|exact Hres3].
Qed.

(** The example inputs with the example catalog: three files are written
    into a new [visualizations] directory; with an empty catalog the
    renderer fails and nothing is written. *)
Lemma render_and_export_files_witness :
  (exists fs',
     @render_and_export simple_visualizer ["example"] example_image
        example_view example_pose example_catalog (example_fs 2 2)
     = (fs', Ok tt) /\
     listdir fs' ["example"; "visualizations"]
     = Ok ["mesh_overlay.png"; "contour_overlay.png"; "all_results.png"]) /\
  @render_and_export simple_visualizer ["example"] example_image
     example_view example_pose {| list_objects := [] |} (example_fs 2 2)
  = (example_fs 2 2, Raise (LibraryError "no mesh for a posed object")).
Proof.
  split.
  - destruct (@render_and_export_files simple_visualizer ["example"]
                example_image example_view example_pose example_catalog
                (example_fs 2 2)) as [_ Hok].
    destruct (Hok _ _ _ _ _ _ _ _ _ []
                eq_refl eq_refl eq_refl eq_refl eq_refl eq_refl
                eq_refl eq_refl eq_refl) as (fs' & Hrun & Hres).
    + right. split; [reflexivity|].
      exists (example_entries 2 2). split; reflexivity.
    + intros d. discriminate.
    + intros d. discriminate.
    + intros d. discriminate.
    + exists fs'. split; [exact Hrun|].
      unfold listdir. simpl app in Hres. rewrite Hres. reflexivity.
  - apply (@render_and_export_files simple_visualizer ["example"]
             example_image example_view example_pose {| list_objects := [] |}
             (example_fs 2 2)).
    reflexivity.
Defined.

(** C8 as stated does not hold.  On the example directory, which holds
    one persisted pose and the mesh of its object, [output_visualization]
    raises while building its catalog and writes nothing.  And even the
    rendering and export steps, run on the same inputs with the catalog of
    that mesh, write three PNG files, the grid included, not four. *)
Lemma output_visualization_counterexample :
  @output_visualization simple_camera_json exact_float_json simple_visualizer
     ["example"] (example_fs 2 2)
  = (example_fs 2 2,
     Raise (AssertionError
              "couldnt find a obj or ply mesh for ycbv_camera_data.json")) /\
  exists fs',
    @render_and_export simple_visualizer ["example"] example_image
       example_view example_pose example_catalog (example_fs 2 2)
    = (fs', Ok tt) /\
    listdir fs' ["example"; "visualizations"]
    = Ok ["mesh_overlay.png"; "contour_overlay.png"; "all_results.png"].
Proof.
  split; [vm_compute; reflexivity|].
  eexists. split; [vm_compute; reflexivity|]. vm_compute. reflexivity.
Qed.

Lemma resolve_from_snoc full n p c x :
  resolve_from full n (p ++ [c]) = Ok x ->
  exists es, resolve_from full n p = Ok (Dir es) /\ assoc c es = Some x.
Proof.
  rewrite resolve_from_app.
  destruct (resolve_from full n p) as [[?|es]|?]; simpl; try discriminate.
  destruct (assoc c es) as [n'|] eqn:Hc; [|discriminate].
  intros [= <-]. eauto.
Qed.

Lemma assoc_Some_In {A} (k : string) (l : list (string * A)) (v : A) :
  assoc k l = Some v -> In k (map fst l).
Proof.
  induction l as [|[k' v'] l IH]; simpl; [discriminate|].
  destruct (String.eqb k k') eqn:E; [|auto].
  apply String.eqb_eq in E. auto.
Qed.

Lemma load_observation_Ok_rgb `{CameraJson} fs example_dir load_depth obs :
  load_observation fs example_dir load_depth = Ok obs ->
  exists c, resolve fs (example_dir ++ ["image_rgb.png"]) = Ok (File c).
Proof.
  unfold load_observation.
  destruct (load_camera_data _ _); cbn; [|discriminate].
  unfold Image_open.
  destruct (resolve fs (example_dir ++ ["image_rgb.png"])) as [[c|?]|?];
    cbn; try discriminate.
  eauto.
Qed.

(** A directory that holds a regular file is refused as a model directory. *)
Lemma make_object_dataset_plain_file fs cad_model_dir nm c :
  resolve fs (cad_model_dir ++ [nm]) = Ok (File c) ->
  is_ok (make_object_dataset fs cad_model_dir) = false.
Proof.
  intros Hfile. pose proof Hfile as Hf.
  apply resolve_from_snoc in Hf as (es & Hres & Hnm).
  apply (resolve_from_full _ cad_model_dir) in Hres.
  unfold make_object_dataset. rewrite (iterdir_Dir _ _ _ Hres). cbn.
  assert (Hfail : is_ok (mapM (object_of_dir fs "m")
                           (map (fun e => cad_model_dir ++ [fst e]) es)) = false).
  { apply (mapM_fails _ _ (cad_model_dir ++ [nm])).
    - apply assoc_Some_In in Hnm. apply in_map_iff in Hnm as (e & <- & He).
      apply in_map_iff. exists e. auto.
    - rewrite object_of_dir_cases. unfold mesh_candidates, glob_star.
      rewrite Hfile. reflexivity. }
  destruct (mapM _ _); [discriminate|reflexivity].
Qed.

(** X1.  [output_visualization] passes the example directory itself to
    [make_object_dataset]; that directory holds [image_rgb.png], so the
    catalog is never built: every run raises and leaves the file system
    as it was. *)
Theorem output_visualization_never_exports
    `{CameraJson} `{FloatJson} `{Visualizer} (example_dir : path) (fs : node) :
  exists e, output_visualization example_dir fs = (fs, Raise e).
Proof.
  unfold output_visualization. rewrite io_bind_unfold. unfold reading at 1.
  destruct (load_observation fs example_dir false) as [obs|e] eqn:Hobs;
    [|eauto].
  cbn zeta. rewrite io_bind_unfold. unfold reading at 1.
  destruct (load_object_data fs _) as [ods|e]; [|eauto].
  rewrite io_bind_unfold. unfold reading at 1.
  destruct (load_observation_Ok_rgb _ _ _ _ Hobs) as [c Hc].
  pose proof (make_object_dataset_plain_file _ _ _ _ Hc) as Hfail.
  destruct (make_object_dataset fs example_dir) as [?|e]; [discriminate|eauto].
Qed.

(** The generic example is built with its two labels; the example
    directory of the observation builder is refused. *)
Lemma make_object_dataset_one_mesh_each_witness :
  (exists msg,
     make_object_dataset (example_fs 2 2) ["example"] = Raise (AssertionError msg)) /\
  (exists ds,
     make_object_dataset example_models ["meshes"] = Ok ds /\
     map ro_label (list_objects ds) = ["drill"; "mug"] /\
     Forall (fun o => is_ok (resolve example_models (mesh_path o)) = true)
            (list_objects ds)).
Proof.
  split.
  - apply (make_object_dataset_one_mesh_each (example_fs 2 2) ["example"]
             (example_entries 2 2) eq_refl).
    exists "image_rgb.png". split; [right; left; reflexivity|].
    vm_compute. discriminate.
  - destruct (make_object_dataset_one_mesh_each example_models ["meshes"] _ eq_refl)
      as [_ Hok].
    destruct Hok as (ds & Hds & Hlabels & _ & _ & Hall).
    + apply (bool_decide_unpack _). vm_compute. exact I.
    + intros nm [<-|[<-|[]]]; vm_compute; reflexivity.
    + exists ds. split; [exact Hds|]. split; [exact Hlabels|].
      eapply Forall_impl; [exact Hall|]. cbn. intros o [_ Ho]. exact Ho.
Defined.

(** * Further properties of the facade *)

(** ** Observation builder *)

(** Everything a returned observation says about the files it came from. *)
Lemma load_observation_Ok_inv `{CameraJson} fs example_dir load_depth rgb depth cam :
  load_observation fs example_dir load_depth = Ok (rgb, depth, cam) ->
  exists im,
    load_camera_data fs (example_dir ++ ["ycbv_camera_data.json"]) = Ok cam /\
    Image_open fs (example_dir ++ ["image_rgb.png"]) = Ok im /\
    rgb = np_array_uint8 im /\
    Some (image_resolution im) = resolution cam /\
    if load_depth
    then exists dim,
           Image_open fs (example_dir ++ ["image_depth.png"]) = Ok dim /\
           Some (image_resolution dim) = resolution cam /\
           depth = Some (np_div (np_array_float32 dim) (10000 # 1))
    else depth = None.
Proof.
  intros Hobs.
  destruct (load_camera_data fs (example_dir ++ ["ycbv_camera_data.json"]))
    as [cam0|e] eqn:Hcam;
    [|unfold load_observation in Hobs; rewrite Hcam in Hobs; discriminate].
  destruct (Image_open fs (example_dir ++ ["image_rgb.png"])) as [im|e] eqn:Him;
    [|unfold load_observation in Hobs; rewrite Hcam in Hobs; cbn in Hobs;
      rewrite Him in Hobs; discriminate].
  rewrite (load_observation_unfold _ _ _ _ _ Hcam Him) in Hobs.
  case_bool_decide as Hres; [|discriminate]. exists im.
  destruct load_depth.
  - destruct (Image_open fs (example_dir ++ ["image_depth.png"])) as [dim|e] eqn:Hdim;
      [|discriminate]. cbn in Hobs.
    case_bool_decide as Hdres; [|discriminate]. injection Hobs as <- <- <-.
    repeat split; try assumption; try reflexivity. exists dim. auto.
  - injection Hobs as <- <- <-. repeat split; try assumption; reflexivity.
Qed.

Lemma uint8_range (im : pil_image) :
  Forall (fun v => (0 <= v < 256)%Z) (data (np_array_uint8 im)).
Proof.
  unfold np_array_uint8. cbn [data]. apply Forall_map, Forall_forall.
  intros v _. cbn. apply Z.mod_pos_bound. lia.
Qed.

(** X2.  Every observation [load_observation] returns is consistent: the
    first two dimensions of the RGB array are the camera's resolution, the
    RGB values are bytes, and the depth channel is present exactly when it
    was requested, then with the camera's resolution too. *)
Theorem load_observation_Ok_consistent `{CameraJson}
    (fs : node) (example_dir : path) (load_depth : bool)
    (rgb : ndarray Z) (depth : option (ndarray Q)) (cam : CameraData) :
  load_observation fs example_dir load_depth = Ok (rgb, depth, cam) ->
  resolution cam = Some (take 2 (shape rgb)) /\
  Forall (fun v => (0 <= v < 256)%Z) (data rgb) /\
  (load_depth = false -> depth = None) /\
  (load_depth = true ->
   exists d, depth = Some d /\ resolution cam = Some (take 2 (shape d))).
Proof.
  intros Hobs.
  destruct (load_observation_Ok_inv _ _ _ _ _ _ Hobs)
    as (im & _ & _ & -> & Hres & Hdepth).
  split; [symmetry; exact Hres|]. split; [apply uint8_range|].
  split; intros ->; [exact Hdepth|].
  destruct Hdepth as (dim & _ & Hdres & ->). eexists. split; [reflexivity|].
  symmetry. exact Hdres.
Qed.

Lemma load_observation_Ok_consistent_witness :
  resolution example_camera = Some [2; 2] /\
  exists d,
    Some {| shape := [2; 2];
            data := [0 # 10000; 5000 # 10000; 10000 # 10000; 20000 # 10000]%Q |}
    = Some d /\
    resolution example_camera = Some (take 2 (shape d)).
Proof.
  destruct (@load_observation_Ok_consistent simple_camera_json
              (example_fs 2 2) ["example"] true _ _ example_camera eq_refl)
    as (Hres & _ & _ & Hdepth).
  split; [exact Hres|]. exact (Hdepth eq_refl).
Defined.

(** X3.  The depth image matters only when it is requested: a directory
    that loads with depth also loads without it, with the same RGB array
    and camera. *)
Theorem load_observation_without_depth `{CameraJson}
    (fs : node) (example_dir : path)
    (rgb : ndarray Z) (depth : option (ndarray Q)) (cam : CameraData) :
  load_observation fs example_dir true = Ok (rgb, depth, cam) ->
  load_observation fs example_dir false = Ok (rgb, None, cam).
Proof.
  intros Hobs.
  destruct (load_observation_Ok_inv _ _ _ _ _ _ Hobs)
    as (im & Hcam & Him & -> & Hres & _).
  rewrite (load_observation_unfold _ _ _ _ _ Hcam Him).
  rewrite bool_decide_true by exact Hres. reflexivity.
Qed.

Lemma load_observation_without_depth_witness :
  @load_observation simple_camera_json (example_fs 2 2) ["example"] false
  = Ok (example_image, None, example_camera).
Proof.
  exact (@load_observation_without_depth simple_camera_json
           (example_fs 2 2) ["example"] _ _ _ eq_refl).
Defined.

(** ** From the observation builder to the estimator *)

(** X4.  An observation loaded without depth cannot be given to
    [inference]: whatever the facade's camera, the call raises before any
    call to the estimator. *)
Theorem inference_after_load_without_depth `{CameraJson} `{PoseEstimator}
    (fs : node) (example_dir : path)
    (rgb : ndarray Z) (depth : option (ndarray Q)) (cam facade_cam : CameraData)
    (lbl : string) (bbox : list Q) :
  load_observation fs example_dir false = Ok (rgb, depth, cam) ->
  exists e, inference facade_cam rgb depth lbl bbox = ([], Raise e).
Proof.
  intros Hobs.
  destruct (load_observation_Ok_inv _ _ _ _ _ _ Hobs)
    as (im & _ & _ & _ & _ & ->).
  rewrite inference_depth_None_raises. eauto.
Qed.

Lemma inference_after_load_without_depth_witness :
  exists e,
    @inference simple_estimator example_camera example_image None
       "obj_000001" example_bbox = ([], Raise e).
Proof.
  exact (@inference_after_load_without_depth simple_camera_json simple_estimator
           (example_fs 2 2) ["example"] _ _ _ example_camera
           "obj_000001" example_bbox eq_refl).
Defined.

(** X5.  An observation loaded with depth passes the checks of
    [inference] exactly when the facade's camera has the resolution of the
    example's camera file: then the first call builds the observation from
    the loaded arrays; otherwise the call raises the assertion failure
    with no call to the estimator. *)
Theorem inference_after_load_with_depth `{CameraJson} `{PoseEstimator}
    (fs : node) (example_dir : path)
    (rgb : ndarray Z) (depth : option (ndarray Q)) (cam facade_cam : CameraData)
    (lbl : string) (bbox : list Q) :
  load_observation fs example_dir true = Ok (rgb, depth, cam) ->
  (resolution facade_cam = resolution cam ->
   exists rest,
     fst (inference facade_cam rgb depth lbl bbox)
     = CallFromNumpy rgb depth (K facade_cam) :: rest) /\
  (resolution facade_cam <> resolution cam ->
   inference facade_cam rgb depth lbl bbox = ([], Raise (AssertionError ""))).
Proof.
  intros Hobs.
  destruct (load_observation_Ok_inv _ _ _ _ _ _ Hobs)
    as (im & _ & _ & -> & Hres & dim & _ & Hdres & ->).
  split.
  - intros Heq.
    assert (Hrgb : resolution_matches (np_array_uint8 im) facade_cam = true).
    { rewrite resolution_matches_uint8. apply bool_decide_eq_true. congruence. }
    assert (Hd : resolution_matches
                   (np_div (np_array_float32 dim) (10000 # 1)) facade_cam = true).
    { rewrite resolution_matches_depth. apply bool_decide_eq_true. congruence. }
    rewrite (inference_unfold _ _ _ _ _ Hrgb Hd). cbn zeta.
    destruct (ObservationTensor_from_numpy _ _ _);
      [destruct (make_detections_from_object_data _)|]; cbn; eauto.
  - intros Hne. unfold inference.
    assert (Hrgb : resolution_matches (np_array_uint8 im) facade_cam = false).
    { rewrite resolution_matches_uint8. apply bool_decide_eq_false. congruence. }
    rewrite Hrgb. reflexivity.
Qed.

Lemma inference_after_load_with_depth_witness :
  (exists rest,
     fst (@inference simple_estimator example_camera example_image
            (Some {| shape := [2; 2];
                     data := [0 # 10000; 5000 # 10000; 10000 # 10000;
                              20000 # 10000]%Q |})
            "obj_000001" example_bbox)
     = CallFromNumpy example_image
         (Some {| shape := [2; 2];
                  data := [0 # 10000; 5000 # 10000; 10000 # 10000;
                           20000 # 10000]%Q |})
         (K example_camera) :: rest).
Proof.
  exact (proj1 (@inference_after_load_with_depth simple_camera_json
                  simple_estimator (example_fs 2 2) ["example"] _ _ _
                  example_camera "obj_000001" example_bbox eq_refl) eq_refl).
Defined.

(** X6.  The calls [inference] makes to the estimator are always an
    initial part of: build the observation, build the detections, run the
    pipeline; and a call that returns has made all three, so the pipeline
    runs at most once and never before the other two. *)
Theorem inference_call_order `{PoseEstimator}
    (cam : CameraData) (rgb : ndarray Z) (depth : option (ndarray Q))
    (lbl : string) (bbox : list Q) :
  let all_calls :=
    [CallFromNumpy rgb depth (K cam);
     CallMakeDetections (single_detection lbl bbox);
     CallRunInferencePipeline] in
  (exists n, fst (inference cam rgb depth lbl bbox) = take n all_calls) /\
  (is_ok (snd (inference cam rgb depth lbl bbox)) = true ->
   fst (inference cam rgb depth lbl bbox) = all_calls).
Proof.
  intros all_calls. destruct depth as [d|].
  - destruct (resolution_matches rgb cam) eqn:Hrgb.
    + destruct (resolution_matches d cam) eqn:Hd.
      * rewrite (inference_unfold _ _ _ _ _ Hrgb Hd). cbn zeta.
        fold (single_detection lbl bbox).
        destruct (ObservationTensor_from_numpy _ _ _);
          [destruct (make_detections_from_object_data _)|]; cbn.
        -- split; [exists 3; reflexivity|reflexivity].
        -- split; [exists 2; reflexivity|discriminate].
        -- split; [exists 1; reflexivity|discriminate].
      * unfold inference. rewrite Hrgb. cbn. rewrite Hd. cbn.
        split; [exists 0; reflexivity|discriminate].
    + unfold inference. rewrite Hrgb. cbn.
      split; [exists 0; reflexivity|discriminate].
  - rewrite inference_depth_None_raises. cbn.
    split; [exists 0; reflexivity|destruct (resolution_matches rgb cam); discriminate].
Qed.

Lemma inference_call_order_witness :
  fst (@inference simple_estimator example_camera example_rgb
         (Some example_depth) "obj_000001" example_bbox)
  = [CallFromNumpy example_rgb (Some example_depth) (K example_camera);
     CallMakeDetections (single_detection "obj_000001" example_bbox);
     CallRunInferencePipeline].
Proof.
  exact (proj2 (@inference_call_order simple_estimator example_camera
                  example_rgb (Some example_depth) "obj_000001" example_bbox)
           eq_refl).
Defined.

(** ** Pose persistence *)

Lemma save_predictions_unfold `{FloatJson} example_dir pe fs :
  save_predictions example_dir pe fs =
  match mkdir_exist_ok example_dir fs with
  | (fs1, Ok _) =>
      write_file (example_dir ++ ["object_data.json"])
        (JsonText (JArr (saved_items pe))) fs1
  | (fs1, Raise e) => (fs1, Raise e)
  end.
Proof.
  unfold save_predictions. cbn zeta. rewrite io_bind_unfold, parent_child.
  unfold saved_items. rewrite map_map. reflexivity.
Qed.

(** X7.  [save_predictions] pairs labels and poses with [zip]: the file
    it writes is a JSON array with as many records as the shorter of the
    two; labels or poses beyond that are dropped without an error. *)
Theorem save_predictions_truncates `{FloatJson}
    (example_dir : path) (pe : PoseEstimatesType) (fs fs' : node) :
  save_predictions example_dir pe fs = (fs', Ok tt) ->
  read_text fs' (example_dir ++ ["object_data.json"])
  = Ok (JsonText (JArr (saved_items pe))) /\
  length (saved_items pe) = Nat.min (length (infos_label pe)) (length (poses pe)).
Proof.
  intros Hsave. rewrite save_predictions_unfold in Hsave.
  destruct (mkdir_exist_ok example_dir fs) as [fs1 [[]|e]]; [|discriminate].
  split; [apply (write_file_Ok _ _ _ _ Hsave)|].
  unfold saved_items. rewrite length_map. apply length_zip_with.
Qed.

Lemma save_predictions_truncates_witness :
  exists fs',
    @save_predictions exact_float_json ["example"]
       {| infos_label := ["obj_000001"; "obj_000002"; "obj_000003"];
          poses := [eye4] |} (example_fs 2 2) = (fs', Ok tt) /\
    length (@saved_items exact_float_json
              {| infos_label := ["obj_000001"; "obj_000002"; "obj_000003"];
                 poses := [eye4] |}) = 1.
Proof.
  eexists. split; [vm_compute; reflexivity|].
  exact (proj2 (@save_predictions_truncates exact_float_json ["example"]
                  {| infos_label := ["obj_000001"; "obj_000002"; "obj_000003"];
                     poses := [eye4] |}
                  (example_fs 2 2) _ eq_refl)).
Defined.

(** Binding a node at [p] is invisible from the paths parted from [p]. *)
Lemma resolve_put_from_parted f1 f2 n p new n' q :
  put_from f1 n p new = Ok n' ->
  parted p q ->
  resolve_from f2 n' q = resolve_from f2 n q.
Proof.
  intros Hput (common & a & b & p' & q' & -> & -> & Hne).
  revert n n' Hput. induction common as [|c common IH]; intros n n' Hput.
  - cbn [app] in *. cbn [put_from] in Hput.
    destruct n as [?|es]; [discriminate|].
    assert (Hn' : exists x, n' = Dir (assoc_set a x es)).
    { destruct p' as [|c' p'']; [injection Hput as <-; eauto|].
      destruct (assoc a es) as [n1|]; [|discriminate].
      destruct (put_from f1 n1 (c' :: p'') new); cbn in Hput; [|discriminate].
      injection Hput as <-. eauto. }
    destruct Hn' as [x ->]. cbn [resolve_from].
    rewrite (assoc_set_ne _ _ _ _ Hne). reflexivity.
  - cbn [app] in *. cbn [put_from] in Hput.
    destruct n as [?|es]; [discriminate|].
    destruct (common ++ a :: p') as [|c' rest] eqn:Hrest;
      [destruct common; discriminate|].
    destruct (assoc c es) as [n1|] eqn:Hc; [|discriminate].
    destruct (put_from f1 n1 (c' :: rest) new) as [n1'|] eqn:Hput1;
      cbn in Hput; [|discriminate].
    injection Hput as <-. cbn [resolve_from].
    rewrite assoc_set_eq, Hc. apply (IH _ _ Hput1).
Qed.

(** X8.  [save_predictions] touches nothing but its own file: when the
    example directory exists, whatever the outcome of the call, every path
    parted from [example_dir/object_data.json] resolves afterwards as it
    did before. *)
Theorem save_predictions_frame `{FloatJson}
    (example_dir : path) (pe : PoseEstimatesType) (fs : node)
    (es : list (string * node)) (q : path) :
  resolve fs example_dir = Ok (Dir es) ->
  parted (example_dir ++ ["object_data.json"]) q ->
  resolve (fst (save_predictions example_dir pe fs)) q = resolve fs q.
Proof.
  intros Hres Hparted. rewrite save_predictions_unfold.
  rewrite (mkdir_exist_ok_existing _ _ _ Hres). unfold write_file.
  destruct (resolve fs (example_dir ++ ["object_data.json"])) as [[?|?]|?];
    try reflexivity;
    (destruct (put fs (example_dir ++ ["object_data.json"]) _) as [fs'|e'] eqn:Hput;
     [|reflexivity]; cbn [fst]; apply (resolve_put_from_parted _ _ _ _ _ _ _ Hput Hparted)).
Qed.

Lemma save_predictions_frame_witness :
  resolve (fst (@save_predictions exact_float_json ["example"] example_estimates
                  (example_fs 2 2)))
    ["example"; "outputs"; "object_data.json"]
  = resolve (example_fs 2 2) ["example"; "outputs"; "object_data.json"].
Proof.
  apply (@save_predictions_frame exact_float_json ["example"] example_estimates
           (example_fs 2 2) (example_entries 2 2)).
  - reflexivity.
  - exists ["example"], "object_data.json", "outputs", [], ["object_data.json"].
    split; [reflexivity|]. split; [reflexivity|]. discriminate.
Defined.

Lemma resolve_from_missing_parent full n gp es a rest :
  resolve_from full n gp = Ok (Dir es) -> assoc a es = None ->
  resolve_from full n (gp ++ a :: rest) = Raise (FileNotFoundError full).
Proof.
  intros Hgp Hnone. rewrite resolve_from_app, Hgp. simpl. rewrite Hnone.
  reflexivity.
Qed.

Lemma put_from_missing_parent f1 full n gp es a b rest new :
  resolve_from f1 n gp = Ok (Dir es) -> assoc a es = None ->
  put_from full n (gp ++ a :: b :: rest) new = Raise (FileNotFoundError full).
Proof.
  revert n. induction gp as [|c gp IH]; intros n; simpl.
  - intros [= ->] Hnone. rewrite Hnone. reflexivity.
  - destruct n as [?|es0]; [discriminate|].
    destruct (assoc c es0) as [n1|]; [|discriminate].
    intros Hres Hnone.
    destruct (gp ++ a :: b :: rest) as [|c' p'] eqn:Hp; [destruct gp; discriminate|].
    rewrite (IH _ Hres Hnone). reflexivity.
Qed.

(** X9.  [save_predictions] creates the example directory but not its
    parents: when the directory above [example_dir] is missing, the call
    raises FileNotFoundError and the file system is left as it was. *)
Theorem save_predictions_no_parents `{FloatJson}
    (gp : path) (a b : string) (pe : PoseEstimatesType) (fs : node)
    (es : list (string * node)) :
  resolve fs gp = Ok (Dir es) ->
  assoc a es = None ->
  save_predictions (gp ++ [a; b]) pe fs
  = (fs, Raise (FileNotFoundError (gp ++ [a; b]))).
Proof.
  intros Hres Hnone. rewrite save_predictions_unfold. unfold mkdir_exist_ok.
  unfold resolve, put.
  rewrite (resolve_from_missing_parent _ _ _ _ a [b]
             (resolve_from_full _ _ _ _ _ Hres) Hnone).
  rewrite (put_from_missing_parent _ _ _ _ _ a b [] _ Hres Hnone). reflexivity.
Qed.

Lemma save_predictions_no_parents_witness :
  @save_predictions exact_float_json ["runs"; "today"] example_estimates
     (example_fs 2 2)
  = (example_fs 2 2, Raise (FileNotFoundError ["runs"; "today"])).
Proof.
  exact (@save_predictions_no_parents exact_float_json [] "runs" "today"
           example_estimates (example_fs 2 2) _ eq_refl eq_refl).
Defined.

Lemma mkdir_absent fs p es nm :
  resolve fs p = Ok (Dir es) -> assoc nm es = None ->
  exists fs', mkdir_exist_ok (p ++ [nm]) fs = (fs', Ok tt) /\
              resolve fs' (p ++ [nm]) = Ok (Dir []) /\
              resolve fs' p = Ok (Dir (assoc_set nm (Dir []) es)).
Proof.
  intros Hres Hnone. unfold mkdir_exist_ok.
  rewrite (resolve_missing _ _ _ _ Hres Hnone).
  destruct (put_from_child_listing p (p ++ [nm]) p fs p es nm (Dir []) Hres)
    as (fs' & Hput & Hlist).
  unfold put. rewrite Hput. exists fs'. split; [reflexivity|].
  split; [apply (resolve_put _ _ _ _ Hput)|exact Hlist].
Qed.

(** X10.  When the example directory is absent but the directory above
    it exists, [save_predictions] creates it, and afterwards it holds the
    one file [object_data.json]. *)
Theorem save_predictions_creates_directory `{FloatJson}
    (p : path) (nm : string) (pe : PoseEstimatesType) (fs : node)
    (es : list (string * node)) :
  resolve fs p = Ok (Dir es) ->
  assoc nm es = None ->
  exists fs',
    save_predictions (p ++ [nm]) pe fs = (fs', Ok tt) /\
    resolve fs' (p ++ [nm])
    = Ok (Dir [("object_data.json", File (JsonText (JArr (saved_items pe))))]).
Proof.
  intros Hres Hnone. rewrite save_predictions_unfold.
  destruct (mkdir_absent _ _ _ _ Hres Hnone) as (fs1 & -> & Hnew & _).
  destruct (write_file_listing fs1 (p ++ [nm]) [] "object_data.json"
              (JsonText (JArr (saved_items pe))) Hnew) as (fs' & Hw & Hlist).
  { intros d. discriminate. }
  exists fs'. split; [exact Hw|exact Hlist].
Qed.

Lemma save_predictions_creates_directory_witness :
  exists fs',
    @save_predictions exact_float_json ["example"; "run_1"] example_estimates
       (example_fs 2 2) = (fs', Ok tt) /\
    listdir fs' ["example"; "run_1"] = Ok ["object_data.json"].
Proof.
  destruct (@save_predictions_creates_directory exact_float_json ["example"]
              "run_1" example_estimates (example_fs 2 2) _ eq_refl eq_refl)
    as (fs' & Hsave & Hlist).
  exists fs'. split; [exact Hsave|].
  unfold listdir. simpl app in Hlist. rewrite Hlist. reflexivity.
Defined.

Lemma write_file_parted p c fs q :
  parted p q -> resolve (fst (write_file p c fs)) q = resolve fs q.
Proof.
  intros Hparted. unfold write_file.
  destruct (resolve fs p) as [[?|?]|?]; try reflexivity;
    (destruct (put fs p (File c)) as [fs'|e'] eqn:Hput; [|reflexivity];
     cbn [fst]; apply (resolve_put_from_parted _ _ _ _ _ _ _ Hput Hparted)).
Qed.

(** X11.  [output_visualization] reads the poses from
    [example_dir/outputs/object_data.json], whereas [save_predictions]
    writes [example_dir/object_data.json].  In an example directory
    without [outputs], poses saved with that directory as argument are
    therefore not found on the path the compositor reads; saved with
    [example_dir/outputs] as argument, the directory is created and the
    poses are read back from that path. *)
Theorem saved_poses_read_path `{FloatJson}
    (example_dir : path) (pe : PoseEstimatesType) (fs : node)
    (es : list (string * node)) :
  resolve fs example_dir = Ok (Dir es) ->
  assoc "outputs" es = None ->
  Forall (fun m => is_4x4 m = true) (poses pe) ->
  (forall fs',
     save_predictions example_dir pe fs = (fs', Ok tt) ->
     load_object_data fs' (example_dir ++ ["outputs"; "object_data.json"])
     = Raise (FileNotFoundError (example_dir ++ ["outputs"; "object_data.json"]))) /\
  (exists fs',
     save_predictions (example_dir ++ ["outputs"]) pe fs = (fs', Ok tt) /\
     load_object_data fs' (example_dir ++ ["outputs"; "object_data.json"])
     = Ok (map reloaded_record (zip (infos_label pe) (poses pe)))).
Proof.
  intros Hres Hnone H4. split.
  - intros fs' Hsave.
    assert (Hfs' : resolve fs' (example_dir ++ ["outputs"; "object_data.json"])
                   = resolve fs (example_dir ++ ["outputs"; "object_data.json"])).
    { rewrite save_predictions_unfold in Hsave.
      rewrite (mkdir_exist_ok_existing _ _ _ Hres) in Hsave.
      change fs' with (fst (fs', @Ok unit tt)). rewrite <- Hsave.
      apply write_file_parted.
      exists example_dir, "object_data.json", "outputs", [], ["object_data.json"].
      split; [reflexivity|]. split; [reflexivity|]. discriminate. }
    unfold load_object_data, read_text. rewrite Hfs'. unfold resolve.
    rewrite (resolve_from_missing_parent _ _ _ _ "outputs" ["object_data.json"]
               (resolve_from_full _ _ _ _ _ Hres) Hnone).
    reflexivity.
  - assert (Hsaved : exists fs',
              save_predictions (example_dir ++ ["outputs"]) pe fs = (fs', Ok tt)).
    { rewrite save_predictions_unfold.
      destruct (mkdir_absent _ _ _ _ Hres Hnone) as (fs1 & -> & Hnew & _).
      destruct (write_file_listing fs1 (example_dir ++ ["outputs"]) []
                  "object_data.json" (JsonText (JArr (saved_items pe))) Hnew)
        as (fs' & Hw & _); [intros d; discriminate|].
      exists fs'. exact Hw. }
    destruct Hsaved as [fs' Hsave].
    exists fs'. split; [exact Hsave|].
    pose proof (load_after_save _ _ _ _ H4 Hsave) as Hload.
    rewrite <- app_assoc in Hload. exact Hload.
Qed.

Lemma saved_poses_read_path_witness :
  exists fs',
    @save_predictions exact_float_json ["fresh"; "outputs"] example_estimates
       (Dir [("fresh", Dir [])]) = (fs', Ok tt) /\
    @load_object_data exact_float_json fs' ["fresh"; "outputs"; "object_data.json"]
    = Ok (map (@reloaded_record exact_float_json)
              (zip (infos_label example_estimates) (poses example_estimates))).
Proof.
  exact (proj2 (@saved_poses_read_path exact_float_json ["fresh"]
                  example_estimates (Dir [("fresh", Dir [])]) [] eq_refl eq_refl
                  (proj2 example_estimates_well_formed))).
Defined.

(** ** Render cache loader *)

(** X12.  A sub-folder of the render cache with fewer than two PNG files
    is fatal: no pair is loaded, [torch.stack] refuses the empty list with
    RuntimeError, and [load_renders] raises. *)
Theorem load_renders_too_few_files (fs : node) (renders_path : path)
    (es : list (string * node)) (sub : string) :
  resolve fs renders_path = Ok (Dir es) ->
  In sub (map fst es) ->
  isdir fs (renders_path ++ [sub]) = true ->
  length (rglob fs (renders_path ++ [sub]) ".png") < 2 ->
  load_folder fs (renders_path ++ [sub])
  = Raise (RuntimeError "stack expects a non-empty TensorList") /\
  exists e, load_renders fs renders_path = Raise e.
Proof.
  intros Hres Hin Hdir Hfew.
  assert (Hfolder : load_folder fs (renders_path ++ [sub])
                    = Raise (RuntimeError "stack expects a non-empty TensorList")).
  { unfold load_folder, num_files. rewrite sorted_length.
    rewrite (Nat.div_small _ 2 Hfew). reflexivity. }
  split; [exact Hfolder|].
  apply not_ok_raise. unfold load_renders. rewrite (listdir_Dir _ _ _ Hres). cbn.
  apply (load_renders_loop_fails _ _ _ _ sub Hin Hdir).
  rewrite Hfolder. reflexivity.
Qed.

Lemma load_renders_too_few_files_witness :
  exists e,
    load_renders (Dir [("renders", Dir [("obj_000001", Dir [])])]) ["renders"]
    = Raise e.
Proof.
  eapply (load_renders_too_few_files _ ["renders"] _ "obj_000001").
  - reflexivity.
  - left. reflexivity.
  - reflexivity.
  - vm_compute. lia.
Defined.

(** X13.  A render-cache root without sub-directories, an empty one
    included, gives the empty cache; nothing is opened. *)
Theorem load_renders_no_directories (fs : node) (renders_path : path)
    (es : list (string * node)) :
  resolve fs renders_path = Ok (Dir es) ->
  (forall sub, In sub (map fst es) -> isdir fs (renders_path ++ [sub]) = false) ->
  load_renders fs renders_path = Ok ∅.
Proof.
  intros Hres Hfiles. unfold load_renders. rewrite (listdir_Dir _ _ _ Hres). cbn.
  destruct (load_renders_loop_Ok fs renders_path (map fst es) ∅) as (m & -> & Hspec).
  { intros sub Hin Hdir. rewrite (Hfiles sub Hin) in Hdir. discriminate. }
  f_equal. apply map_eq. intros sub.
  apply (proj2 (Hspec sub)). apply Hfiles.
Qed.

Lemma load_renders_no_directories_witness :
  load_renders example_models ["meshes"; "drill"] = Ok ∅.
Proof.
  apply (load_renders_no_directories example_models ["meshes"; "drill"] _ eq_refl).
  intros sub [<-|[<-|[]]]; reflexivity.
Defined.

(** X14.  When the appearance and the normal image of an indexed pair
    open but differ in height or width, [torch.cat] refuses them with
    RuntimeError and [load_renders] raises. *)
Theorem load_renders_size_mismatch (fs : node) (renders_path : path)
    (es : list (string * node)) (sub : string) (i : nat)
    (rgb normal : pil_image) :
  resolve fs renders_path = Ok (Dir es) ->
  In sub (map fst es) ->
  isdir fs (renders_path ++ [sub]) = true ->
  i < num_files fs (renders_path ++ [sub]) ->
  Image_open fs ((renders_path ++ [sub]) ++ [rgb_name i]) = Ok rgb ->
  Image_open fs ((renders_path ++ [sub]) ++ [normal_name i]) = Ok normal ->
  [im_height rgb; im_width rgb] <> [im_height normal; im_width normal] ->
  load_pair fs (renders_path ++ [sub]) i
  = Raise (RuntimeError "Sizes of tensors must match except in dimension 0") /\
  exists e, load_renders fs renders_path = Raise e.
Proof.
  intros Hres Hin Hdir Hi Hrgb Hnormal Hsize.
  assert (Hpair : load_pair fs (renders_path ++ [sub]) i
                  = Raise (RuntimeError
                             "Sizes of tensors must match except in dimension 0")).
  { unfold load_pair. fold (rgb_name i). fold (normal_name i). cbn zeta.
    rewrite Hrgb. cbn [mbind result_bind rbind].
    rewrite Hnormal. cbn [mbind result_bind rbind].
    unfold torch_cat. rewrite !ToTensor_shape.
    rewrite bool_decide_false by exact Hsize. reflexivity. }
  split; [exact Hpair|].
  apply not_ok_raise. unfold load_renders. rewrite (listdir_Dir _ _ _ Hres). cbn.
  apply (load_renders_loop_fails _ _ _ _ sub Hin Hdir).
  apply (load_folder_fails _ _ i Hi). rewrite Hpair. reflexivity.
Qed.

Lemma load_renders_size_mismatch_witness :
  exists e,
    load_renders
      (Dir [("renders",
             Dir [("obj_000001",
                   Dir [("normal_000.png",
                         File (PngData (grey2x2 mode_L 0 1 2 3)));
                        ("rgb_000.png",
                         File (PngData (pixel mode_L [7]%Z)))])])])
      ["renders"] = Raise e.
Proof.
  eapply (load_renders_size_mismatch _ ["renders"] _ "obj_000001" 0).
  - reflexivity.
  - left. reflexivity.
  - reflexivity.
  - vm_compute. lia.
  - vm_compute. reflexivity.
  - vm_compute. reflexivity.
  - vm_compute. discriminate.
Defined.

Lemma uint_of_string_zero s d :
  NilZero.uint_of_string s = Some d ->
  NilZero.uint_of_string (String "0" s) = Some (Decimal.D0 d).
Proof.
  unfold NilZero.uint_of_string. destruct s as [|a s]; [discriminate|].
  intros Hs. cbn [NilEmpty.uint_of_string] in *. rewrite Hs. reflexivity.
Qed.

Lemma index_of_padded_zero s :
  is_Some (index_of_padded s) ->
  index_of_padded (String "0" s) = index_of_padded s.
Proof.
  unfold index_of_padded. intros [n Hn].
  destruct (NilZero.uint_of_string s) as [d|] eqn:Hd; [|discriminate].
  rewrite (uint_of_string_zero _ _ Hd). reflexivity.
Qed.

Lemma index_of_decimal i :
  index_of_padded (NilZero.string_of_uint (Nat.to_uint i)) = Some i.
Proof.
  unfold index_of_padded. rewrite NilZero.usu.
  - rewrite DecimalNat.Unsigned.of_to. reflexivity.
  - intros Hnil. pose proof (f_equal Nat.of_uint Hnil) as H0.
    rewrite DecimalNat.Unsigned.of_to in H0. cbn in H0. subst i.
    discriminate Hnil.
Qed.

Lemma padded_num_round_trip i : index_of_padded (padded_num i) = Some i.
Proof.
  unfold padded_num.
  set (s := NilZero.string_of_uint (Nat.to_uint i)).
  pose proof (index_of_decimal i) as Hs. fold s in Hs. clearbody s.
  destruct (3 - String.length s) as [|[|[|k]]] eqn:Hk.
  - exact Hs.
  - change (index_of_padded (String "0" s) = Some i).
    rewrite index_of_padded_zero; [exact Hs|rewrite Hs; eauto].
  - change (index_of_padded (String "0" (String "0" s)) = Some i).
    rewrite !index_of_padded_zero; rewrite ?index_of_padded_zero, ?Hs; eauto.
  - destruct s; [discriminate Hs|]. cbn [String.length] in Hk. lia.
Qed.

Lemma string_length_app (s t : string) :
  String.length (s +:+ t) = String.length s + String.length t.
Proof. induction s as [|c s IH]; simpl; [reflexivity|]. rewrite IH. reflexivity. Qed.

Lemma string_app_inv_tail (s1 s2 t : string) : s1 +:+ t = s2 +:+ t -> s1 = s2.
Proof.
  revert s2. induction s1 as [|c s1 IH]; intros [|c' s2]; simpl; intros Heq.
  - reflexivity.
  - apply (f_equal String.length) in Heq.
    rewrite !string_length_app in Heq. simpl in Heq. lia.
  - apply (f_equal String.length) in Heq.
    rewrite !string_length_app in Heq. simpl in Heq. lia.
  - injection Heq as -> Heq. f_equal. apply IH, Heq.
Qed.

(** X15.  The file names of the render cache identify their index: the
    zero-padded number reads back as the index, also beyond 999, so two
    indices never share an appearance or a normal file name, and no
    appearance name is a normal name. *)
Theorem render_file_names_distinct (i j : nat) :
  index_of_padded (padded_num i) = Some i /\
  (rgb_name i = rgb_name j -> i = j) /\
  (normal_name i = normal_name j -> i = j) /\
  rgb_name i <> normal_name j.
Proof.
  assert (Hinj : padded_num i = padded_num j -> i = j).
  { intros Heq. pose proof (padded_num_round_trip i) as Hi.
    rewrite Heq, padded_num_round_trip in Hi. congruence. }
  split; [apply padded_num_round_trip|]. split; [|split].
  - unfold rgb_name. simpl. intros [= Heq].
    apply Hinj, (string_app_inv_tail _ _ ".png"), Heq.
  - unfold normal_name. simpl. intros [= Heq].
    apply Hinj, (string_app_inv_tail _ _ ".png"), Heq.
  - unfold rgb_name, normal_name. simpl. discriminate.
Qed.

(** ** Catalog builder *)

Lemma ascii_compare_lt_trans (a b c : ascii) :
  Ascii.compare a b = Lt -> Ascii.compare b c = Lt -> Ascii.compare a c = Lt.
Proof.
  unfold Ascii.compare. rewrite !N.compare_lt_iff. apply N.lt_trans.
Qed.

Lemma ascii_compare_refl (a : ascii) : Ascii.compare a a = Eq.
Proof. unfold Ascii.compare. apply N.compare_refl. Qed.

Lemma string_compare_refl (s : string) : String.compare s s = Eq.
Proof.
  induction s as [|a s IH]; simpl; [reflexivity|].
  rewrite ascii_compare_refl. exact IH.
Qed.

Lemma string_compare_lt_trans (s1 s2 s3 : string) :
  String.compare s1 s2 = Lt -> String.compare s2 s3 = Lt ->
  String.compare s1 s3 = Lt.
Proof.
  revert s2 s3. induction s1 as [|a s1 IH]; intros [|b s2] [|c s3]; simpl;
    try congruence.
  destruct (Ascii.compare a b) eqn:Hab; try discriminate;
    destruct (Ascii.compare b c) eqn:Hbc; try discriminate; intros H12 H23.
  - apply Ascii.compare_eq_iff in Hab, Hbc. subst.
    rewrite ascii_compare_refl.
    apply (IH _ _ H12 H23).
  - apply Ascii.compare_eq_iff in Hab. subst. rewrite Hbc. reflexivity.
  - apply Ascii.compare_eq_iff in Hbc. subst. rewrite Hab. reflexivity.
  - rewrite (ascii_compare_lt_trans _ _ _ Hab Hbc). reflexivity.
Qed.

Lemma path_compare_eq (p q : path) : path_compare p q = Eq -> p = q.
Proof.
  revert q. induction p as [|a p IH]; intros [|b q]; simpl; try congruence.
  destruct (String.compare a b) eqn:Hab; try discriminate.
  apply String.compare_eq_iff in Hab. intros Hpq. f_equal; auto.
Qed.

Lemma path_compare_refl (p : path) : path_compare p p = Eq.
Proof.
  induction p as [|a p IH]; simpl; [reflexivity|].
  rewrite string_compare_refl. exact IH.
Qed.

Lemma path_compare_lt_trans (p q r : path) :
  path_compare p q = Lt -> path_compare q r = Lt -> path_compare p r = Lt.
Proof.
  revert q r. induction p as [|a p IH]; intros [|b q] [|c r]; simpl;
    try congruence.
  destruct (String.compare a b) eqn:Hab; try discriminate;
    destruct (String.compare b c) eqn:Hbc; try discriminate; intros H12 H23.
  - apply String.compare_eq_iff in Hab, Hbc. subst.
    rewrite string_compare_refl. apply (IH _ _ H12 H23).
  - apply String.compare_eq_iff in Hab. subst. rewrite Hbc. reflexivity.
  - apply String.compare_eq_iff in Hbc. subst. rewrite Hab. reflexivity.
  - rewrite (string_compare_lt_trans _ _ _ Hab Hbc). reflexivity.
Qed.

Lemma path_leb_iff (p q : path) :
  path_leb p q = true <-> path_compare p q = Lt \/ p = q.
Proof.
  unfold path_leb, path_ltb. rewrite (path_compare_antisym p q).
  destruct (path_compare p q) eqn:Hpq; simpl; split; try tauto; try congruence.
  - intros _. right. apply path_compare_eq, Hpq.
  - intros [?|Heq]; [discriminate|]. subst q.
    rewrite path_compare_refl in Hpq. discriminate.
Qed.

Lemma path_leb_trans (p q r : path) :
  path_leb p q = true -> path_leb q r = true -> path_leb p r = true.
Proof.
  rewrite !path_leb_iff. intros [Hpq|Hpq] [Hqr|Hqr]; subst; auto.
  left. apply (path_compare_lt_trans _ _ _ Hpq Hqr).
Qed.

Lemma path_leb_antisym (p q : path) :
  path_leb p q = true -> path_leb q p = true -> p = q.
Proof.
  rewrite !path_leb_iff. intros [Hpq|Hpq] [Hqp|Hqp]; subst; auto.
  rewrite (path_compare_antisym p q), Hpq in Hqp. discriminate.
Qed.

(** Insertions commute, so the sorted list does not depend on the order
    in which the paths were listed. *)
Lemma insert_sorted_comm (x y : path) (l : list path) :
  insert_sorted x (insert_sorted y l) = insert_sorted y (insert_sorted x l).
Proof.
  induction l as [|z l IH]; simpl.
  - destruct (path_leb x y) eqn:Hxy, (path_leb y x) eqn:Hyx; try reflexivity.
    + rewrite (path_leb_antisym _ _ Hxy Hyx). reflexivity.
    + apply path_leb_total in Hxy. congruence.
  - destruct (path_leb y z) eqn:Hyz, (path_leb x z) eqn:Hxz; simpl.
    + rewrite Hyz, Hxz.
      destruct (path_leb x y) eqn:Hxy, (path_leb y x) eqn:Hyx; try reflexivity.
      * rewrite (path_leb_antisym _ _ Hxy Hyx). reflexivity.
      * apply path_leb_total in Hxy. congruence.
    + rewrite Hyz, Hxz.
      destruct (path_leb x y) eqn:Hxy; [|reflexivity].
      rewrite (path_leb_trans _ _ _ Hxy Hyz) in Hxz. discriminate.
    + rewrite Hyz, Hxz.
      destruct (path_leb y x) eqn:Hyx; [|reflexivity].
      rewrite (path_leb_trans _ _ _ Hyx Hxz) in Hyz. discriminate.
    + rewrite Hyz, Hxz, IH. reflexivity.
Qed.

Lemma sorted_Permutation (l1 l2 : list path) :
  Permutation l1 l2 -> sorted l1 = sorted l2.
Proof.
  induction 1 as [|x l1 l2 _ IH|x y l|l1 l2 l3 _ IH1 _ IH2]; simpl.
  - reflexivity.
  - rewrite IH. reflexivity.
  - apply insert_sorted_comm.
  - congruence.
Qed.

(** X16.  The YCB catalog depends on the set of mesh paths, not on the
    order in which the file system lists them: two file systems whose
    recursive listings of [*.ply] are permutations of one another give the
    same catalog. *)
Theorem make_ycb_object_dataset_listing_order `{YcbNames}
    (fs1 fs2 : node) (cad_model_dir : path) :
  Permutation (rglob fs1 cad_model_dir ".ply") (rglob fs2 cad_model_dir ".ply") ->
  make_ycb_object_dataset fs1 cad_model_dir
  = make_ycb_object_dataset fs2 cad_model_dir.
Proof.
  intros Hperm. unfold make_ycb_object_dataset.
  rewrite (sorted_Permutation _ _ Hperm). reflexivity.
Qed.

(** X17.  The labels of the YCB catalog are the first names of the
    table, one per mesh file found: they depend on how many [*.ply] files
    there are and not on what the files are called. *)
Theorem make_ycb_object_dataset_labels `{YcbNames}
    (fs : node) (cad_model_dir : path) (ds : RigidObjectDataset) :
  make_ycb_object_dataset fs cad_model_dir = Ok ds ->
  map ro_label (list_objects ds)
  = map (fun i => convert_number (i + 1))
        (seq 0 (length (rglob fs cad_model_dir ".ply"))).
Proof.
  unfold make_ycb_object_dataset. intros Hds.
  apply make_RigidObjectDataset_Ok in Hds as [-> _].
  rewrite ycb_rigid_objects_labels, sorted_length. reflexivity.
Qed.

(** X18.  On a path that is not a directory the two catalog builders
    differ: the YCB builder finds no file and returns the empty catalog,
    the generic builder raises. *)
Theorem catalog_builders_without_directory `{YcbNames}
    (fs : node) (cad_model_dir : path) :
  (forall es, resolve fs cad_model_dir <> Ok (Dir es)) ->
  make_ycb_object_dataset fs cad_model_dir = Ok {| list_objects := [] |} /\
  exists e, make_object_dataset fs cad_model_dir = Raise e /\
            (e = NotADirectoryError cad_model_dir \/
             resolve fs cad_model_dir = Raise e).
Proof.
  intros Hnot. split.
  - unfold make_ycb_object_dataset, rglob.
    destruct (resolve fs cad_model_dir) as [[?|es]|?]; try reflexivity.
    destruct (Hnot es). reflexivity.
  - unfold make_object_dataset, iterdir.
    destruct (resolve fs cad_model_dir) as [[?|es]|e]; cbn.
    + eexists. split; [reflexivity|]. left. reflexivity.
    + destruct (Hnot es). reflexivity.
    + exists e. split; [reflexivity|]. right. reflexivity.
Qed.

Lemma make_ycb_object_dataset_listing_order_witness :
  @make_ycb_object_dataset ycb_names example_models ["models"]
  = @make_ycb_object_dataset ycb_names example_models_relisted ["models"].
Proof.
  apply (@make_ycb_object_dataset_listing_order ycb_names).
  apply (bool_decide_unpack _). vm_compute. exact I.
Defined.

Lemma make_ycb_object_dataset_labels_witness :
  map ro_label (ycb_rigid_objects (H := ycb_names)
                  (sorted (rglob example_models ["models"] ".ply")))
  = ["002_master_chef_can"; "003_cracker_box"; "004_sugar_box"].
Proof.
  apply (@make_ycb_object_dataset_labels ycb_names example_models ["models"]
           {| list_objects := _ |}).
  vm_compute. reflexivity.
Defined.

Lemma catalog_builders_without_directory_witness :
  @make_ycb_object_dataset ycb_names example_models ["nowhere"]
  = Ok {| list_objects := [] |} /\
  exists e, make_object_dataset example_models ["nowhere"] = Raise e /\
            (e = NotADirectoryError ["nowhere"] \/
             resolve example_models ["nowhere"] = Raise e).
Proof.
  apply (@catalog_builders_without_directory ycb_names example_models ["nowhere"]).
  intros es. vm_compute. discriminate.
Defined.

Lemma rfind_dot_stem (stem ext : string) (i : nat) :
  (forall k, rfind_dot ext k = None) ->
  rfind_dot (stem +:+ String "." ext) i = Some (i + String.length stem).
Proof.
  intros Hext. revert i. induction stem as [|c stem IH]; intros i; simpl.
  - rewrite Hext. f_equal. lia.
  - rewrite IH. f_equal. lia.
Qed.

Lemma substring_all (t : string) : substring 0 (String.length t) t = t.
Proof. induction t as [|c t IH]; simpl; [reflexivity|]. rewrite IH. reflexivity. Qed.

Lemma substring_app_tail (s t : string) :
  substring (String.length s) (String.length t) (s +:+ t) = t.
Proof. induction s as [|c s IH]; simpl; [apply substring_all|exact IH]. Qed.

Lemma substring_split (i : nat) (nm : string) :
  i <= String.length nm ->
  nm = substring 0 i nm +:+ substring i (String.length nm - i) nm.
Proof.
  revert nm. induction i as [|i IH]; intros nm Hi.
  - rewrite Nat.sub_0_r, substring_all. destruct nm; reflexivity.
  - destruct nm as [|c nm]; simpl in Hi; [lia|].
    change (String c nm
            = String c (substring 0 i nm
                        +:+ substring i (String.length nm - i) nm)).
    f_equal. apply IH. lia.
Qed.

(** The suffix of a name made of a non-empty stem, a dot and an extension
    without dots. *)
Lemma suffix_stem_ext (fn : path) (stem ext : string) :
  stem <> "" -> ext <> "" -> (forall k, rfind_dot ext k = None) ->
  name fn = stem +:+ String "." ext ->
  suffix fn = String "." ext.
Proof.
  intros Hstem Hext Hdots Hname. unfold suffix. rewrite Hname.
  rewrite (rfind_dot_stem _ _ _ Hdots). cbn [Nat.add].
  rewrite string_length_app. cbn [String.length].
  assert (Hs : 0 < String.length stem) by (destruct stem; [congruence|simpl; lia]).
  assert (He : 0 < String.length ext) by (destruct ext; [congruence|simpl; lia]).
  rewrite (proj2 (Nat.ltb_lt _ _) Hs).
  rewrite (proj2 (Nat.ltb_lt (String.length stem) _)) by lia. cbn [andb].
  replace (String.length stem + S (String.length ext) - String.length stem)
    with (String.length (String "." ext)) by (simpl; lia).
  apply substring_app_tail.
Qed.

Lemma suffix_inv (fn : path) (e : string) :
  suffix fn = e -> e <> "" ->
  exists stem, stem <> "" /\ name fn = stem +:+ e.
Proof.
  unfold suffix. intros Hsuf He.
  destruct (rfind_dot (name fn) 0) as [i|]; [|congruence].
  destruct (0 <? i)%nat eqn:H0; [|cbn in Hsuf; congruence].
  destruct (i <? String.length (name fn) - 1)%nat eqn:H1; [|cbn in Hsuf; congruence].
  cbn in Hsuf. apply Nat.ltb_lt in H0, H1.
  exists (substring 0 i (name fn)). split.
  - destruct i; [lia|]. destruct (name fn); [simpl in H1; lia|]. discriminate.
  - rewrite <- Hsuf. apply substring_split. lia.
Qed.

(** X19.  What counts as a mesh in [make_object_dataset]: an entry whose
    name is a non-empty stem followed by [.obj] or [.ply], in lower case.
    A name that is only [.obj], or one in capitals, does not count. *)
Theorem mesh_extension_rule (fn : path) :
  is_mesh fn = true <->
  exists stem, stem <> "" /\
               (name fn = stem +:+ ".obj" \/ name fn = stem +:+ ".ply").
Proof.
  unfold is_mesh. rewrite orb_true_iff, !String.eqb_eq. split.
  - intros [Hs|Hs]; destruct (suffix_inv _ _ Hs) as (stem & Hstem & Hname);
      try discriminate; exists stem; auto.
  - intros (stem & Hstem & [Hname|Hname]); [left|right];
      apply (suffix_stem_ext _ stem); try assumption; try discriminate;
      reflexivity.
Qed.

(** ** Construction and detections *)

(** X20.  A [Megapose] object exists only if every start-up step went
    through: the camera file [data/ycbv_camera_data.json] is its camera,
    its catalog is the YCB catalog of [bop_datasets/ycbv/models], all in
    millimeters, the model was loaded for that catalog and moved to the
    device, and the renders attached are those [load_renders] returns for
    [data/ycbv_generated]. *)
Theorem Megapose_init_Ok `{CameraJson} `{YcbNames} `{ModelLoader}
    (fs : node) (dev : string) (self : Megapose) :
  Megapose_init fs dev = Ok self ->
  device self = dev /\
  load_camera_data fs ["data"; "ycbv_camera_data.json"] = Ok (camera_data self) /\
  make_ycb_object_dataset fs ["bop_datasets"; "ycbv"; "models"]
  = Ok (object_dataset self) /\
  Forall (fun o => mesh_units o = "mm") (list_objects (object_dataset self)) /\
  exists renders loaded moved,
    load_renders fs ["data"; "ycbv_generated"] = Ok renders /\
    load_named_model (model_name self) (models_path self) (object_dataset self)
    = Ok loaded /\
    to_device loaded dev = Ok moved /\
    attach_renders moved renders = Ok (pose_estimator self).
Proof.
  unfold Megapose_init. cbn zeta.
  destruct (NAMED_MODELS _) as [info|]; [|discriminate].
  cbn [mbind result_bind rbind].
  destruct (load_camera_data fs ["data"; "ycbv_camera_data.json"]) as [cam|];
    [|discriminate].
  cbn [mbind result_bind rbind].
  destruct (make_ycb_object_dataset fs ["bop_datasets"; "ycbv"; "models"])
    as [ds|] eqn:Hds; [|discriminate].
  cbn [mbind result_bind rbind].
  destruct (load_named_model _ _ ds) as [loaded|] eqn:Hloaded; [|discriminate].
  cbn [mbind result_bind rbind].
  destruct (to_device loaded dev) as [moved|] eqn:Hmoved; [|discriminate].
  cbn [mbind result_bind rbind].
  destruct (load_renders fs ["data"; "ycbv_generated"]) as [renders|];
    [|discriminate].
  cbn [mbind result_bind rbind].
  destruct (attach_renders moved renders) as [attached|] eqn:Hatt;
    [|discriminate].
  cbn [mbind result_bind rbind].
  intros [= <-]. cbn. repeat split; try reflexivity.
  - unfold make_ycb_object_dataset in Hds.
    apply make_RigidObjectDataset_Ok in Hds as [-> _].
    unfold ycb_rigid_objects. apply Forall_map, Forall_forall. reflexivity.
  - exists renders, loaded, moved. auto.
Qed.

Lemma Megapose_init_Ok_witness :
  exists self,
    @Megapose_init simple_camera_json ycb_names simple_model_loader
       startup_fs "cuda" = Ok self /\
    map ro_label (list_objects (object_dataset self))
    = ["002_master_chef_can"; "003_cracker_box"] /\
    Forall (fun o => mesh_units o = "mm") (list_objects (object_dataset self)).
Proof.
  eexists. split; [vm_compute; reflexivity|]. split; [reflexivity|].
  eapply (@Megapose_init_Ok simple_camera_json ycb_names simple_model_loader
            startup_fs "cuda").
  vm_compute. reflexivity.
Defined.

(** X21.  [load_detections] reads [inputs/object_data.json] and hands
    the adapter whatever the file lists, without a check that the list is
    not empty: an empty JSON array reaches the adapter as the empty list.
    When the file cannot be read, the error is raised and the adapter is
    not called. *)
Theorem load_detections_edges `{FloatJson} `{PoseEstimator}
    (fs : node) (example_dir : path) :
  (read_text fs (example_dir ++ ["inputs"; "object_data.json"])
   = Ok (JsonText (JArr [])) ->
   load_detections fs example_dir
   = ([CallMakeDetections []], make_detections_from_object_data [])) /\
  (forall e,
     read_text fs (example_dir ++ ["inputs"; "object_data.json"]) = Raise e ->
     load_detections fs example_dir = ([], Raise e)).
Proof.
  unfold load_detections, load_object_data. split.
  - intros ->. cbn. destruct (make_detections_from_object_data []); reflexivity.
  - intros e ->. reflexivity.
Qed.

Lemma load_detections_edges_witness :
  @load_detections exact_float_json simple_estimator
     (Dir [("example",
            Dir [("inputs", Dir [("object_data.json", File (JsonText (JArr [])))])])])
     ["example"]
  = ([CallMakeDetections []], Ok []) /\
  @load_detections exact_float_json simple_estimator (example_fs 2 2) ["example"]
  = ([], Raise (FileNotFoundError ["example"; "inputs"; "object_data.json"])).
Proof.
  split.
  - exact (proj1 (@load_detections_edges exact_float_json simple_estimator
                    (Dir [("example",
                           Dir [("inputs",
                                 Dir [("object_data.json",
                                       File (JsonText (JArr [])))])])])
                    ["example"]) eq_refl).
  - exact (proj2 (@load_detections_edges exact_float_json simple_estimator
                    (example_fs 2 2) ["example"]) _ eq_refl).
Defined.

(** ** Visualization compositor *)

Lemma export_stage_figures `{Visualizer} example_dir rgb renderings_rgb fs :
  export_stage example_dir rgb renderings_rgb fs =
  match build_figures rgb renderings_rgb with
  | Ok (fig_mesh_overlay, fig_contour_overlay, fig_all) =>
      let vis_dir := example_dir ++ ["visualizations"] in
      (_ ← mkdir_exist_ok vis_dir;
       _ ← export_png fig_mesh_overlay (vis_dir ++ ["mesh_overlay.png"]);
       _ ← export_png fig_contour_overlay (vis_dir ++ ["contour_overlay.png"]);
       export_png fig_all (vis_dir ++ ["all_results.png"])) fs
  | Raise e => (fs, Raise e)
  end.
Proof.
  unfold export_stage, build_figures.
  destruct (plot_image rgb) as [fig_rgb|]; [|reflexivity].
  rewrite pure_Ok_bind. cbn [mbind result_bind rbind].
  destruct (plot_overlay rgb renderings_rgb) as [fig_mesh|]; [|reflexivity].
  rewrite pure_Ok_bind. cbn [mbind result_bind rbind].
  destruct (make_contour_overlay rgb renderings_rgb 1 (0, 255, 0)%Z)
    as [contour|]; [|reflexivity].
  rewrite pure_Ok_bind. cbn [mbind result_bind rbind].
  destruct (plot_image contour) as [fig_contour|]; [|reflexivity].
  rewrite pure_Ok_bind. cbn [mbind result_bind rbind].
  destruct (gridplot _) as [fig_all|]; reflexivity.
Qed.

(** X22.  How the export fails.  A failure while the figures are built
    leaves the file system as it was: not even the [visualizations]
    directory is created.  A failure of the second export leaves the first
    file behind: the directory then holds [mesh_overlay.png] without the
    other two. *)
Theorem export_stage_failures `{Visualizer}
    (example_dir : path) (rgb renderings_rgb : ndarray Z) (fs : node) :
  (forall e,
     build_figures rgb renderings_rgb = Raise e ->
     export_stage example_dir rgb renderings_rgb fs = (fs, Raise e)) /\
  (forall fig_mesh_overlay fig_contour_overlay fig_all im e ves,
     build_figures rgb renderings_rgb
     = Ok (fig_mesh_overlay, fig_contour_overlay, fig_all) ->
     export_png_image fig_mesh_overlay = Ok im ->
     export_png_image fig_contour_overlay = Raise e ->
     visualizations_before fs example_dir ves ->
     not_a_directory "mesh_overlay.png" ves ->
     exists fs1,
       export_stage example_dir rgb renderings_rgb fs = (fs1, Raise e) /\
       resolve fs1 (example_dir ++ ["visualizations"])
       = Ok (Dir (assoc_set "mesh_overlay.png" (File (PngData im)) ves))).
Proof.
  split.
  - intros e Hfig. rewrite export_stage_figures, Hfig. reflexivity.
  - intros fm fc fa im e ves Hfig Him Hic Hbefore Hfree.
    rewrite export_stage_figures, Hfig. cbn zeta.
    destruct (mkdir_visualizations _ _ _ Hbefore) as (fs0 & Hmk & Hres0).
    rewrite io_bind_unfold, Hmk.
    destruct (export_png_listing fs0 _ _ "mesh_overlay.png" _ _ Him Hres0 Hfree)
      as (fs1 & Hw1 & Hres1).
    rewrite io_bind_unfold, Hw1. exists fs1. split; [|exact Hres1].
    rewrite io_bind_unfold. unfold export_png at 1. rewrite Hic.
    rewrite pure_Raise_bind. reflexivity.
Qed.

Lemma export_stage_failures_witness :
  exists fs1,
    @export_stage fragile_visualizer ["example"] example_image
       (blank_array (Some [2; 2])) (example_fs 2 2)
    = (fs1, Raise (LibraryError "webdriver")) /\
    listdir fs1 ["example"; "visualizations"] = Ok ["mesh_overlay.png"].
Proof.
  destruct (proj2 (@export_stage_failures fragile_visualizer ["example"]
                     example_image (blank_array (Some [2; 2])) (example_fs 2 2))
              _ _ _ _ _ [] eq_refl eq_refl eq_refl) as (fs1 & Hrun & Hres).
  - right. split; [reflexivity|].
    exists (example_entries 2 2). split; reflexivity.
  - intros d. discriminate.
  - exists fs1. split; [exact Hrun|].
    unfold listdir. simpl app in Hres. rewrite Hres. reflexivity.
Defined.
